(** * Spinbox example templates: a shallow embedding and its properties

    The repository is a corpus of independent example scripts.  Each module
    below embeds the functions of one script; library calls the scripts
    delegate to (tiktoken, json, the Redis client, the OpenAI client,
    scikit-learn) are taken as section variables or as replies of an
    explicit handler, so every statement holds for any behaviour of the
    library.

    Python values are modelled as follows.
    - [str]: a Rocq [string], one character per code point (code points
      below 256).
    - [int]: [Z].  [float]: IEEE 754 binary64, as the primitive [float].
    - a number that may be an [int] or a [float] at run time: [pynum].
    - an expression that may raise: [pyres], with the exception as [exn].
    - [dict]: an association list in insertion order. *)

From Stdlib Require Import ZArith Ascii String DecimalString DecimalZ Floats.
From stdpp Require Import base tactics option list strings gmap sorting.

Set Warnings "-inexact-float,-register-all".
Local Open Scope string_scope.
Local Open Scope Z_scope.
Local Open Scope list_scope.

(** ** Exceptions and results *)

(** The subclasses of Python's [Exception] that the embedded code raises or
    catches.  [ValidationError] is pydantic's, raised when a model is built
    from a value that its field does not admit.  [LibError] stands for any
    exception raised inside a library call. *)
Inductive exn : Type :=
  | HTTPException (status_code : Z) (detail : string)
  | ZeroDivisionError
  | OverflowError
  | JSONDecodeError (msg : string)
  | TypeError (msg : string)
  | KeyError (key : string)
  | DataError (msg : string)
  | ValidationError
  | LibError (msg : string).

Inductive pyres (A : Type) : Type :=
  | Ok (a : A)
  | Raise (e : exn).
Arguments Ok {A} a.
Arguments Raise {A} e.

#[global] Instance pyres_ret : MRet pyres := @Ok.

#[global] Instance pyres_bind : MBind pyres := fun A B k m =>
  match m with
  | Ok a => k a
  | Raise e => Raise e
  end.

#[global] Instance pyres_fmap : FMap pyres := fun A B f m =>
  match m with
  | Ok a => Ok (f a)
  | Raise e => Raise e
  end.

(** [try: m  except Exception as e: h e] *)
Definition try_except {A} (m : pyres A) (h : exn -> pyres A) : pyres A :=
  match m with
  | Ok a => Ok a
  | Raise e => h e
  end.

(** ** Python numbers *)

Module PyNum.

Inductive pynum : Type :=
  | PInt (z : Z)
  | PFloat (f : float).

Definition sf_of_Z (z : Z) : spec_float :=
  match z with
  | Z0 => S754_zero false
  | Zpos p => S754_finite false p 0
  | Zneg p => S754_finite true p 0
  end.

(** [float(z)]: the nearest binary64 value, ties to even.  CPython raises
    [OverflowError] where the nearest value is infinite. *)
Definition float_of_Z (z : Z) : pyres float :=
  match binary_normalize prec emax z 0 false with
  | S754_infinity _ => Raise OverflowError
  | sf => Ok (SF2Prim sf)
  end.

(** [a / b] on two [int]s: the correctly rounded quotient of the exact
    integers (CPython's [long_true_divide]). *)
Definition int_truediv (a b : Z) : pyres float :=
  if decide (b = 0) then Raise ZeroDivisionError
  else match SFdiv prec emax (sf_of_Z a) (sf_of_Z b) with
       | S754_infinity _ => Raise OverflowError
       | sf => Ok (SF2Prim sf)
       end.

Definition float_truediv (x y : float) : pyres float :=
  if PrimFloat.eqb y 0%float then Raise ZeroDivisionError
  else Ok (PrimFloat.div x y).

Definition to_float (x : pynum) : pyres float :=
  match x with
  | PInt z => float_of_Z z
  | PFloat f => Ok f
  end.

(** [x / y] *)
Definition truediv (x y : pynum) : pyres float :=
  match x, y with
  | PInt a, PInt b => int_truediv a b
  | _, _ =>
      fx ← to_float x; fy ← to_float y; float_truediv fx fy
  end.

(** [x * y] *)
Definition mul (x y : pynum) : pyres pynum :=
  match x, y with
  | PInt a, PInt b => Ok (PInt (a * b))
  | _, _ =>
      fx ← to_float x; fy ← to_float y;
      Ok (PFloat (PrimFloat.mul fx fy))
  end.

(** [x + y] *)
Definition add (x y : pynum) : pyres pynum :=
  match x, y with
  | PInt a, PInt b => Ok (PInt (a + b))
  | _, _ =>
      fx ← to_float x; fy ← to_float y;
      Ok (PFloat (PrimFloat.add fx fy))
  end.

Definition is_float (x : pynum) : bool :=
  match x with PFloat _ => true | PInt _ => false end.

Definition is_int (x : pynum) : bool :=
  match x with PInt _ => true | PFloat _ => false end.

End PyNum.
Export PyNum.

(** ** Python strings *)

Module PyStr.

(** [len(s)] *)
Definition len (s : string) : Z := Z.of_nat (String.length s).

(** [c.isspace()] on the code points below 256: U+0009..U+000D,
    U+001C..U+0020, U+0085 and U+00A0. *)
Definition isspace (c : ascii) : bool :=
  let n := nat_of_ascii c in
  ((9 <=? n)%nat && (n <=? 13)%nat) || ((28 <=? n)%nat && (n <=? 32)%nat)
  || (n =? 133)%nat || (n =? 160)%nat.

Definition flush (w : string) : list string :=
  match w with
  | EmptyString => []
  | _ => [w]
  end.

(** [split_from s w]: the words of [s], where [w] is the word read so
    far. *)
Fixpoint split_from (s : string) (w : string) : list string :=
  match s with
  | EmptyString => flush w
  | String c s' =>
      if isspace c then flush w ++ split_from s' EmptyString
      else split_from s' (w +:+ String c EmptyString)
  end.

(** [s.split()]: the maximal runs of non-whitespace characters. *)
Definition split (s : string) : list string := split_from s EmptyString.

End PyStr.

(** ** Python lists *)

Module PyList.

(** [l[:k]]: a negative [k] counts from the end. *)
Definition slice_to {A} (l : list A) (k : Z) : list A :=
  if decide (0 ≤ k) then take (Z.to_nat k) l
  else take (Z.to_nat (Z.of_nat (length l) + k)) l.

(** The place of a float that is not NaN in the order of [<]: the sign
    class, then the exponent, then the mantissa. *)
Definition rank (x : spec_float) : Z * Z * Z :=
  match x with
  | S754_infinity true => (-2, 0, 0)
  | S754_finite true m e => (-1, - e, - Z.pos m)
  | S754_zero _ | S754_nan => (0, 0, 0)
  | S754_finite false m e => (1, e, Z.pos m)
  | S754_infinity false => (2, 0, 0)
  end.

Definition rank_le (a b : Z * Z * Z) : Prop :=
  a.1.1 < b.1.1
  \/ (a.1.1 = b.1.1
      /\ (a.1.2 < b.1.2 \/ (a.1.2 = b.1.2 /\ a.2 <= b.2))).

Section Sort.
Context {A : Type}.
Variable key : A -> float.

(** [insert_desc x l]: [x] stood before every element of [l] in the
    input; it goes in front of the first element whose key is not
    greater than its own. *)
Fixpoint insert_desc (x : A) (l : list A) : list A :=
  match l with
  | [] => [x]
  | y :: l' =>
      if PrimFloat.ltb (key x) (key y) then y :: insert_desc x l'
      else x :: y :: l'
  end.

(** [l.sort(key=key, reverse=True)]: the stable sort by decreasing key
    (for keys that [<] orders totally, that is without NaN, the
    result of a stable sort is unique). *)
Definition sort_desc (l : list A) : list A := foldr insert_desc [] l.

(** [a] may stand before [b] in a list sorted by decreasing key. *)
Definition key_ge (a b : A) : Prop := PrimFloat.leb (key b) (key a) = true.
End Sort.

End PyList.

(** ** Python values stored in caches and databases *)

Module PyVal.

(** Dictionary keys: [str] or [int]. *)
Inductive pykey : Type :=
  | KStr (s : string)
  | KInt (z : Z).

(** The float-free values: [None], [bool], [int], [str], [list], [tuple]
    and [dict] (an association list in insertion order, without
    duplicate keys). *)
Inductive pyval : Type :=
  | VNone
  | VBool (b : bool)
  | VInt (z : Z)
  | VStr (s : string)
  | VList (l : list pyval)
  | VTuple (l : list pyval)
  | VDict (d : list (pykey * pyval)).

#[global] Instance pykey_eq_dec : EqDecision pykey.
Proof. solve_decision. Defined.

(** [bool(v)] *)
Definition truthy (v : pyval) : bool :=
  match v with
  | VNone => false
  | VBool b => b
  | VInt z => negb (z =? 0)
  | VStr s => negb (String.eqb s "")
  | VList l | VTuple l => match l with [] => false | _ => true end
  | VDict d => match d with [] => false | _ => true end
  end.

(** [isinstance(v, (dict, list))] *)
Definition is_dict_or_list (v : pyval) : bool :=
  match v with
  | VDict _ | VList _ => true
  | _ => false
  end.

(** [d.get(k)] *)
Fixpoint dict_get (k : pykey) (d : list (pykey * pyval)) : option pyval :=
  match d with
  | [] => None
  | (k', v) :: d' => if decide (k = k') then Some v else dict_get k d'
  end.

(** [d[k] = v]: an existing key keeps its place. *)
Fixpoint dict_set (k : pykey) (v : pyval) (d : list (pykey * pyval))
  : list (pykey * pyval) :=
  match d with
  | [] => [(k, v)]
  | (k', v') :: d' =>
      if decide (k = k') then (k, v) :: d' else (k', v') :: dict_set k v d'
  end.

(** [d.update(other)] *)
Definition dict_update (d other : list (pykey * pyval))
  : list (pykey * pyval) :=
  foldl (fun acc kv => dict_set kv.1 kv.2 acc) d other.

End PyVal.
Export PyVal.

(** ** example-embeddings.py: [OpenAIEmbeddingsClient] *)

Module EmbeddingsClient.

(** The dict returned by [get_embedding]; an absent key is [None]. *)
Record emb_result : Type := EmbResult {
  r_error : option string;
  r_embedding : option (list float);
  r_tokens_used : Z;
  r_cost : float;
  r_cached : option bool
}.

(** A dict appended to [results] in [find_most_similar]. *)
Record sim_hit : Type := SimHit {
  document : string;
  similarity : float;
  index : nat;
  tokens_used : Z;
  cost : float;
  cached : option bool
}.

(** An element of the list returned by [find_most_similar]: the dict
    [{"error": ...}] or a hit. *)
Inductive sim_entry : Type :=
  | ErrorEntry (error : string)
  | Hit (h : sim_hit).

(** The mutable fields of the client; [tick] counts the calls made to
    the outside world (the embeddings endpoint and the cache file), so
    that the world may answer differently each time. *)
Record client : Type := Client {
  model : string;
  total_tokens : Z;
  total_cost : float;
  request_count : Z;
  cache : gmap string (list float);
  tick : nat
}.

Definition pricing : gmap string float :=
  <["text-embedding-3-large" := 0.00013%float]>
    (<["text-embedding-3-small" := 0.00002%float]>
       (<["text-embedding-ada-002" := 0.0001%float]> ∅)).

(** [count_tokens]: [len(text) // 4]. *)
Definition count_tokens (text : string) : Z := PyStr.len text `div` 4.

(** [calculate_cost]:
    [rate = self.pricing.get(self.model, 0.0001);
     return (tokens / 1000) * rate]. *)
Definition calculate_cost (self : client) (tokens : Z) : pyres float :=
  let rate := default 0.0001%float (pricing !! model self) in
  q ← PyNum.int_truediv tokens 1000;
  Ok (PrimFloat.mul q rate).

(** [d.get("error")] used as a condition: the key is present and its
    string is not empty. *)
Definition has_error (r : emb_result) : bool :=
  match r_error r with
  | Some msg => negb (String.eqb msg "")
  | None => false
  end.

(** The dict returned by [calculate_similarity]: the error form, with the
    two error messages, or the similarity form. *)
Inductive similarity_result : Type :=
  | SimilarityError (text1_error text2_error : option string)
  | SimilarityOk (similarity : float) (tokens_used : Z) (cost : float)
                 (text1_cached text2_cached : option bool).

Section World.

(** [hashlib.md5(s.encode()).hexdigest()] *)
Variable md5_hex : string -> string.
(** [self.client.embeddings.create(input, model)] followed by
    [response.data[0].embedding], as answered at a given tick. *)
Variable embeddings_create : nat -> string -> string -> pyres (list float).
(** [self.save_cache()] (writes a file), as answered at a given tick. *)
Variable save_cache : nat -> pyres unit.
(** [cosine_similarity(x.reshape(1, -1), y.reshape(1, -1))[0][0]] on
    two numeric vectors: scikit-learn raises on vectors of different
    lengths, on empty ones and on entries that are not finite. *)
Variable cosine_similarity : list float -> list float -> pyres float.
(** [str(e)] *)
Variable str : exn -> string.

Definition get_cache_key (self : client) (text : string) : string :=
  md5_hex (model self +:+ ":" +:+ text).

Definition error_result (e : exn) : emb_result :=
  EmbResult (Some (str e)) None 0 0%float None.

Definition bump (self : client) : client :=
  Client (model self) (total_tokens self) (total_cost self)
         (request_count self) (cache self) (S (tick self)).

(** [get_embedding(text)] with [use_cache=True]. *)
Definition get_embedding (text : string) (self : client)
  : emb_result * client :=
  let cache_key := get_cache_key self text in
  match cache self !! cache_key with
  | Some e => (EmbResult None (Some e) 0 0%float (Some true), self)
  | None =>
      let tokens := count_tokens text in
      match embeddings_create (tick self) text (model self) with
      | Raise e => (error_result e, bump self)
      | Ok embedding =>
          let self := bump self in
          match calculate_cost self tokens with
          | Raise e => (error_result e, self)
          | Ok cost =>
              let self :=
                Client (model self) (total_tokens self + tokens)
                       (PrimFloat.add (total_cost self) cost)
                       (request_count self + 1)
                       (<[cache_key := embedding]> (cache self))
                       (tick self) in
              match save_cache (tick self) with
              | Raise e => (error_result e, bump self)
              | Ok _ =>
                  (EmbResult None (Some embedding) tokens cost
                             (Some false), bump self)
              end
          end
      end
  end.

(** The similarity of two looked-up embeddings; [np.array(None)] is not
    numeric and scikit-learn's input validation raises on it.  Neither
    caller catches what the call raises. *)
Definition similarity_of (q d : option (list float)) : pyres float :=
  match q, d with
  | Some qe, Some de => cosine_similarity qe de
  | _, _ => Raise (LibError "non-numeric input")
  end.

(** The [for i, doc in enumerate(documents)] loop of
    [find_most_similar], from index [i] on, with [results] built so
    far. *)
Fixpoint similar_loop (query_embedding : option (list float))
    (i : nat) (documents : list string) (results : list sim_hit)
    (self : client) : pyres (list sim_hit) * client :=
  match documents with
  | [] => (Ok results, self)
  | doc :: rest =>
      let '(doc_result, self) := get_embedding doc self in
      if has_error doc_result
      then similar_loop query_embedding (S i) rest results self
      else
        match similarity_of query_embedding (r_embedding doc_result) with
        | Raise e => (Raise e, self)
        | Ok similarity =>
            similar_loop query_embedding (S i) rest
              (results ++ [SimHit doc similarity i
                             (r_tokens_used doc_result)
                             (r_cost doc_result)
                             (r_cached doc_result)])
              self
        end
  end.

(** [find_most_similar(query, documents, top_k)] *)
Definition find_most_similar (query : string) (documents : list string)
    (top_k : Z) (self : client) : pyres (list sim_entry) * client :=
  let '(query_result, self) := get_embedding query self in
  if has_error query_result
  then (Ok [ErrorEntry ("Failed to get query embedding: "
                         +:+ default "" (r_error query_result))], self)
  else
    match similar_loop (r_embedding query_result) 0 documents [] self with
    | (Raise e, self) => (Raise e, self)
    | (Ok results, self) =>
        (Ok (Hit <$> PyList.slice_to
                       (PyList.sort_desc similarity results) top_k),
         self)
    end.

(** [calculate_similarity(text1, text2)]: both texts are looked up
    before the results are tested. *)
Definition calculate_similarity (text1 text2 : string) (self : client)
  : pyres similarity_result * client :=
  let '(result1, self) := get_embedding text1 self in
  let '(result2, self) := get_embedding text2 self in
  if has_error result1 || has_error result2
  then (Ok (SimilarityError (r_error result1) (r_error result2)), self)
  else
    match similarity_of (r_embedding result1) (r_embedding result2) with
    | Raise e => (Raise e, self)
    | Ok similarity =>
        (Ok (SimilarityOk similarity
               (r_tokens_used result1 + r_tokens_used result2)
               (PrimFloat.add (r_cost result1) (r_cost result2))
               (r_cached result1) (r_cached result2)), self)
    end.

(** *** What the loop computes

    [lookup_all documents self]: the results of looking the documents up
    one after the other, and the client afterwards. *)
Fixpoint lookup_all (documents : list string) (self : client)
  : list emb_result * client :=
  match documents with
  | [] => ([], self)
  | doc :: rest =>
      let '(doc_result, self) := get_embedding doc self in
      let '(results, self) := lookup_all rest self in
      (doc_result :: results, self)
  end.

(** [hits_of q i documents lookups]: one hit for each document, numbered
    from [i], whose lookup has no error; the first exception of
    [cosine_similarity] if it raises for one of them. *)
Fixpoint hits_of (q : list float) (i : nat) (documents : list string)
    (lookups : list emb_result) : pyres (list sim_hit) :=
  match documents, lookups with
  | doc :: documents', r :: lookups' =>
      match has_error r, r_embedding r with
      | false, Some d =>
          similarity ← cosine_similarity q d;
          hits ← hits_of q (S i) documents' lookups';
          Ok (SimHit doc similarity i (r_tokens_used r) (r_cost r)
                     (r_cached r) :: hits)
      | _, _ => hits_of q (S i) documents' lookups'
      end
  | _, _ => Ok []
  end.

(** The pairs that [find_most_similar] hands to [cosine_similarity]: the
    query embedding [q] with the embedding of each lookup that has no
    error. *)
Definition compared (q : list float) (lookups : list emb_result)
    (d : list float) : Prop :=
  exists r, r ∈ lookups /\ has_error r = false /\ r_embedding r = Some d.

(** *** [get_embeddings_batch] *)

(** [self.client.embeddings.create(input=batch, model)] followed by the
    [embedding] of each element of [response.data], as answered at a
    given tick. *)
Variable embeddings_create_batch :
  nat -> list string -> string -> pyres (list (list float)).

(** A dict appended to [results] in [get_embeddings_batch]; an absent key
    is [None]. *)
Record batch_entry : Type := BatchEntry {
  b_text : string;
  b_embedding : option (list float);
  b_tokens_used : Z;
  b_cost : float;
  b_cached : option bool;
  b_error : option string
}.

(** The entries that the [except] clause appends for a batch. *)
Definition batch_errors (e : exn) (batch : list string) : list batch_entry :=
  (fun text => BatchEntry text None 0 0%float None (Some (str e))) <$> batch.

(** The entry of a text whose embedding arrived. *)
Definition batch_success (share : float) (text : string)
    (embedding : list float) : batch_entry :=
  BatchEntry text (Some embedding) (count_tokens text) share (Some false) None.

(** [for j, embedding_data in enumerate(response.data)], from position
    [j]; [batch[j]] raises [IndexError], known here by its message, and
    [cost / len(batch)] may raise.  The result is the exception that
    ended the loop, if any, with the results and the client as they are
    then. *)
Fixpoint store_batch (batch : list string) (cost : float) (j : nat)
    (data : list (list float)) (results : list batch_entry) (self : client)
  : option exn * list batch_entry * client :=
  match data with
  | [] => (None, results, self)
  | embedding :: data' =>
      match batch !! j with
      | None => (Some (LibError "list index out of range"), results, self)
      | Some text =>
          let self :=
            Client (model self) (total_tokens self) (total_cost self)
                   (request_count self)
                   (<[get_cache_key self text := embedding]> (cache self))
                   (tick self) in
          match PyNum.truediv (PFloat cost)
                  (PInt (Z.of_nat (length batch))) with
          | Raise e => (Some e, results, self)
          | Ok share =>
              store_batch batch cost (S j) data'
                (results ++ [batch_success share text embedding]) self
          end
      end
  end.

(** The body of the loop over the batches, for the batch that starts at
    [i]. *)
Definition embed_batch (i batch_size : Z) (batch : list string)
    (results : list batch_entry) (self : client)
  : list batch_entry * client :=
  let tokens := foldr Z.add 0 (count_tokens <$> batch) in
  match embeddings_create_batch (tick self) batch (model self) with
  | Raise e => (results ++ batch_errors e batch, bump self)
  | Ok data =>
      let self := bump self in
      match calculate_cost self tokens with
      | Raise e => (results ++ batch_errors e batch, self)
      | Ok cost =>
          let self :=
            Client (model self) (total_tokens self + tokens)
                   (PrimFloat.add (total_cost self) cost)
                   (request_count self + 1) (cache self) (tick self) in
          match store_batch batch cost 0 data results self with
          | (Some e, results, self) =>
              (results ++ batch_errors e batch, self)
          | (None, results, self) =>
              if decide (i `mod` (batch_size * 5) = 0) then
                match save_cache (tick self) with
                | Raise e => (results ++ batch_errors e batch, bump self)
                | Ok _ => (results, bump self)
                end
              else (results, self)
          end
      end
  end.

(** [range(0, stop, step)]; a zero step raises [ValueError], known here
    by its message. *)
Definition range_from_0 (stop step : Z) : pyres (list Z) :=
  if decide (step = 0) then Raise (LibError "range() arg 3 must not be zero")
  else if decide (step < 0) then Ok []
  else Ok ((fun k : nat => Z.of_nat k * step)
             <$> seq 0 (Z.to_nat ((stop + step - 1) `div` step))).

(** [texts[i:i + batch_size]] for a start [i] of the range. *)
Definition batch_at (texts : list string) (i batch_size : Z) : list string :=
  take (Z.to_nat batch_size) (drop (Z.to_nat i) texts).

(** [get_embeddings_batch(texts, batch_size)] *)
Definition get_embeddings_batch (texts : list string) (batch_size : Z)
    (self : client) : pyres (list batch_entry) * client :=
  match range_from_0 (Z.of_nat (length texts)) batch_size with
  | Raise e => (Raise e, self)
  | Ok starts =>
      let '(results, self) :=
        foldl (fun '(results, self) i =>
                 embed_batch i batch_size (batch_at texts i batch_size)
                   results self)
              ([], self) starts in
      match save_cache (tick self) with
      | Raise e => (Raise e, bump self)
      | Ok _ => (Ok results, bump self)
      end
  end.

(** Every exception that the world raises has a message that is not
    empty, so that [d.get("error")] sees it. *)
Definition errors_visible : Prop :=
  (forall tick text m e,
      embeddings_create tick text m = Raise e -> str e <> "")
  /\ (forall tick e, save_cache tick = Raise e -> str e <> "")
  /\ str OverflowError <> "".

End World.

End EmbeddingsClient.

(** ** fastapi-openai/example-embeddings-api.py *)

Module EmbeddingsApi.

(** [count_tokens]: [len(text) // 4]. *)
Definition count_tokens (text : string) : Z := PyStr.len text `div` 4.

(** [settings.pricing], per million tokens. *)
Definition pricing : gmap string float :=
  <["text-embedding-3-small" := 0.02%float]>
    (<["text-embedding-3-large" := 0.13%float]>
       (<["text-embedding-ada-002" := 0.10%float]> ∅)).

(** [calculate_cost]:
    [rate = settings.pricing.get(model, 0.02);
     return (tokens / 1000000) * rate]. *)
Definition calculate_cost (tokens : Z) (model : string) : pyres float :=
  let rate := default 0.02%float (pricing !! model) in
  q ← PyNum.int_truediv tokens 1000000;
  Ok (PrimFloat.mul q rate).

(** A [datetime]: the microseconds since [datetime.min]. *)
Definition datetime_max : Z := 3652059 * 86400000000 - 1.

(** [t + timedelta(minutes=m)]: [OverflowError] if the days of the
    [timedelta] exceed 999999999 in magnitude or if the sum leaves the
    range of [datetime]. *)
Definition add_minutes (t : Z) (m : Z) : pyres Z :=
  if decide (-999999999 <= m `div` 1440 <= 999999999) then
    let t' := t + m * 60000000 in
    if decide (0 <= t' <= datetime_max) then Ok t' else Raise OverflowError
  else Raise OverflowError.

(** An entry of [embeddings_cache]. *)
Record cache_entry : Type := CacheEntry {
  embedding : list float;
  expires_at : Z
}.

(** The global [embeddings_cache], with the number of calls made so far
    to the embeddings endpoint and to [datetime.utcnow], so that each call
    may be answered differently. *)
Record state : Type := State {
  embeddings_cache : gmap string cache_entry;
  api_calls : nat;
  clock_reads : nat
}.

(** The dict returned by [get_embedding], without its
    ["processing_time"]. *)
Record emb : Type := Emb {
  r_embedding : list float;
  r_tokens_used : Z;
  r_cost : float;
  r_cached : bool
}.

Section World.

(** [hashlib.md5(s.encode()).hexdigest()] *)
Variable md5_hex : string -> string.
(** [openai_client.embeddings.create(input, model)] followed by
    [response.data[0].embedding], as answered at the n-th call. *)
Variable embeddings_create : nat -> string -> string -> pyres (list float).
(** [datetime.utcnow()], as answered at the n-th call. *)
Variable utcnow : nat -> Z.
(** [str(e)] *)
Variable str : exn -> string.
(** [settings.cache_expiry], in minutes. *)
Variable cache_expiry : Z.

Definition get_cache_key (text model : string) : string :=
  md5_hex (model +:+ ":" +:+ text).

(** [is_cache_valid(cache_entry)]; a [datetime] is always true as a
    condition. *)
Definition is_cache_valid (entry : cache_entry) (st : state) : bool * state :=
  (bool_decide (utcnow (clock_reads st) < expires_at entry),
   State (embeddings_cache st) (api_calls st) (S (clock_reads st))).

(** The [try] block of [get_embedding]. *)
Definition fetch_embedding (text model : string) (use_cache : bool)
    (st : state) : pyres emb * state :=
  let cache_key := get_cache_key text model in
  let tokens := count_tokens text in
  let reply := embeddings_create (api_calls st) text model in
  let st := State (embeddings_cache st) (S (api_calls st)) (clock_reads st) in
  match reply with
  | Raise e => (Raise e, st)
  | Ok embedding =>
      match calculate_cost tokens model with
      | Raise e => (Raise e, st)
      | Ok cost =>
          if use_cache then
            let now := utcnow (clock_reads st) in
            let st := State (embeddings_cache st) (api_calls st)
                        (S (clock_reads st)) in
            match add_minutes now cache_expiry with
            | Raise e => (Raise e, st)
            | Ok expires =>
                (Ok (Emb embedding tokens cost false),
                 State (<[cache_key := CacheEntry embedding expires]>
                          (embeddings_cache st))
                       (api_calls st) (clock_reads st))
            end
          else (Ok (Emb embedding tokens cost false), st)
      end
  end.

Definition fetch_or_500 (text model : string) (use_cache : bool)
    (st : state) : pyres emb * state :=
  match fetch_embedding text model use_cache st with
  | (Raise e, st) => (Raise (HTTPException 500 (str e)), st)
  | r => r
  end.

(** [get_embedding(text, model, use_cache)] *)
Definition get_embedding (text model : string) (use_cache : bool)
    (st : state) : pyres emb * state :=
  let cache_key := get_cache_key text model in
  match (if use_cache then embeddings_cache st !! cache_key else None) with
  | Some entry =>
      let '(valid, st) := is_cache_valid entry st in
      if valid then (Ok (Emb (embedding entry) 0 0%float true), st)
      else fetch_or_500 text model use_cache st
  | None => fetch_or_500 text model use_cache st
  end.

(** [cosine_similarity(q.reshape(1, -1), d.reshape(1, -1))[0][0]], which
    raises on vectors of different lengths. *)
Variable cosine_similarity : list float -> list float -> pyres float.

(** An element of the [results] of [semantic_search]. *)
Record search_hit : Type := SearchHit {
  hit_document : string;
  hit_similarity : float;
  hit_index : nat;
  hit_cached : bool
}.

(** [SearchResponse], without its [processing_time]. *)
Record search_response : Type := SearchResponse {
  resp_query : string;
  resp_results : list search_hit;
  resp_model : string;
  resp_tokens_used : Z;
  resp_cost : float
}.

(** The [for i, doc in enumerate(search_request.documents)] loop of
    [semantic_search], from index [i] on. *)
Fixpoint search_loop (query_embedding : list float) (model : string)
    (threshold : float) (i : nat) (documents : list string)
    (results : list search_hit) (total_tokens : Z) (total_cost : float)
    (st : state) : pyres (list search_hit * Z * float) * state :=
  match documents with
  | [] => (Ok (results, total_tokens, total_cost), st)
  | doc :: rest =>
      match get_embedding doc model true st with
      | (Raise e, st) => (Raise e, st)
      | (Ok doc_result, st) =>
          match cosine_similarity query_embedding (r_embedding doc_result) with
          | Raise e => (Raise e, st)
          | Ok similarity =>
              let results :=
                if PrimFloat.leb threshold similarity
                then results ++ [SearchHit doc similarity i
                                   (r_cached doc_result)]
                else results in
              search_loop query_embedding model threshold (S i) rest results
                (total_tokens + r_tokens_used doc_result)
                (PrimFloat.add total_cost (r_cost doc_result)) st
          end
      end
  end.

(** [search_request.model or settings.embedding_model] *)
Definition model_or (req_model : option string) (embedding_model : string)
  : string :=
  match req_model with
  | Some m => if String.eqb m "" then embedding_model else m
  | None => embedding_model
  end.

(** [semantic_search], for a request with the given fields;
    [embedding_model] is [settings.embedding_model]. *)
Definition semantic_search (embedding_model : string) (query : string)
    (documents : list string) (req_model : option string) (top_k : Z)
    (threshold : float) (st : state) : pyres search_response * state :=
  let model := model_or req_model embedding_model in
  match get_embedding query model true st with
  | (Raise e, st) => (Raise e, st)
  | (Ok query_result, st) =>
      match search_loop (r_embedding query_result) model threshold 0
              documents [] (r_tokens_used query_result) (r_cost query_result)
              st with
      | (Raise e, st) => (Raise e, st)
      | (Ok (results, total_tokens, total_cost), st) =>
          (Ok (SearchResponse query
                 (PyList.slice_to (PyList.sort_desc hit_similarity results)
                    top_k)
                 model total_tokens total_cost), st)
      end
  end.

(** *** What the loop computes

    [lookup_docs model documents st]: the results of looking the
    documents up one after the other, up to the first that raises. *)
Fixpoint lookup_docs (model : string) (documents : list string) (st : state)
  : pyres (list emb) * state :=
  match documents with
  | [] => (Ok [], st)
  | doc :: rest =>
      match get_embedding doc model true st with
      | (Raise e, st) => (Raise e, st)
      | (Ok r, st) =>
          match lookup_docs model rest st with
          | (Raise e, st) => (Raise e, st)
          | (Ok rs, st) => (Ok (r :: rs), st)
          end
      end
  end.

(** [passing q threshold i documents lookups]: one hit for each
    document, numbered from [i], whose similarity to [q] is at least the
    threshold; the first exception of [cosine_similarity] if it raises
    for one of them. *)
Fixpoint passing (q : list float) (threshold : float) (i : nat)
    (documents : list string) (lookups : list emb)
  : pyres (list search_hit) :=
  match documents, lookups with
  | doc :: documents', r :: lookups' =>
      similarity ← cosine_similarity q (r_embedding r);
      hits ← passing q threshold (S i) documents' lookups';
      Ok (if PrimFloat.leb threshold similarity
          then SearchHit doc similarity i (r_cached r) :: hits
          else hits)
  | _, _ => Ok []
  end.

End World.

End EmbeddingsApi.

(** ** fastapi-openai/example-function-calling-api.py *)

Module FunctionCallingApi.

(** [count_tokens]: [len(text.split()) * 1.3]. *)
Definition count_tokens (text : string) : pyres pynum :=
  PyNum.mul (PInt (Z.of_nat (length (PyStr.split text)))) (PFloat 1.3).

(** [c in s] for a character [c]. *)
Fixpoint contains (c : ascii) (s : string) : bool :=
  match s with
  | EmptyString => false
  | String c' s' => Ascii.eqb c c' || contains c s'
  end.

Definition allowed_chars : string := "0123456789+-*/.() ".

(** [all(c in allowed_chars for c in expression)] *)
Fixpoint all_allowed (expression : string) : bool :=
  match expression with
  | EmptyString => true
  | String c rest => contains c allowed_chars && all_allowed rest
  end.

(** The names that [calculate_math] passes to [eval] as local scope. *)
Definition scope_names : list string :=
  ["abs"; "round"; "min"; "max"; "pow"; "sqrt"; "sin"; "cos"; "tan"; "log";
   "pi"; "e"].

(** What [calculate_math] does: it returns a float or raises
    [ValueError]. *)
Inductive math_result : Type :=
  | MathOk (x : float)
  | ValueError (msg : string).

Section Eval.

(** [float(eval(expression, {"__builtins__": {}}, scope))] with the scope
    of [scope_names], when it returns: the value or the exception. *)
Variable eval_float : string -> pyres float.
(** [str(e)] *)
Variable str : exn -> string.

(** [calculate_math(expression)] *)
Definition calculate_math (expression : string) : math_result :=
  if all_allowed expression then
    match eval_float expression with
    | Ok x => MathOk x
    | Raise e => ValueError ("Math calculation error: " +:+ str e)
    end
  else
    ValueError ("Math calculation error: "
                +:+ "Invalid characters in expression").

End Eval.

End FunctionCallingApi.

(** ** example-chat.py: [OpenAIChatClient] *)

Module ChatClient.

Section Tiktoken.

(** The tiktoken library, as in the chat API below. *)
Context {Encoding token : Type}.
Variable encoding_for_model : string -> pyres Encoding.
Variable encode : Encoding -> string -> pyres (list token).

(** [self.count_tokens(text)], for a client whose [self.model] is
    [model]. *)
Definition count_tokens (model : string) (text : string) : pyres pynum :=
  try_except
    (encoding ← encoding_for_model model;
     toks ← encode encoding text;
     Ok (PInt (Z.of_nat (length toks))))
    (fun _ =>
       PyNum.mul (PInt (Z.of_nat (length (PyStr.split text)))) (PFloat 1.3)).

End Tiktoken.

End ChatClient.

(** ** fastapi-openai/example-chat-api.py: utility functions *)

Module ChatApi.

Section Tiktoken.

(** The tiktoken library: [tiktoken.encoding_for_model(model)] and
    [encoding.encode(text)]; both may raise. *)
Context {Encoding token : Type}.
Variable encoding_for_model : string -> pyres Encoding.
Variable encode : Encoding -> string -> pyres (list token).

(** The [except Exception] branch of [count_tokens]. *)
Definition count_tokens_fallback (text : string) : pyres pynum :=
  PyNum.mul (PInt (Z.of_nat (length (PyStr.split text)))) (PFloat 1.3).

(** [count_tokens(text, model)] *)
Definition count_tokens (text : string) (model : string) : pyres pynum :=
  try_except
    (encoding ← encoding_for_model model;
     toks ← encode encoding text;
     Ok (PInt (Z.of_nat (length toks))))
    (fun _ => count_tokens_fallback text).

End Tiktoken.

(** The [pricing] table of [calculate_cost] (dollars per 1K tokens). *)
Definition pricing : gmap string float :=
  <["gpt-3.5-turbo" := 0.002%float]>
    (<["gpt-4-turbo" := 0.01%float]>
       (<["gpt-4" := 0.03%float]> ∅)).

(** [calculate_cost(tokens, model)]:
    [rate = pricing.get(model, 0.03); return (tokens / 1000) * rate]. *)
Definition calculate_cost (tokens : pynum) (model : string) : pyres float :=
  let rate := default 0.03%float (pricing !! model) in
  q ← PyNum.truediv tokens (PInt 1000);
  Ok (PrimFloat.mul q rate).

(** The pricing table as the specification words it. *)
Definition spec_rate (model : string) : float :=
  if decide (model = "gpt-4") then 0.03%float
  else if decide (model = "gpt-4-turbo") then 0.01%float
  else if decide (model = "gpt-3.5-turbo") then 0.002%float
  else 0.03%float.

(** *** The chat route *)

(** [Settings] *)
Record settings : Type := Settings {
  openai_model : string;
  temperature : float;
  max_tokens : Z;
  daily_budget : float
}.

(** [ChatRequest] *)
Record chat_request : Type := ChatRequest {
  message : string;
  conversation_id : option string;
  req_model : option string;
  req_temperature : option float;
  req_max_tokens : option Z
}.

(** A value of [usage_stats]. *)
Record usage : Type := Usage {
  total_requests : Z;
  total_tokens : Z;
  total_cost : float;
  user_conversations : gset string
}.

(** A message of a conversation, [{"role": ..., "content": ...}]; the
    content that the SDK returns for the assistant may be [None]. *)
Definition chat_message : Type := string * option string.

(** The module-level dicts [conversations] and [usage_stats]. *)
Record state : Type := State {
  conversations : gmap string (list chat_message);
  usage_stats : gmap string usage
}.

(** What the route reads of the completion returned by the SDK:
    [response.choices[0].message.content], an [Optional[str]], and
    [response.usage.total_tokens]. *)
Record completion : Type := Completion {
  content : option string;
  usage_total_tokens : Z
}.

(** A [ChatResponse] that has been built. *)
Record chat_response : Type := MkChatResponse {
  response : string;
  resp_conversation_id : string;
  resp_tokens_used : Z;
  resp_cost : float;
  resp_model : string;
  processing_time : float
}.

(** [ChatResponse(response=..., ...)]: the field [response] is a [str],
    for which pydantic does not admit [None]. *)
Definition ChatResponse (response : option string) (conversation_id : string)
    (tokens_used : Z) (cost : float) (model : string)
    (processing_time : float) : pyres chat_response :=
  match response with
  | Some text =>
      Ok (MkChatResponse text conversation_id tokens_used cost model
            processing_time)
  | None => Raise ValidationError
  end.

(** [x or y] on an optional [str], [float] and [int]. *)
Definition or_str (x : option string) (y : string) : string :=
  match x with
  | Some s => if String.eqb s "" then y else s
  | None => y
  end.

Definition or_float (x : option float) (y : float) : float :=
  match x with
  | Some f => if PrimFloat.eqb f 0%float then y else f
  | None => y
  end.

Definition or_int (x : option Z) (y : Z) : Z :=
  match x with
  | Some z => if decide (z = 0) then y else z
  | None => y
  end.

(** [@limiter.limit(...)] around a route: when the limiter finds the
    limit of the client exceeded, the wrapper raises [RateLimitExceeded],
    an [HTTPException] with status 429 whose detail names the limit, and
    the route is not called.  [exceeded] is what the limiter finds for
    the request: that detail, or [None] when the request may pass. *)
Definition limit {A S : Type} (exceeded : option string)
    (route : S -> pyres A * S) (st : S) : pyres A * S :=
  match exceeded with
  | Some detail => (Raise (HTTPException 429 detail), st)
  | None => route st
  end.

Section Routes.

Context {Encoding token : Type}.
Variable encoding_for_model : string -> pyres Encoding.
Variable encode : Encoding -> string -> pyres (list token).
(** [openai_client.chat.completions.create(model, messages,
    temperature, max_tokens)] *)
Variable chat_create :
  string -> list chat_message -> option float -> Z -> pyres completion.
(** [str(e)] and the formatting of a float in an f-string *)
Variable str : exn -> string.
Variable float_str : float -> string.
Variable cfg : settings.

(** [check_daily_budget(client_ip, estimated_cost)] *)
Definition check_daily_budget (client_ip : string) (estimated_cost : float)
    (st : state) : pyres unit :=
  match usage_stats st !! client_ip with
  | Some u =>
      if PrimFloat.ltb (daily_budget cfg)
                       (PrimFloat.add (total_cost u) estimated_cost)
      then Raise (HTTPException 402
                    ("Daily budget of $" +:+ float_str (daily_budget cfg)
                     +:+ " exceeded"))
      else Ok tt
  | None => Ok tt
  end.

(** The first statements of the [try] of [chat_completion], under
    [# Estimate cost and check budget]. *)
Definition estimate_and_check (req : chat_request) (client_ip : string)
    (st : state) : pyres unit :=
  let model := or_str (req_model req) (openai_model cfg) in
  let max_tokens := or_int (req_max_tokens req) (max_tokens cfg) in
  n ← count_tokens encoding_for_model encode (message req) model;
  estimated_tokens ← PyNum.add n (PInt max_tokens);
  estimated_cost ← calculate_cost estimated_tokens model;
  check_daily_budget client_ip estimated_cost st.

(** [usage_stats[client_ip]["conversations"].add(conversation_id)] for a
    client that has statistics. *)
Definition track_conversation (client_ip conversation_id : string)
    (st : state) : state :=
  match usage_stats st !! client_ip with
  | Some u =>
      State (conversations st)
            (<[client_ip :=
                 Usage (total_requests u) (total_tokens u) (total_cost u)
                       ({[conversation_id]} ∪ user_conversations u)]>
               (usage_stats st))
  | None => st
  end.

(** The body of the [try] of [chat_completion]; [fresh_id] is the uuid
    that [get_conversation_id()] would return and [elapsed] the time
    measured.  The task that updates [usage_stats] is handed to the
    framework and runs after the response; it is no part of the body. *)
Definition chat_completion_body (req : chat_request) (client_ip : string)
    (fresh_id : string) (elapsed : float) (st : state)
  : pyres chat_response * state :=
  let model := or_str (req_model req) (openai_model cfg) in
  let temperature := or_float (req_temperature req) (temperature cfg) in
  let max_tokens := or_int (req_max_tokens req) (max_tokens cfg) in
  match estimate_and_check req client_ip st with
  | Raise e => (Raise e, st)
  | Ok _ =>
      let conversation_id := or_str (conversation_id req) fresh_id in
      let messages :=
        (default [] (conversations st !! conversation_id)
         ++ [("user", Some (message req))])%list in
      let st :=
        State (<[conversation_id := messages]> (conversations st))
              (usage_stats st) in
      match chat_create model messages (Some temperature) max_tokens with
      | Raise e => (Raise e, st)
      | Ok completion =>
          let assistant_message := content completion in
          let st :=
            State (<[conversation_id :=
                       (messages
                        ++ [("assistant", assistant_message)])%list]>
                     (conversations st))
                  (usage_stats st) in
          let tokens_used := usage_total_tokens completion in
          match calculate_cost (PInt tokens_used) model with
          | Raise e => (Raise e, st)
          | Ok cost =>
              let st := track_conversation client_ip conversation_id st in
              (ChatResponse assistant_message conversation_id tokens_used
                 cost model elapsed, st)
          end
      end
  end.

(** The function [chat_completion] as written: the body under
    [except Exception as e: raise HTTPException(500, str(e))]. *)
Definition chat_completion_try (req : chat_request) (client_ip : string)
    (fresh_id : string) (elapsed : float) (st : state)
  : pyres chat_response * state :=
  let '(r, st) := chat_completion_body req client_ip fresh_id elapsed st in
  (try_except r (fun e => Raise (HTTPException 500 (str e))), st).

(** [chat_completion] as decorated with [@limiter.limit]. *)
Definition chat_completion (exceeded : option string) (req : chat_request)
    (client_ip : string) (fresh_id : string) (elapsed : float) (st : state)
  : pyres chat_response * state :=
  limit exceeded (chat_completion_try req client_ip fresh_id elapsed) st.

(** [health_check]: the probe call under
    [except Exception as e: return {... "error": str(e)}]. *)
Definition health_check (st : state) : list (pykey * pyval) :=
  match chat_create "gpt-3.5-turbo" [("user", Some "test")] None 1 with
  | Ok _ =>
      [(KStr "status", VStr "healthy"); (KStr "openai", VStr "connected");
       (KStr "model", VStr (openai_model cfg));
       (KStr "conversations", VInt (Z.of_nat (size (conversations st))));
       (KStr "total_users", VInt (Z.of_nat (size (usage_stats st))))]
  | Raise e =>
      [(KStr "status", VStr "unhealthy");
       (KStr "openai", VStr "disconnected"); (KStr "error", VStr (str e))]
  end.

End Routes.

(** [update_usage_stats(client_ip, tokens, cost, processing_time)], the
    background task of the routes; the time stamps and the list of
    processing times are no fields of [usage]. *)
Definition update_usage_stats (client_ip : string) (tokens : Z) (cost : float)
    (st : state) : state :=
  let u := default (Usage 0 0 0%float ∅) (usage_stats st !! client_ip) in
  State (conversations st)
        (<[client_ip := Usage (total_requests u + 1) (total_tokens u + tokens)
                              (PrimFloat.add (total_cost u) cost)
                              (user_conversations u)]> (usage_stats st)).

(** [list_conversations(client_ip)]: the id and the number of messages of
    each conversation of the client, in the order in which the set is
    iterated. *)
Definition list_conversations (client_ip : string) (st : state)
  : list (string * Z) :=
  match usage_stats st !! client_ip with
  | None => []
  | Some u =>
      (fun id => (id, Z.of_nat (length (default [] (conversations st !! id)))))
        <$> elements (user_conversations u)
  end.

(** [get_conversation(conversation_id)] *)
Definition get_conversation (id : string) (st : state)
  : pyres (string * list chat_message) :=
  match conversations st !! id with
  | None => Raise (HTTPException 404 "Conversation not found")
  | Some messages => Ok (id, messages)
  end.

(** The set update of [delete_conversation] on the statistics of one
    client. *)
Definition forget_conversation (id : string) (u : usage) : usage :=
  Usage (total_requests u) (total_tokens u) (total_cost u)
        (user_conversations u ∖ {[id]}).

(** [delete_conversation(conversation_id)] *)
Definition delete_conversation (id : string) (st : state)
  : pyres string * state :=
  match conversations st !! id with
  | None => (Raise (HTTPException 404 "Conversation not found"), st)
  | Some _ =>
      (Ok "Conversation deleted successfully",
       State (delete id (conversations st))
             (forget_conversation id <$> usage_stats st))
  end.

End ChatApi.

(** ** The [json] module on float-free values

    A model of [json.dumps] and [json.loads] with their default arguments,
    used to run the wrappers on concrete inputs.  The theorems about the
    wrappers take the two functions as variables. *)

Module Json.

Definition dquote : ascii := ascii_of_nat 34.
Definition backslash : ascii := ascii_of_nat 92.
Definition quoted (s : string) : string :=
  String dquote (s +:+ String dquote EmptyString).

(** [str(z)] *)
Definition str_of_Z (z : Z) : string :=
  NilEmpty.string_of_int (Z.to_int z).

Definition hex_digit (n : nat) : ascii :=
  if (n <? 10)%nat then ascii_of_nat (48 + n) else ascii_of_nat (87 + n).

(** [ensure_ascii] escaping of one character: everything outside
    [' '..'~'] and the two characters [dquote] and [backslash]. *)
Definition escape_char (c : ascii) : string :=
  let n := nat_of_ascii c in
  if (n =? 34)%nat then String backslash (String dquote EmptyString)
  else if (n =? 92)%nat then String backslash (String backslash EmptyString)
  else if (n =? 10)%nat then String backslash "n"
  else if (n =? 13)%nat then String backslash "r"
  else if (n =? 9)%nat then String backslash "t"
  else if (n =? 8)%nat then String backslash "b"
  else if (n =? 12)%nat then String backslash "f"
  else if ((32 <=? n) && (n <=? 126))%nat then String c EmptyString
  else String backslash
         ("u00" +:+ String (hex_digit (n / 16))
                      (String (hex_digit (n mod 16)) EmptyString)).

Fixpoint escape (s : string) : string :=
  match s with
  | EmptyString => EmptyString
  | String c s' => escape_char c +:+ escape s'
  end.

Definition dumps_str (s : string) : string := quoted (escape s).

Definition dumps_key (k : pykey) : string :=
  match k with
  | KStr s => dumps_str s
  | KInt z => quoted (str_of_Z z)
  end.

(** [", ".join(items)] *)
Fixpoint join_comma (items : list string) : string :=
  match items with
  | [] => EmptyString
  | [x] => x
  | x :: rest => x +:+ ", " +:+ join_comma rest
  end.

(** [json.dumps(v)] *)
Fixpoint dumps (v : pyval) : string :=
  match v with
  | VNone => "null"
  | VBool true => "true"
  | VBool false => "false"
  | VInt z => str_of_Z z
  | VStr s => dumps_str s
  | VList l | VTuple l => "[" +:+ join_comma (map dumps l) +:+ "]"
  | VDict d =>
      "{" +:+ join_comma
                (map (fun kv => dumps_key (fst kv) +:+ ": " +:+ dumps (snd kv))
                     d)
          +:+ "}"
  end.

(** *** Parsing

    [loads] answers [LibError] as soon as it meets a float or an escaped
    code point above 255, where Python would go on with the text. *)

Inductive presult (A : Type) : Type :=
  | POk (a : A) (rest : string)
  | PErr                      (* [json.JSONDecodeError] *)
  | POutside.                 (* a float or a code point above 255:
                                 outside the modelled values *)
Arguments POk {A} a rest.
Arguments PErr {A}.
Arguments POutside {A}.

Definition is_ws (c : ascii) : bool :=
  let n := nat_of_ascii c in
  (n =? 32)%nat || (n =? 9)%nat || (n =? 10)%nat || (n =? 13)%nat.

Fixpoint skip_ws (s : string) : string :=
  match s with
  | String c s' => if is_ws c then skip_ws s' else s
  | EmptyString => s
  end.

Definition is_digit (c : ascii) : bool :=
  let n := nat_of_ascii c in ((48 <=? n) && (n <=? 57))%nat.

Definition digit_val (c : ascii) : Z := Z.of_nat (nat_of_ascii c) - 48.

(** Reads digits, accumulating their value. *)
Fixpoint digits (s : string) (acc : Z) : Z * string :=
  match s with
  | String c s' =>
      if is_digit c then digits s' (10 * acc + digit_val c) else (acc, s)
  | EmptyString => (acc, s)
  end.

Definition starts_frac_or_exp (s : string) : bool :=
  match s with
  | String c (String d _) =>
      let n := nat_of_ascii c in
      ((n =? 46)%nat && is_digit d)
      || (((n =? 101) || (n =? 69))%nat
          && (is_digit d
              || match s with
                 | String _ (String sg (String d' _)) =>
                     ((nat_of_ascii sg =? 43) || (nat_of_ascii sg =? 45))%nat
                     && is_digit d'
                 | _ => false
                 end))
  | _ => false
  end.

(** The integer part of a number, after the sign: [0], or a non-zero
    digit followed by digits. *)
Definition parse_nat (s : string) : presult Z :=
  match s with
  | String c s' =>
      if (nat_of_ascii c =? 48)%nat then
        if starts_frac_or_exp s' then POutside else POk 0 s'
      else if is_digit c then
        let '(n, rest) := digits s 0 in
        if starts_frac_or_exp rest then POutside else POk n rest
      else PErr
  | EmptyString => PErr
  end.

Definition hex_val (c : ascii) : option nat :=
  let n := nat_of_ascii c in
  if ((48 <=? n) && (n <=? 57))%nat then Some (n - 48)%nat
  else if ((97 <=? n) && (n <=? 102))%nat then Some (n - 87)%nat
  else if ((65 <=? n) && (n <=? 70))%nat then Some (n - 55)%nat
  else None.

(** The character that a one-letter escape stands for. *)
Definition unescape (e : ascii) : option ascii :=
  let m := nat_of_ascii e in
  if ((m =? 34) || (m =? 92) || (m =? 47))%nat then Some e
  else if (m =? 98)%nat then Some (ascii_of_nat 8)
  else if (m =? 102)%nat then Some (ascii_of_nat 12)
  else if (m =? 110)%nat then Some (ascii_of_nat 10)
  else if (m =? 114)%nat then Some (ascii_of_nat 13)
  else if (m =? 116)%nat then Some (ascii_of_nat 9)
  else None.

(** The body of a string literal, after the opening quote, with [acc]
    read so far: up to the closing quote; control characters are
    rejected. *)
Fixpoint parse_chars (s : string) (acc : string) : presult string :=
  match s with
  | EmptyString => PErr
  | String c s' =>
      let n := nat_of_ascii c in
      if (n =? 34)%nat then POk acc s'
      else if (n <? 32)%nat then PErr
      else if (n =? 92)%nat then
        match s' with
        | String e s'' =>
            if (nat_of_ascii e =? 117)%nat then
              match s'' with
              | String h1 (String h2 (String h3 (String h4 rest))) =>
                  match hex_val h1, hex_val h2, hex_val h3, hex_val h4 with
                  | Some 0%nat, Some 0%nat, Some a, Some b =>
                      parse_chars rest
                        (acc +:+ String (ascii_of_nat (16 * a + b)) EmptyString)
                  | Some _, Some _, Some _, Some _ => POutside
                  | _, _, _, _ => PErr
                  end
              | _ => PErr
              end
            else
              match unescape e with
              | Some c' => parse_chars s'' (acc +:+ String c' EmptyString)
              | None => PErr
              end
        | EmptyString => PErr
        end
      else parse_chars s' (acc +:+ String c EmptyString)
  end.

(** Drops the expected word [w] from the front of [s]. *)
Fixpoint expect (w s : string) : option string :=
  match w, s with
  | EmptyString, _ => Some s
  | String a w', String b s' =>
      if Ascii.eqb a b then expect w' s' else None
  | String _ _, EmptyString => None
  end.

Definition constant (w : string) (v : pyval) (s : string) : presult pyval :=
  match expect w s with
  | Some rest => POk v rest
  | None => PErr
  end.

(** [parse_value fuel s]: one JSON value at the front of [s] (the
    scanner's [scan_once]); [parse_items] and [parse_members] read the
    rest of an array and of an object after their first element. *)
Fixpoint parse_value (fuel : nat) (s : string) : presult pyval :=
  match fuel with
  | O => PErr
  | S fuel =>
      let fix parse_items (n : nat) (s : string) (acc : list pyval)
        : presult pyval :=
        match n with
        | O => PErr
        | S n =>
            match parse_value fuel s with
            | POk v rest =>
                match skip_ws rest with
                | String c rest' =>
                    if (nat_of_ascii c =? 44)%nat
                    then parse_items n (skip_ws rest') (acc ++ [v])%list
                    else if (nat_of_ascii c =? 93)%nat
                    then POk (VList (acc ++ [v])%list) rest'
                    else PErr
                | EmptyString => PErr
                end
            | PErr => PErr
            | POutside => POutside
            end
        end in
      let fix parse_members (n : nat) (s : string)
          (acc : list (pykey * pyval)) : presult pyval :=
        match n with
        | O => PErr
        | S n =>
            match s with
            | String q s1 =>
                if (nat_of_ascii q =? 34)%nat then
                  match parse_chars s1 EmptyString with
                  | POk k s2 =>
                      match skip_ws s2 with
                      | String c s3 =>
                          if (nat_of_ascii c =? 58)%nat then
                            match parse_value fuel (skip_ws s3) with
                            | POk v rest =>
                                let acc := dict_set (KStr k) v acc in
                                match skip_ws rest with
                                | String c rest' =>
                                    if (nat_of_ascii c =? 44)%nat
                                    then parse_members n (skip_ws rest') acc
                                    else if (nat_of_ascii c =? 125)%nat
                                    then POk (VDict acc) rest'
                                    else PErr
                                | EmptyString => PErr
                                end
                            | PErr => PErr
                            | POutside => POutside
                            end
                          else PErr
                      | EmptyString => PErr
                      end
                  | PErr => PErr
                  | POutside => POutside
                  end
                else PErr
            | EmptyString => PErr
            end
        end in
      match s with
      | EmptyString => PErr
      | String c s' =>
          let n := nat_of_ascii c in
          if (n =? 34)%nat then
            match parse_chars s' EmptyString with
            | POk str rest => POk (VStr str) rest
            | PErr => PErr
            | POutside => POutside
            end
          else if (n =? 123)%nat then
            match skip_ws s' with
            | String c' rest =>
                if (nat_of_ascii c' =? 125)%nat then POk (VDict []) rest
                else parse_members (String.length s) (skip_ws s') []
            | EmptyString => PErr
            end
          else if (n =? 91)%nat then
            match skip_ws s' with
            | String c' rest =>
                if (nat_of_ascii c' =? 93)%nat then POk (VList []) rest
                else parse_items (String.length s) (skip_ws s') []
            | EmptyString => PErr
            end
          else if (n =? 110)%nat then constant "null" VNone s
          else if (n =? 116)%nat then constant "true" (VBool true) s
          else if (n =? 102)%nat then constant "false" (VBool false) s
          else if (n =? 45)%nat then
            match expect "-Infinity" s with
            | Some _ => POutside
            | None =>
                match parse_nat s' with
                | POk z rest => POk (VInt (- z)) rest
                | PErr => PErr
                | POutside => POutside
                end
            end
          else if (n =? 78)%nat then
            match expect "NaN" s with Some _ => POutside | None => PErr end
          else if (n =? 73)%nat then
            match expect "Infinity" s with
            | Some _ => POutside
            | None => PErr
            end
          else
            match parse_nat s with
            | POk z rest => POk (VInt z) rest
            | PErr => PErr
            | POutside => POutside
            end
      end
  end.

(** [json.loads(s)]: leading whitespace, one value, trailing whitespace
    and nothing else. *)
Definition loads (s : string) : pyres pyval :=
  match parse_value (S (String.length s)) (skip_ws s) with
  | POk v rest =>
      match skip_ws rest with
      | EmptyString => Ok v
      | _ => Raise (JSONDecodeError "Extra data")
      end
  | PErr => Raise (JSONDecodeError "Expecting value")
  | POutside => Raise (LibError "outside the modelled values")
  end.

End Json.

(** ** The Redis client

    A wrapper method is a program that issues client calls; each call is
    answered with a value or with an exception.  A program is run against
    a handler, which records the calls made. *)

Module Redis.

Inductive cmd : Type :=
  | SET (key : string) (value : pyval)
  | SETEX (key : string) (ttl : Z) (value : pyval)
  | GET (key : string)
  | EXISTS (key : string)
  | DELETE (key : string)
  | INCR (key : string) (amount : Z)
  | EXPIRE (key : string) (ttl : Z)
  | TTL (key : string)
  | FLUSHDB
  | INFO
  | DBSIZE.

Inductive prog (A : Type) : Type :=
  | Ret (a : A)
  | Call (c : cmd) (k : pyres pyval -> prog A).
Arguments Ret {A} a.
Arguments Call {A} c k.

Fixpoint prog_bind {A B} (k : A -> prog B) (p : prog A) : prog B :=
  match p with
  | Ret a => k a
  | Call c k' => Call c (fun r => prog_bind k (k' r))
  end.

#[global] Instance prog_ret : MRet prog := @Ret.
#[global] Instance prog_mbind : MBind prog := @prog_bind.

(** [run h p w]: the result of [p], the final state of the world and
    the calls made, in order, when the world answers with [h]. *)
Fixpoint run {A W} (h : cmd -> W -> pyres pyval * W) (p : prog A) (w : W)
  : A * W * list cmd :=
  match p with
  | Ret a => (a, w, [])
  | Call c k =>
      let '(r, w') := h c w in
      let '(a, w'', calls) := run h (k r) w' in
      (a, w'', c :: calls)
  end.

(** *** A server that works

    The string commands of a reachable server whose keys have not yet
    expired: the database maps a key to its string. *)

(** How the client encodes a value: [str] and [int] are accepted. *)
Definition encode_value (v : pyval) : pyres string :=
  match v with
  | VStr s => Ok s
  | VInt z => Ok (Json.str_of_Z z)
  | _ => Raise (DataError "Invalid input type")
  end.

Definition store_value (key : string) (value : pyval)
    (db : gmap string string) : pyres pyval * gmap string string :=
  match encode_value value with
  | Ok s => (Ok (VBool true), <[key := s]> db)
  | Raise e => (Raise e, db)
  end.

(** [None] for the commands outside this fragment. *)
Definition server (c : cmd) (db : gmap string string)
  : option (pyres pyval * gmap string string) :=
  match c with
  | SET key value => Some (store_value key value db)
  | SETEX key ttl value =>
      if decide (0 < ttl) then Some (store_value key value db)
      else Some (Raise (LibError "invalid expire time"), db)
  | GET key =>
      Some (Ok (match db !! key with Some s => VStr s | None => VNone end),
            db)
  | EXISTS key =>
      Some (Ok (VInt (if db !! key is Some _ then 1 else 0)), db)
  | DELETE key =>
      Some (Ok (VInt (if db !! key is Some _ then 1 else 0)), delete key db)
  | FLUSHDB => Some (Ok (VBool true), ∅)
  | DBSIZE => Some (Ok (VInt (Z.of_nat (size db))), db)
  | INCR _ _ | EXPIRE _ _ | TTL _ | INFO => None
  end.

(** [run_server p db]: [p] against the working server. *)
Fixpoint run_server {A} (p : prog A) (db : gmap string string)
  : option (A * gmap string string) :=
  match p with
  | Ret a => Some (a, db)
  | Call c k =>
      match server c db with
      | Some (r, db') => run_server (k r) db'
      | None => None
      end
  end.

End Redis.

(** ** core-components/redis/example-caching.py: [RedisCache] *)

Module RedisCache.
Import Redis.

Section Methods.

(** [json.dumps(value)] and [json.loads(s)] *)
Variable json_dumps : pyval -> pyres string.
Variable json_loads : string -> pyres pyval.

(** [if ttl:] on an [Optional[int]] *)
Definition ttl_given (ttl : option Z) : option Z :=
  match ttl with
  | Some t => if decide (t = 0) then None else Some t
  | None => None
  end.

(** The first statement of [set]: dicts and lists are serialised. *)
Definition serialize (value : pyval) : pyres pyval :=
  if is_dict_or_list value then VStr <$> json_dumps value else Ok value.

(** The client call of [set]: [setex] if a TTL is given, else [set]. *)
Definition set_cmd (key : string) (ttl : option Z) (value : pyval) : cmd :=
  match ttl_given ttl with
  | Some t => SETEX key t value
  | None => SET key value
  end.

Definition bool_reply (r : pyres pyval) : prog bool :=
  match r with
  | Ok result => Ret (truthy result)
  | Raise _ => Ret false
  end.

(** [set(key, value, ttl)] *)
Definition set (key : string) (value : pyval) (ttl : option Z)
  : prog bool :=
  match serialize value with
  | Raise _ => Ret false
  | Ok value => Call (set_cmd key ttl value) bool_reply
  end.

(** [get(key)] *)
Definition get (key : string) : prog pyval :=
  Call (GET key)
       (fun r => match r with
                 | Raise _ => Ret VNone
                 | Ok VNone => Ret VNone
                 | Ok (VStr value) =>
                     match json_loads value with
                     | Ok v => Ret v
                     | Raise (JSONDecodeError _) => Ret (VStr value)
                     | Raise _ => Ret VNone
                     end
                 | Ok _ => Ret VNone (* [json.loads] raises [TypeError] *)
                 end).

(** [exists(key)] *)
Definition exists_ (key : string) : prog bool :=
  Call (EXISTS key) bool_reply.

(** [delete(key)] *)
Definition delete (key : string) : prog bool :=
  Call (DELETE key) bool_reply.

(** [increment(key, amount)] *)
Definition increment (key : string) (amount : Z) : prog pyval :=
  Call (INCR key amount)
       (fun r => match r with
                 | Ok v => Ret v
                 | Raise _ => Ret VNone
                 end).

(** [expire(key, ttl)] *)
Definition expire (key : string) (ttl : Z) : prog bool :=
  Call (EXPIRE key ttl) bool_reply.

(** [ttl(key)]: [ttl if ttl >= 0 else None]; comparing anything but a
    number with [0] raises [TypeError]. *)
Definition ttl (key : string) : prog pyval :=
  Call (TTL key)
       (fun r => match r with
                 | Ok (VInt t) => Ret (if decide (0 ≤ t) then VInt t else VNone)
                 | Ok (VBool b) => Ret (VBool b)
                 | Ok _ => Ret VNone
                 | Raise _ => Ret VNone
                 end).

(** [flush_db()] *)
Definition flush_db : prog bool := Call FLUSHDB bool_reply.

Definition info_keys : list string :=
  ["redis_version"; "used_memory_human"; "connected_clients";
   "total_commands_processed"; "keyspace_hits"; "keyspace_misses"].

(** [get_info()]; [info.get] on anything but a dict raises
    [AttributeError]. *)
Definition get_info : prog pyval :=
  Call INFO
       (fun r => match r with
                 | Ok (VDict info) =>
                     Ret (VDict (map (fun k =>
                            (KStr k, default VNone (dict_get (KStr k) info)))
                            info_keys))
                 | Ok _ => Ret (VDict [])
                 | Raise _ => Ret (VDict [])
                 end).

End Methods.

(** A TTL the working server accepts from [set]: absent, zero (then the
    plain [SET] is used) or positive. *)
Definition ttl_accepted (ttl : option Z) : Prop :=
  forall t, ttl = Some t -> 0 <= t.

End RedisCache.

(** ** core-components/redis/example-caching.py: [CacheDemo] *)

Module CacheDemo.
Import Redis.

(** *** A server with counters

    [INCRBY] on top of the string commands of [Redis.server]. *)

(** The integer that the server reads in a stored string: the canonical
    decimal form of a signed 64-bit integer, nothing else. *)
Definition is_int64 (z : Z) : bool := bool_decide (- 2 ^ 63 <= z < 2 ^ 63).

Definition int_of_value (s : string) : option Z :=
  d ← NilEmpty.int_of_string s;
  let z := Z.of_int d in
  if String.eqb (Json.str_of_Z z) s && is_int64 z then Some z else None.

Definition incrby (key : string) (amount : Z) (db : gmap string string)
  : pyres pyval * gmap string string :=
  let current :=
    match db !! key with
    | None => Some 0
    | Some s => int_of_value s
    end in
  match current with
  | Some n =>
      if is_int64 amount then
        if is_int64 (n + amount)
        then (Ok (VInt (n + amount)), <[key := Json.str_of_Z (n + amount)]> db)
        else (Raise (LibError "increment or decrement would overflow"), db)
      else (Raise (LibError "value is not an integer or out of range"), db)
  | None => (Raise (LibError "value is not an integer or out of range"), db)
  end.

(** [rest] answers the commands about expiry and [INFO], which the
    database of this model does not determine. *)
Definition counting_server
    (rest : cmd -> gmap string string -> pyres pyval * gmap string string)
    (c : cmd) (db : gmap string string)
  : pyres pyval * gmap string string :=
  match c with
  | INCR key amount => incrby key amount db
  | _ => match server c db with
         | Some r => r
         | None => rest c db
         end
  end.

Section Demo.

Variable json_dumps : pyval -> pyres string.
Variable json_loads : string -> pyres pyval.

(** [x >= n] for an [int] [n]: [int] and [bool] compare, the other
    values raise [TypeError]. *)
Definition ge_int (x : pyval) (n : Z) : pyres bool :=
  match x with
  | VInt z => Ok (bool_decide (n <= z))
  | VBool b => Ok (bool_decide (n <= if b then 1 else 0))
  | _ => Raise (TypeError "'>=' not supported")
  end.

(** [x == 0] *)
Definition is_zero (x : pyval) : bool :=
  match x with
  | VInt z => bool_decide (z = 0)
  | VBool b => negb b
  | _ => false
  end.

(** [make_request()] of [rate_limiting_example], with its [rate_key],
    [max_requests] and [window]. *)
Definition make_request (rate_key : string) (max_requests window : Z)
  : prog (pyres bool) :=
  cached ← RedisCache.get json_loads rate_key;
  let current_requests := if truthy cached then cached else VInt 0 in
  match ge_int current_requests max_requests with
  | Raise e => Ret (Raise e)
  | Ok true =>
      _ ← RedisCache.ttl rate_key;
      Ret (Ok false)
  | Ok false =>
      if is_zero current_requests then
        _ ← RedisCache.set json_dumps rate_key (VInt 1) (Some window);
        Ret (Ok true)
      else
        _ ← RedisCache.increment rate_key 1;
        Ret (Ok true)
  end.

(** [for i in range(n): make_request()]: what the calls returned, or the
    exception that ended the loop. *)
Fixpoint make_requests (rate_key : string) (max_requests window : Z)
    (n : nat) : prog (pyres (list bool)) :=
  match n with
  | O => Ret (Ok [])
  | S n' =>
      r ← make_request rate_key max_requests window;
      match r with
      | Raise e => Ret (Raise e)
      | Ok allowed =>
          rs ← make_requests rate_key max_requests window n';
          Ret (match rs with
               | Ok results => Ok (allowed :: results)
               | Raise e => Raise e
               end)
      end
  end.

(** The requests of [rate_limiting_example]. *)
Definition rate_limiting_example : prog (pyres (list bool)) :=
  make_requests "rate_limit:user456" 5 60 7.

End Demo.

(** What the server holds under the rate key when [c] requests have been
    let through in the window: nothing, or the decimal form of [c]. *)
Definition entry (c : Z) : option string :=
  if decide (c = 0) then None else Some (Json.str_of_Z c).

End CacheDemo.

(** ** core-components/redis/example-pub-sub.py: the message handlers *)

Module PubSub.

Section Handlers.

(** The callables registered as handlers, compared with [==], and what
    they may change besides the registry. *)
Context {H W : Type} `{EqDecision H}.

(** [self.message_handlers] and the rest of the world. *)
Record state : Type := State {
  message_handlers : gmap string (list H);
  world : W
}.

(** [json.loads(s)] *)
Variable json_loads : string -> pyres pyval.
(** [handler(channel, message_data)]: a handler has the whole state in
    its reach, and may raise. *)
Variable call : H -> string -> pyval -> state -> pyres unit * state.

(** The registered handlers of a channel. *)
Definition handlers_of (channel : string) (st : state) : list H :=
  default [] (message_handlers st !! channel).

(** [add_message_handler(channel, handler)] *)
Definition add_message_handler (channel : string) (handler : H) (st : state)
  : state :=
  State (<[channel := handlers_of channel st ++ [handler]]>
           (message_handlers st))
        (world st).

(** [l.remove(x)]: the first element equal to [x] goes; [None] for
    [ValueError]. *)
Fixpoint list_remove (x : H) (l : list H) : option (list H) :=
  match l with
  | [] => None
  | y :: l' =>
      if decide (y = x) then Some l'
      else l'' ← list_remove x l'; Some (y :: l'')
  end.

(** [remove_message_handler(channel, handler)] *)
Definition remove_message_handler (channel : string) (handler : H)
    (st : state) : state :=
  match message_handlers st !! channel with
  | None => st
  | Some l =>
      match list_remove handler l with
      | Some l' => State (<[channel := l']> (message_handlers st)) (world st)
      | None => st
      end
  end.

(** [for handler in self.message_handlers[channel]], from position [i]:
    the list of the channel is [append]ed to and [remove]d from in place,
    so each round looks at the list as it is then.  The result is the
    state and the handlers called, in order; [None] if the fuel runs
    out. *)
Fixpoint handler_loop (fuel : nat) (channel : string) (message_data : pyval)
    (i : nat) (st : state) : option (state * list H) :=
  match fuel with
  | O => None
  | S fuel =>
      match handlers_of channel st !! i with
      | None => Some (st, [])
      | Some handler =>
          (* [except Exception as e: print(...)] *)
          let st := (call handler channel message_data st).2 in
          '(st, called) ← handler_loop fuel channel message_data (S i) st;
          Some (st, handler :: called)
      end
  end.

(** The [try: json.loads(data) except json.JSONDecodeError] of
    [_handle_message]. *)
Definition decode (data : string) : pyres pyval :=
  match json_loads data with
  | Raise (JSONDecodeError _) => Ok (VStr data)
  | r => r
  end.

(** [_handle_message(channel, data)] *)
Definition _handle_message (fuel : nat) (channel data : string) (st : state)
  : option (state * list H) :=
  match decode data with
  | Raise _ => Some (st, [])
  | Ok message_data =>
      match message_handlers st !! channel with
      | Some _ => handler_loop fuel channel message_data 0 st
      | None => Some (st, [])
      end
  end.

End Handlers.

End PubSub.

(** ** fastapi-redis/example-caching-api.py *)

Module CachingApi.
Import Redis.

(** The global [cache_stats] dict. *)
Record cache_stats : Type := CacheStats {
  hits : Z;
  misses : Z;
  sets : Z;
  deletes : Z;
  errors : Z
}.

Definition add_hit (s : cache_stats) : cache_stats :=
  CacheStats (hits s + 1) (misses s) (sets s) (deletes s) (errors s).
Definition add_miss (s : cache_stats) : cache_stats :=
  CacheStats (hits s) (misses s + 1) (sets s) (deletes s) (errors s).
Definition add_set (s : cache_stats) : cache_stats :=
  CacheStats (hits s) (misses s) (sets s + 1) (deletes s) (errors s).
Definition add_delete (s : cache_stats) : cache_stats :=
  CacheStats (hits s) (misses s) (sets s) (deletes s + 1) (errors s).
Definition add_error (s : cache_stats) : cache_stats :=
  CacheStats (hits s) (misses s) (sets s) (deletes s) (errors s + 1).

(** A row of the in-memory database: a dict. *)
Definition row : Type := list (pykey * pyval).

(** A table: the rows by id, in insertion order. *)
Definition table : Type := list (string * row).

(** The global [fake_database]. *)
Record database : Type := Database {
  users : table;
  posts : table
}.

(** The state the service functions mutate. *)
Record app : Type := App {
  db : database;
  stats : cache_stats
}.

Definition user_row (id name email : string) (age : Z) : row :=
  [(KStr "id", VStr id); (KStr "name", VStr name);
   (KStr "email", VStr email); (KStr "age", VInt age)].

Definition post_row (id title content user_id : string) : row :=
  [(KStr "id", VStr id); (KStr "title", VStr title);
   (KStr "content", VStr content); (KStr "user_id", VStr user_id)].

Definition fake_database : database :=
  Database
    [("1", user_row "1" "John Doe" "john@example.com" 30);
     ("2", user_row "2" "Jane Smith" "jane@example.com" 25);
     ("3", user_row "3" "Bob Johnson" "bob@example.com" 35)]
    [("1", post_row "1" "First Post" "This is the first post" "1");
     ("2", post_row "2" "Second Post" "This is the second post" "2");
     ("3", post_row "3" "Third Post" "This is the third post" "1")].

Definition initial_app : app := App fake_database (CacheStats 0 0 0 0 0).

(** [t.get(id)] *)
Fixpoint table_get (id : string) (t : table) : option row :=
  match t with
  | [] => None
  | (id', r) :: t' => if decide (id = id') then Some r else table_get id t'
  end.

(** [t[id].update(data)] for an [id] of [t]. *)
Fixpoint table_update (id : string) (data : row) (t : table) : table :=
  match t with
  | [] => []
  | (id', r) :: t' =>
      if decide (id = id') then (id', dict_update r data) :: t'
      else (id', r) :: table_update id data t'
  end.

(** [v == s] for a [str] [s] *)
Definition eq_str (v : pyval) (s : string) : bool :=
  match v with
  | VStr s' => String.eqb s' s
  | _ => false
  end.

(** [[post for post in rows if post["user_id"] == user_id]] *)
Fixpoint posts_of (user_id : string) (rows : list row) : pyres (list pyval) :=
  match rows with
  | [] => Ok []
  | post :: rest =>
      match dict_get (KStr "user_id") post with
      | None => Raise (KeyError "user_id")
      | Some v =>
          tl ← posts_of user_id rest;
          Ok (if eq_str v user_id then VDict post :: tl else tl)
      end
  end.

(** [hit_rate = hits / total_requests if total_requests > 0 else 0] *)
Definition hit_rate (s : cache_stats) : pyres pynum :=
  let total_requests := hits s + misses s in
  if decide (0 < total_requests)
  then PFloat <$> PyNum.int_truediv (hits s) total_requests
  else Ok (PInt 0).

(** The [CacheStats] response model.  Its field [hit_rate: float] holds
    a float: the model turns the [int] 0 into 0.0.  [total_keys] and
    [memory_usage] are the values handed to the model. *)
Record stats_response : Type := StatsResponse {
  resp_hits : Z;
  resp_misses : Z;
  resp_sets : Z;
  resp_deletes : Z;
  resp_errors : Z;
  resp_hit_rate : float;
  resp_total_keys : pyval;
  resp_memory_usage : pyval
}.

(** [get_cache_stats()]; [redis_client] tells whether the module-level
    client is not [None].  The response is built last, and with it the
    [float] of the hit rate.  The number of keys and the memory usage are
    reported as the client returned them: redis-py returns an [int] and a
    [str], which the fields of [CacheStats] admit. *)
Definition get_cache_stats (redis_client : bool) (s : cache_stats)
  : prog (pyres stats_response) :=
  match hit_rate s with
  | Raise e => Ret (Raise e)
  | Ok rate =>
      let respond total_keys memory_usage :=
        Ret ((fun reported =>
                StatsResponse (hits s) (misses s) (sets s) (deletes s)
                              (errors s) reported total_keys memory_usage)
               <$> PyNum.to_float rate) in
      if redis_client then
        Call INFO (fun r =>
          match r with
          | Ok (VDict info) =>
              let memory_usage :=
                default VNone (dict_get (KStr "used_memory_human") info) in
              Call DBSIZE (fun r' =>
                match r' with
                | Ok total_keys => respond total_keys memory_usage
                | Raise _ => respond (VInt 0) memory_usage
                end)
          | Ok _ | Raise _ => respond (VInt 0) VNone
          end)
      else respond (VInt 0) VNone
  end.

(** [get_cache_manager()]: the dependency of the cache routes;
    [cache_manager] is the module-level manager, [None] when Redis was
    not reachable at start-up. *)
Definition get_cache_manager {M} (cache_manager : option M) : pyres M :=
  match cache_manager with
  | None => Raise (HTTPException 503 "Redis not available")
  | Some m => Ok m
  end.

(** The resource check of [warm_cache]: the kind of background task that
    is scheduled. *)
Definition warm_cache (resource_type : string) : pyres string :=
  if String.eqb resource_type "users" then Ok "warm_users"
  else if String.eqb resource_type "posts" then Ok "warm_posts"
  else Raise (HTTPException 400 "Invalid resource type").

(** The ids whose user key is also the posts key of another id. *)
Definition posts_suffixed (id : string) : Prop :=
  exists user_id : string, id = user_id +:+ ":posts".

Section Manager.

(** [json.dumps(value, default=str)] and [json.loads(s)] *)
Variable json_dumps : pyval -> pyres string.
Variable json_loads : string -> pyres pyval.
(** [CACHE_TTL] *)
Variable default_ttl : Z.

Definition prefix : string := "cache:".

(** [CacheManager._get_key] *)
Definition _get_key (key : string) : string := prefix +:+ key.

(** [CacheManager.get(key)], for a manager whose [self.redis] is set. *)
Definition cm_get (key : string) (s : cache_stats)
  : prog (pyval * cache_stats) :=
  Call (GET (_get_key key)) (fun r =>
    match r with
    | Raise _ => Ret (VNone, add_error s)
    | Ok data =>
        if truthy data then
          let s := add_hit s in
          match data with
          | VStr text =>
              match json_loads text with
              | Ok v => Ret (v, s)
              | Raise _ => Ret (VNone, add_error s)
              end
          | _ => Ret (VNone, add_error s)
          end
        else Ret (VNone, add_miss s)
    end).

(** [ttl or self.default_ttl] *)
Definition ttl_or_default (ttl : option Z) : Z :=
  match ttl with
  | Some t => if decide (t = 0) then default_ttl else t
  | None => default_ttl
  end.

(** [CacheManager.set(key, value, ttl)] *)
Definition cm_set (key : string) (value : pyval) (ttl : option Z)
    (s : cache_stats) : prog (pyval * cache_stats) :=
  match json_dumps value with
  | Raise _ => Ret (VBool false, add_error s)
  | Ok serialized_value =>
      Call (SETEX (_get_key key) (ttl_or_default ttl)
                  (VStr serialized_value))
           (fun r =>
              match r with
              | Raise _ => Ret (VBool false, add_error s)
              | Ok result =>
                  Ret (result, if truthy result then add_set s else s)
              end)
  end.

(** [CacheManager.delete(key)] *)
Definition cm_delete (key : string) (s : cache_stats)
  : prog (bool * cache_stats) :=
  Call (DELETE (_get_key key)) (fun r =>
    match r with
    | Raise _ => Ret (false, add_error s)
    | Ok result =>
        Ret (truthy result, if truthy result then add_delete s else s)
    end).

(** *** [DatabaseService]; [cache] tells whether [self.cache] is set. *)
Variable cache : bool.

(** The common shape of the three readers: try the cache, else
    compute from the database and, if [store] says so, cache the
    result with [ttl]. *)
Definition try_cache (cache_key : string) (s : cache_stats)
  : prog (option pyval * cache_stats) :=
  if cache then
    '(cached, s) ← cm_get cache_key s;
    Ret (if truthy cached then Some cached else None, s)
  else Ret (None, s).

(** [DatabaseService.get_user(user_id)] *)
Definition get_user (user_id : string) (st : app) : prog (pyval * app) :=
  let cache_key := "user:" +:+ user_id in
  '(cached_user, s) ← try_cache cache_key (stats st);
  match cached_user with
  | Some u => Ret (u, App (db st) s)
  | None =>
      match table_get user_id (users (db st)) with
      | Some user =>
          if truthy (VDict user) && cache then
            '(_, s) ← cm_set cache_key (VDict user) (Some 300) s;
            Ret (VDict user, App (db st) s)
          else Ret (VDict user, App (db st) s)
      | None => Ret (VNone, App (db st) s)
      end
  end.

(** [DatabaseService.get_all_users()] *)
Definition get_all_users (st : app) : prog (pyval * app) :=
  let cache_key := "users:all" in
  '(cached_users, s) ← try_cache cache_key (stats st);
  match cached_users with
  | Some us => Ret (us, App (db st) s)
  | None =>
      let all := VList (map (fun kv => VDict (snd kv)) (users (db st))) in
      if cache then
        '(_, s) ← cm_set cache_key all (Some 180) s;
        Ret (all, App (db st) s)
      else Ret (all, App (db st) s)
  end.

(** [DatabaseService.get_user_posts(user_id)] *)
Definition get_user_posts (user_id : string) (st : app)
  : prog (pyres pyval * app) :=
  let cache_key := "user:" +:+ user_id +:+ ":posts" in
  '(cached_posts, s) ← try_cache cache_key (stats st);
  match cached_posts with
  | Some ps => Ret (Ok ps, App (db st) s)
  | None =>
      match posts_of user_id (map snd (posts (db st))) with
      | Raise e => Ret (Raise e, App (db st) s)
      | Ok ps =>
          if cache then
            '(_, s) ← cm_set cache_key (VList ps) (Some 240) s;
            Ret (Ok (VList ps), App (db st) s)
          else Ret (Ok (VList ps), App (db st) s)
      end
  end.

(** [DatabaseService.update_user(user_id, user_data)] *)
Definition update_user (user_id : string) (user_data : row) (st : app)
  : prog (pyval * app) :=
  match table_get user_id (users (db st)) with
  | None => Ret (VNone, st)
  | Some user =>
      let users' := table_update user_id user_data (users (db st)) in
      let updated_user := VDict (dict_update user user_data) in
      let db' := Database users' (posts (db st)) in
      if cache then
        '(_, s) ← cm_delete ("user:" +:+ user_id) (stats st);
        '(_, s) ← cm_delete "users:all" s;
        Ret (updated_user, App db' s)
      else Ret (updated_user, App db' (stats st))
  end.

(** *** Sequences of service calls *)

Inductive op : Type :=
  | GetUser (user_id : string)
  | GetAllUsers
  | GetUserPosts (user_id : string)
  | UpdateUser (user_id : string) (user_data : row)
  | Elapse (key : string).    (* the TTL of [key] runs out *)

(** One call against the working server. *)
Definition step (o : op) (st : app) (rdb : gmap string string)
  : option (app * gmap string string) :=
  match o with
  | GetUser id =>
      '(r, rdb) ← run_server (get_user id st) rdb; Some (r.2, rdb)
  | GetAllUsers =>
      '(r, rdb) ← run_server (get_all_users st) rdb; Some (r.2, rdb)
  | GetUserPosts id =>
      '(r, rdb) ← run_server (get_user_posts id st) rdb; Some (r.2, rdb)
  | UpdateUser id data =>
      '(r, rdb) ← run_server (update_user id data st) rdb; Some (r.2, rdb)
  | Elapse key => Some (st, base.delete key rdb)
  end.

Fixpoint steps (os : list op) (st : app) (rdb : gmap string string)
  : option (app * gmap string string) :=
  match os with
  | [] => Some (st, rdb)
  | o :: os' => '(st, rdb) ← step o st rdb; steps os' st rdb
  end.

(** The calls that look a key up in the cache, and those that
    invalidate. *)
Definition is_read (o : op) : bool :=
  match o with
  | GetUser _ | GetAllUsers | GetUserPosts _ => true
  | UpdateUser _ _ | Elapse _ => false
  end.

Definition is_update (o : op) : bool :=
  match o with
  | UpdateUser _ _ => true
  | _ => false
  end.

Definition reads (os : list op) : Z :=
  Z.of_nat (length (List.filter is_read os)).

Definition updates (os : list op) : Z :=
  Z.of_nat (length (List.filter is_update os)).

(** [s'] is [s] after [lookups] lookups, at most [stored] stores, at
    most [removed] removals and at most [failed] errors. *)
Definition counted (lookups stored removed failed : Z) (s s' : cache_stats)
  : Prop :=
  hits s' + misses s' = hits s + misses s + lookups
  /\ hits s <= hits s' /\ misses s <= misses s'
  /\ sets s <= sets s' <= sets s + stored
  /\ deletes s <= deletes s' <= deletes s + removed
  /\ errors s <= errors s' <= errors s + failed.

(** The cache entry of user [id], if there is one, is the serialised
    row of [id] in the database. *)
Definition coherent_at (id : string) (st : app) (rdb : gmap string string)
  : Prop :=
  ∀ s, rdb !! _get_key ("user:" +:+ id) = Some s →
       ∃ user, table_get id (users (db st)) = Some user
               ∧ json_dumps (VDict user) = Ok s.

(** The entries of all users whose key is no posts key are coherent. *)
Definition coherent (st : app) (rdb : gmap string string) : Prop :=
  forall id, ~ posts_suffixed id -> coherent_at id st rdb.

End Manager.

End CachingApi.

(** ** Concrete libraries and worlds, for running the code *)

Module Examples.

(** A client whose every call raises [ConnectionError]. *)
Definition redis_down (c : Redis.cmd) (w : unit) : pyres pyval * unit :=
  (Raise (LibError "Connection refused"), w).

(** [str(e)]: the message of the exception; for [HTTPException], the
    status code and the detail. *)
Definition exn_str (e : exn) : string :=
  match e with
  | HTTPException code detail => Json.str_of_Z code +:+ ": " +:+ detail
  | ZeroDivisionError => "division by zero"
  | OverflowError => "integer division result too large for a float"
  | JSONDecodeError msg | TypeError msg | DataError msg | LibError msg => msg
  | KeyError key => "'" +:+ key +:+ "'"
  | ValidationError => "1 validation error for ChatResponse"
  end.

(** An SDK whose completion call fails. *)
Definition chat_create_down (model : string)
    (messages : list ChatApi.chat_message) (temperature : option float)
    (max_tokens : Z)
  : pyres ChatApi.completion :=
  Raise (LibError "Connection error.").

(** A tiktoken that knows no model. *)
Definition no_encoding (model : string) : pyres unit :=
  Raise (KeyError "Could not automatically map model to a tokeniser").

Definition no_encode (enc : unit) (text : string) : pyres (list Z) := Ok [].

Definition demo_settings : ChatApi.settings :=
  ChatApi.Settings "gpt-4" 0.7 1000 10.

Definition demo_request : ChatApi.chat_request :=
  ChatApi.ChatRequest "hello world" None None None None.

Definition empty_state : ChatApi.state := ChatApi.State ∅ ∅.

(** A stand-in for the MD5 digest: the text itself. *)
Definition digest (s : string) : string := s.

(** An embeddings endpoint that is down. *)
Definition embeddings_down (tick : nat) (text model : string)
  : pyres (list float) :=
  Raise (LibError "Connection error.").

(** An embeddings endpoint that rejects the text ["bad"] and embeds every
    other text in one dimension. *)
Definition embeddings_demo (tick : nat) (text model : string)
  : pyres (list float) :=
  if String.eqb text "bad" then Raise (LibError "Invalid input")
  else if String.eqb text "cat" then Ok [1%float]
  else Ok [0.5%float].

Definition save_ok (tick : nat) : pyres unit := Ok tt.

(** A similarity on one-dimensional embeddings. *)
Definition similarity_demo (a b : list float) : float :=
  match a, b with
  | [x], [y] => if PrimFloat.eqb x y then 1%float else 0.5%float
  | _, _ => 0%float
  end.

(** The posts of user ["1"] in [fake_database], as cached values. *)
Definition posts_of_user_1 : pyval :=
  VList [VDict (CachingApi.post_row "1" "First Post"
                  "This is the first post" "1");
         VDict (CachingApi.post_row "3" "Third Post"
                  "This is the third post" "1")].

Definition fresh_client : EmbeddingsClient.client :=
  EmbeddingsClient.Client "text-embedding-ada-002" 0 0 0 ∅ 0.

(** [json.dumps] on the modelled values never raises. *)
Definition json_dumps (v : pyval) : pyres string := Ok (Json.dumps v).

(** The dict [{1: "a"}], whose key is an [int]. *)
Definition int_keyed : pyval := VDict [(KInt 1, VStr "a")].

(** The session preferences of [user_session_example]. *)
Definition preferences : pyval :=
  VDict [(KStr "theme", VStr "dark"); (KStr "language", VStr "en")].

(** A cache file that cannot be written. *)
Definition save_down (tick : nat) : pyres unit :=
  Raise (LibError "Read-only file system").

(** An SDK that answers every chat with the same completion. *)
Definition chat_create_hi (model : string)
    (messages : list ChatApi.chat_message) (temperature : option float)
    (max_tokens : Z)
  : pyres ChatApi.completion :=
  Ok (ChatApi.Completion (Some "hi") 12).

(** An SDK whose completions carry no text. *)
Definition chat_create_no_text (model : string)
    (messages : list ChatApi.chat_message) (temperature : option float)
    (max_tokens : Z)
  : pyres ChatApi.completion :=
  Ok (ChatApi.Completion None 12).

(** A state with one conversation, known to one client. *)
Definition one_conversation : ChatApi.state :=
  ChatApi.State
    {["c-1" := [("user", Some "hello"); ("assistant", Some "hi")]]}
    {["127.0.0.1" := ChatApi.Usage 1 12 0.5 {["c-1"]}]}.

(** A clock that advances by one minute at each reading. *)
Definition clock (n : nat) : Z := 63800000000000000 + Z.of_nat n * 60000000.

Definition no_embeddings : EmbeddingsApi.state := EmbeddingsApi.State ∅ 0 0.

(** Handlers named by numbers that write their name to a log; handler 1
    raises after writing. *)
Definition call_demo (h : nat) (channel : string) (message_data : pyval)
    (st : @PubSub.state nat (list nat)) : pyres unit * PubSub.state :=
  let st := PubSub.State (PubSub.message_handlers st)
              (PubSub.world st ++ [h]) in
  (if Nat.eqb h 1 then Raise (LibError "handler failed") else Ok tt, st).

Definition three_handlers : @PubSub.state nat (list nat) :=
  PubSub.State {["news" := [0; 1; 2]%nat]} [].

(** A server on which no key ever expires. *)
Definition no_expiry (c : Redis.cmd) (db : gmap string string)
  : pyres pyval * gmap string string :=
  (Ok (VInt (-1)), db).

(** An endpoint for batches that rejects a batch with the text ["bad"]
    and embeds every text of another batch in one dimension. *)
Definition embeddings_batch_demo (tick : nat) (batch : list string)
    (model : string) : pyres (list (list float)) :=
  if existsb (String.eqb "bad") batch then Raise (LibError "Invalid input")
  else Ok ((fun _ => [0.5%float]) <$> batch).

(** A cache file that cannot be written at the second call to the
    world. *)
Definition save_down_once (tick : nat) : pyres unit :=
  if Nat.eqb tick 1 then Raise (LibError "Read-only file system") else Ok tt.

(** [similarity_demo] as a similarity that never raises. *)
Definition cosine_demo (a b : list float) : pyres float :=
  Ok (similarity_demo a b).

(** The cache after [get_user_posts("3")] on the initial database. *)
Definition no_posts_cached : gmap string string :=
  {[CachingApi._get_key "user:3:posts" := "[]"]}.

End Examples.

(** * Properties *)

(** ** Results and numbers *)

Lemma pybind_Ok {A B} (a : A) (k : A -> pyres B) : Ok a ≫= k = k a.
Proof. reflexivity. Qed.

Lemma pybind_Raise {A B} (e : exn) (k : A -> pyres B) :
  Raise e ≫= k = Raise e.
Proof. reflexivity. Qed.

Lemma try_except_Ok {A} (a : A) (h : exn -> pyres A) :
  try_except (Ok a) h = Ok a.
Proof. reflexivity. Qed.

Lemma try_except_Raise {A} (e : exn) (h : exn -> pyres A) :
  try_except (Raise e) h = h e.
Proof. reflexivity. Qed.

(** An [int] times a [float] is a [float] whenever it is defined. *)
Lemma mul_int_float_is_float (n : Z) (f : float) (v : pynum) :
  PyNum.mul (PInt n) (PFloat f) = Ok v -> is_float v = true.
Proof.
  unfold PyNum.mul, to_float.
  destruct (float_of_Z n) as [fx|e]; simpl; [|discriminate].
  by intros [= <-].
Qed.

(** True division of [int]s raises [ZeroDivisionError] only for a zero
    divisor. *)
Lemma int_truediv_nonzero (a b : Z) :
  b ≠ 0 -> PyNum.int_truediv a b ≠ Raise ZeroDivisionError.
Proof.
  intros Hb. unfold PyNum.int_truediv.
  destruct (decide (b = 0)); [done|].
  by destruct (SFdiv prec emax (sf_of_Z a) (sf_of_Z b)).
Qed.

(** ** C3: the cost of a token count *)

Lemma chat_rate_table (m : string) :
  default 0.03%float (ChatApi.pricing !! m) = ChatApi.spec_rate m.
Proof.
  unfold ChatApi.spec_rate, ChatApi.pricing.
  repeat case_decide; simplify_map_eq; done.
Qed.

(** C3.  For every token count [t] and model [m], [calculate_cost t m] is
    [(t / 1000) * rate m], where [rate] is 0.03 for gpt-4, 0.01 for
    gpt-4-turbo, 0.002 for gpt-3.5-turbo and 0.03 for any other model. *)
Theorem calculate_cost_matches_pricing (t : pynum) (m : string) :
  ChatApi.calculate_cost t m
  = (q ← PyNum.truediv t (PInt 1000);
     Ok (PrimFloat.mul q (ChatApi.spec_rate m))).
Proof.
  unfold ChatApi.calculate_cost. by rewrite chat_rate_table.
Qed.

Example calculate_cost_gpt4_1000 :
  ChatApi.calculate_cost (PInt 1000) "gpt-4" = Ok 0.03%float.
Proof. vm_compute. reflexivity. Qed.

Example calculate_cost_unknown_2000 :
  ChatApi.calculate_cost (PInt 2000) "my-model" = Ok 0.06%float.
Proof. vm_compute. reflexivity. Qed.

(** ** C8: the word-count estimate is a float *)

(** C8.  In the chat API, whenever [tiktoken.encoding_for_model] raises,
    [count_tokens text model] is [len(text.split()) * 1.3]; in the
    function-calling API [count_tokens text] is that product for every
    text; the product is a [float], never an [int], although both
    functions are declared to return [int] (two words give 2.6). *)
Theorem count_tokens_fallback_is_float :
  (forall (Encoding token : Type)
          (encoding_for_model : string -> pyres Encoding)
          (encode : Encoding -> string -> pyres (list token))
          (text model : string) (e : exn),
      encoding_for_model model = Raise e ->
      ChatApi.count_tokens encoding_for_model encode text model
      = PyNum.mul (PInt (Z.of_nat (length (PyStr.split text)))) (PFloat 1.3))
  /\ (forall text : string,
         FunctionCallingApi.count_tokens text
         = PyNum.mul (PInt (Z.of_nat (length (PyStr.split text)))) (PFloat 1.3))
  /\ (forall (n : Z) (v : pynum),
         PyNum.mul (PInt n) (PFloat 1.3) = Ok v -> is_float v = true)
  /\ FunctionCallingApi.count_tokens "hello world" = Ok (PFloat 2.6).
Proof.
  split; [|split; [|split]].
  - intros Encoding token efm enc text model e He.
    unfold ChatApi.count_tokens. by rewrite He.
  - reflexivity.
  - intros n v. apply mul_int_float_is_float.
  - vm_compute. reflexivity.
Qed.

Lemma count_tokens_fallback_is_float_witness :
  ChatApi.count_tokens (Encoding := unit) (token := unit)
    (fun _ => Raise (KeyError "no-such-model")) (fun _ _ => Ok [])
    "hello world" "no-such-model"
  = Ok (PFloat 2.6).
Proof.
  rewrite (proj1 count_tokens_fallback_is_float unit unit _ _ _ _
             (KeyError "no-such-model") eq_refl).
  vm_compute. reflexivity.
Defined.

(** ** C1: token counting and tiktoken *)

(** The embeddings client and the embeddings API count [len(text) // 4]
    whatever the tokenizer is.  A tokenizer that can be decoded maps
    different texts to different token lists, so it cannot give no token
    to both the empty text and ["a"]; the estimate is 0 for both. *)
Lemma count_tokens_disagrees (token : Type) (encode : string -> list token) :
  (forall s t : string, encode s = encode t -> s = t) ->
  exists text : string,
    (text = "" \/ text = "a")
    /\ EmbeddingsClient.count_tokens text <> Z.of_nat (length (encode text))
    /\ EmbeddingsApi.count_tokens text <> Z.of_nat (length (encode text)).
Proof.
  intros Hinj.
  destruct (encode "") as [|t0 l0] eqn:E0.
  - destruct (encode "a") as [|t1 l1] eqn:E1.
    + specialize (Hinj "" "a"). rewrite E0, E1 in Hinj.
      by specialize (Hinj eq_refl).
    + exists "a". split; [by right|]. rewrite E1.
      split; vm_compute; discriminate.
  - exists "". split; [by left|]. rewrite E0.
    split; vm_compute; discriminate.
Qed.

(** The estimate [len(text) // 4] is the number of whole groups of four
    characters. *)
Lemma quarter_of_length (text : string) :
  let n := PyStr.len text `div` 4 in
  4 * n <= PyStr.len text < 4 * n + 4.
Proof.
  intros n. subst n.
  pose proof (Z.div_mod (PyStr.len text) 4 ltac:(lia)) as Hdiv.
  pose proof (Z.mod_pos_bound (PyStr.len text) 4 ltac:(lia)) as Hmod.
  lia.
Qed.




(** ** C10: the hit rate *)

(** What [get_cache_stats] reports as hit rate, whatever the Redis
    client answers: the float of the rate it computed. *)
Lemma get_cache_stats_rate {W : Type}
    (h : Redis.cmd -> W -> pyres pyval * W) (w : W) (redis_client : bool)
    (s : CachingApi.cache_stats) :
  CachingApi.resp_hit_rate
    <$> (Redis.run h (CachingApi.get_cache_stats redis_client s) w).1.1
  = CachingApi.hit_rate s ≫= PyNum.to_float.
Proof.
  unfold CachingApi.get_cache_stats.
  destruct (CachingApi.hit_rate s) as [rate|e]; simpl; [|done].
  assert (forall total_keys memory_usage,
             CachingApi.resp_hit_rate
               <$> ((fun reported =>
                       CachingApi.StatsResponse (CachingApi.hits s)
                         (CachingApi.misses s) (CachingApi.sets s)
                         (CachingApi.deletes s) (CachingApi.errors s)
                         reported total_keys memory_usage)
                      <$> PyNum.to_float rate)
             = PyNum.to_float rate) as Hreport
    by (intros; by destruct (PyNum.to_float rate)).
  destruct redis_client; simpl; [|apply Hreport].
  destruct (h Redis.INFO w) as [[v|e] w1]; simpl; [|apply Hreport].
  destruct v; simpl; try apply Hreport.
  destruct (h Redis.DBSIZE w1) as [[v|e] w2]; apply Hreport.
Qed.

(** C10.  [get_cache_stats] never divides by zero, whatever the counters
    are and whatever the Redis client answers: when [hits + misses > 0]
    the hit rate it reports is the quotient [hits / (hits + misses)], and
    when no request has been counted it reports 0, as the float 0.0 of
    the field [hit_rate]. *)
Theorem hit_rate_no_zero_division {W : Type}
    (h : Redis.cmd -> W -> pyres pyval * W) (w : W) (redis_client : bool)
    (s : CachingApi.cache_stats) :
  let reported :=
    CachingApi.resp_hit_rate
      <$> (Redis.run h (CachingApi.get_cache_stats redis_client s) w).1.1 in
  reported <> Raise ZeroDivisionError
  /\ (0 < CachingApi.hits s + CachingApi.misses s ->
      reported = PyNum.int_truediv (CachingApi.hits s)
                   (CachingApi.hits s + CachingApi.misses s))
  /\ (CachingApi.hits s + CachingApi.misses s <= 0 ->
      reported = Ok 0%float).
Proof.
  intros reported. subst reported. rewrite get_cache_stats_rate.
  unfold CachingApi.hit_rate.
  destruct (decide (0 < CachingApi.hits s + CachingApi.misses s))
    as [Hpos|Hzero].
  - assert ((PFloat <$> PyNum.int_truediv (CachingApi.hits s)
                          (CachingApi.hits s + CachingApi.misses s))
            ≫= PyNum.to_float
            = PyNum.int_truediv (CachingApi.hits s)
                (CachingApi.hits s + CachingApi.misses s)) as ->
      by by destruct (PyNum.int_truediv _ _).
    split; [apply int_truediv_nonzero; lia|]. split; [done|lia].
  - split; [done|]. split; [lia|]. intros _. reflexivity.
Qed.

Lemma hit_rate_no_zero_division_witness :
  CachingApi.resp_hit_rate
    <$> (Redis.run Examples.redis_down
           (CachingApi.get_cache_stats true (CachingApi.CacheStats 3 1 0 0 0))
           tt).1.1
  = Ok 0.75%float
  /\ CachingApi.resp_hit_rate
       <$> (Redis.run Examples.redis_down
              (CachingApi.get_cache_stats true
                 (CachingApi.CacheStats 0 0 0 0 0)) tt).1.1
     = Ok 0%float.
Proof.
  split.
  - rewrite (proj1 (proj2 (hit_rate_no_zero_division Examples.redis_down tt
               true (CachingApi.CacheStats 3 1 0 0 0)))); [|simpl; lia].
    vm_compute. reflexivity.
  - apply (proj2 (proj2 (hit_rate_no_zero_division Examples.redis_down tt
               true (CachingApi.CacheStats 0 0 0 0 0)))). simpl. lia.
Defined.

(** ** C6: a failing client call *)

(** A wrapper method that makes one client call and maps every exception
    of that call to [fallback]. *)
Lemma run_call_raises {A W} (h : Redis.cmd -> W -> pyres pyval * W)
    (c : Redis.cmd) (k : pyres pyval -> Redis.prog A) (fallback : A)
    (w w' : W) (e : exn) :
  h c w = (Raise e, w') ->
  k (Raise e) = Redis.Ret fallback ->
  Redis.run h (Redis.Call c k) w = (fallback, w', [c]).
Proof.
  intros Hh Hk. simpl. by rewrite Hh, Hk.
Qed.

(** C6.  For every [RedisCache] operation, if the client call it makes
    raises, the operation makes no other call (the trace is that single
    call, so there is no retry) and returns its fallback: [False] for
    [set], [exists], [delete], [expire] and [flush_db], [None] for [get],
    [increment] and [ttl], the empty dict for [get_info].  The methods
    assign no attribute of the wrapper; the only state that changes is
    the world's, as the failing call left it. *)
Theorem redis_cache_fails_closed {W : Type}
    (h : Redis.cmd -> W -> pyres pyval * W) (w w' : W) (e : exn)
    (json_dumps : pyval -> pyres string)
    (json_loads : string -> pyres pyval) :
  (forall key value ttl v,
      RedisCache.serialize json_dumps value = Ok v ->
      h (RedisCache.set_cmd key ttl v) w = (Raise e, w') ->
      Redis.run h (RedisCache.set json_dumps key value ttl) w
      = (false, w', [RedisCache.set_cmd key ttl v]))
  /\ (forall key,
         h (Redis.GET key) w = (Raise e, w') ->
         Redis.run h (RedisCache.get json_loads key) w
         = (VNone, w', [Redis.GET key]))
  /\ (forall key,
         h (Redis.EXISTS key) w = (Raise e, w') ->
         Redis.run h (RedisCache.exists_ key) w
         = (false, w', [Redis.EXISTS key]))
  /\ (forall key,
         h (Redis.DELETE key) w = (Raise e, w') ->
         Redis.run h (RedisCache.delete key) w
         = (false, w', [Redis.DELETE key]))
  /\ (forall key amount,
         h (Redis.INCR key amount) w = (Raise e, w') ->
         Redis.run h (RedisCache.increment key amount) w
         = (VNone, w', [Redis.INCR key amount]))
  /\ (forall key ttl,
         h (Redis.EXPIRE key ttl) w = (Raise e, w') ->
         Redis.run h (RedisCache.expire key ttl) w
         = (false, w', [Redis.EXPIRE key ttl]))
  /\ (forall key,
         h (Redis.TTL key) w = (Raise e, w') ->
         Redis.run h (RedisCache.ttl key) w
         = (VNone, w', [Redis.TTL key]))
  /\ (h Redis.FLUSHDB w = (Raise e, w') ->
      Redis.run h RedisCache.flush_db w = (false, w', [Redis.FLUSHDB]))
  /\ (h Redis.INFO w = (Raise e, w') ->
      Redis.run h RedisCache.get_info w = (VDict [], w', [Redis.INFO])).
Proof.
  repeat split; intros;
    try (by eapply run_call_raises; [eassumption|reflexivity]).
  unfold RedisCache.set.
  match goal with H : RedisCache.serialize _ _ = _ |- _ => rewrite H end.
  by eapply run_call_raises; [eassumption|reflexivity].
Qed.

Lemma redis_cache_fails_closed_witness :
  Redis.run Examples.redis_down
    (RedisCache.set (fun v => Ok (Json.dumps v)) "session:user123"
       (VDict [(KStr "theme", VStr "dark")]) (Some 3600)) tt
  = (false, tt,
     [Redis.SETEX "session:user123" 3600
        (VStr (Json.dumps (VDict [(KStr "theme", VStr "dark")])))])
  /\ Redis.run Examples.redis_down (RedisCache.get Json.loads "page_views") tt
     = (VNone, tt, [Redis.GET "page_views"]).
Proof.
  pose proof (redis_cache_fails_closed Examples.redis_down tt tt
                (LibError "Connection refused")
                (fun v => Ok (Json.dumps v)) Json.loads) as (Hset & Hget & _).
  split.
  - apply (Hset "session:user123" (VDict [(KStr "theme", VStr "dark")])
             (Some 3600)
             (VStr (Json.dumps (VDict [(KStr "theme", VStr "dark")])))
             eq_refl eq_refl).
  - apply (Hget "page_views" eq_refl).
Defined.

(** ** C2: what becomes of an exception *)

(** C2, as stated, fails: the dependency [get_cache_manager] is an error
    path whose status code is 503, neither 500 nor 400. *)
Lemma error_path_with_other_status :
  ~ (forall (cache_manager : option unit) (code : Z) (detail : string),
        CachingApi.get_cache_manager cache_manager
        = Raise (HTTPException code detail) ->
        code = 500 \/ code = 400).
Proof.
  intros H.
  destruct (H None 503 "Redis not available" eq_refl) as [?|?]; lia.
Qed.

(** C2, amended.  In the chat route an exception raised by the SDK call
    leaves the route as [HTTPException] with status 500 and [str(e)] as
    detail, the user's message staying in the conversation; the health
    check catches the exception of its SDK call and returns a body that
    carries [str(e)].  Other status codes are raised where nothing is
    caught: 429 by the rate limiter before the route is called, 402 by
    [check_daily_budget], 404 by [get_conversation] and
    [delete_conversation] for an unknown id, 503 by [get_cache_manager]
    without Redis, 400 by [warm_cache] for an unknown resource type.  An
    exception that leaves the chat route has status 429, from the
    limiter, or status 500 with the message of an exception raised in
    the [try] block. *)
Theorem exceptions_and_status_codes {Encoding token : Type}
    (encoding_for_model : string -> pyres Encoding)
    (encode : Encoding -> string -> pyres (list token))
    (chat_create : string -> list ChatApi.chat_message -> option float -> Z ->
                   pyres ChatApi.completion)
    (str : exn -> string) (float_str : float -> string)
    (cfg : ChatApi.settings) :
  let body := ChatApi.chat_completion_body encoding_for_model encode
                chat_create float_str cfg in
  let route := ChatApi.chat_completion encoding_for_model encode
                 chat_create str float_str cfg in
  (forall req ip id t st e,
      let model :=
        ChatApi.or_str (ChatApi.req_model req) (ChatApi.openai_model cfg) in
      let cid := ChatApi.or_str (ChatApi.conversation_id req) id in
      let messages :=
        default [] (ChatApi.conversations st !! cid)
        ++ [("user", Some (ChatApi.message req))] in
      ChatApi.estimate_and_check encoding_for_model encode float_str cfg req
        ip st
      = Ok tt ->
      chat_create model messages
        (Some (ChatApi.or_float (ChatApi.req_temperature req)
                 (ChatApi.temperature cfg)))
        (ChatApi.or_int (ChatApi.req_max_tokens req) (ChatApi.max_tokens cfg))
      = Raise e ->
      route None req ip id t st
      = (Raise (HTTPException 500 (str e)),
         ChatApi.State (<[cid := messages]> (ChatApi.conversations st))
           (ChatApi.usage_stats st)))
  /\ (forall detail req ip id t st,
         route (Some detail) req ip id t st
         = (Raise (HTTPException 429 detail), st))
  /\ (forall exceeded req ip id t st e st',
         route exceeded req ip id t st = (Raise e, st') ->
         (exists limit_detail,
             exceeded = Some limit_detail
             /\ e = HTTPException 429 limit_detail /\ st' = st)
         \/ (exceeded = None
             /\ exists e0, body req ip id t st = (Raise e0, st')
                           /\ e = HTTPException 500 (str e0)))
  /\ (forall ip cost st u,
         ChatApi.usage_stats st !! ip = Some u ->
         PrimFloat.ltb (ChatApi.daily_budget cfg)
           (PrimFloat.add (ChatApi.total_cost u) cost) = true ->
         exists detail,
           ChatApi.check_daily_budget float_str cfg ip cost st
           = Raise (HTTPException 402 detail))
  /\ (forall st e,
         chat_create "gpt-3.5-turbo" [("user", Some "test")] None 1 = Raise e ->
         ChatApi.health_check chat_create str cfg st
         = [(KStr "status", VStr "unhealthy");
            (KStr "openai", VStr "disconnected");
            (KStr "error", VStr (str e))])
  /\ (forall id st,
         ChatApi.conversations st !! id = None ->
         ChatApi.get_conversation id st
         = Raise (HTTPException 404 "Conversation not found")
         /\ ChatApi.delete_conversation id st
            = (Raise (HTTPException 404 "Conversation not found"), st))
  /\ CachingApi.get_cache_manager (M := unit) None
     = Raise (HTTPException 503 "Redis not available")
  /\ (forall resource_type,
         resource_type <> "users" -> resource_type <> "posts" ->
         CachingApi.warm_cache resource_type
         = Raise (HTTPException 400 "Invalid resource type")).
Proof.
  intros body route. subst body route.
  split; [|split; [|split; [|split; [|split; [|split; [|split]]]]]].
  - intros req ip id t st e model cid messages Hcheck Hcreate.
    subst model cid messages.
    unfold ChatApi.chat_completion, ChatApi.limit,
      ChatApi.chat_completion_try, ChatApi.chat_completion_body.
    by rewrite Hcheck, Hcreate.
  - reflexivity.
  - intros [limit|] req ip id t st e st';
      unfold ChatApi.chat_completion, ChatApi.limit.
    + intros [= <- <-]. left. by exists limit.
    + unfold ChatApi.chat_completion_try.
      destruct (ChatApi.chat_completion_body _ _ _ _ _ _ _ _ _ _)
        as [[r|e0] st1]; simpl; [discriminate|].
      intros [= <- <-]. right. split; [done|]. by exists e0.
  - intros ip cost st u Hu Hlt. unfold ChatApi.check_daily_budget.
    rewrite Hu, Hlt. by eexists.
  - intros st e He. unfold ChatApi.health_check. by rewrite He.
  - intros id st Hid.
    unfold ChatApi.get_conversation, ChatApi.delete_conversation.
    by rewrite Hid.
  - reflexivity.
  - intros rt Hu Hp. unfold CachingApi.warm_cache.
    destruct (String.eqb_spec rt "users"); [done|].
    by destruct (String.eqb_spec rt "posts").
Qed.

Lemma exceptions_and_status_codes_witness :
  ChatApi.chat_completion Examples.no_encoding Examples.no_encode
    Examples.chat_create_down Examples.exn_str (fun _ => "10.0")
    Examples.demo_settings None Examples.demo_request "127.0.0.1" "c-1" 0.5
    Examples.empty_state
  = (Raise (HTTPException 500 "Connection error."),
     ChatApi.State {["c-1" := [("user", Some "hello world")]]} ∅).
Proof.
  apply (proj1 (exceptions_and_status_codes Examples.no_encoding
                  Examples.no_encode Examples.chat_create_down
                  Examples.exn_str (fun _ => "10.0") Examples.demo_settings)
           Examples.demo_request "127.0.0.1" "c-1" 0.5%float
           Examples.empty_state (LibError "Connection error."));
    vm_compute; reflexivity.
Defined.

(** ** C9: [get] after [set] *)

(** Storing a string under [key] on the working server. *)
Lemma run_server_set_cmd (key : string) (ttl : option Z) (s : string)
    (db : gmap string string) :
  RedisCache.ttl_accepted ttl ->
  Redis.run_server
    (Redis.Call (RedisCache.set_cmd key ttl (VStr s)) RedisCache.bool_reply) db
  = Some (true, <[key := s]> db).
Proof.
  intros Httl. unfold RedisCache.set_cmd, RedisCache.ttl_given.
  destruct ttl as [t|]; [|reflexivity].
  specialize (Httl t eq_refl).
  destruct (decide (t = 0)); [reflexivity|].
  simpl. rewrite decide_True by lia. reflexivity.
Qed.

(** Reading back the string stored under [key]. *)
Lemma run_server_get (json_loads : string -> pyres pyval) (key s : string)
    (db : gmap string string) :
  db !! key = Some s ->
  Redis.run_server (RedisCache.get json_loads key) db
  = Some (match json_loads s with
          | Ok v => v
          | Raise (JSONDecodeError _) => VStr s
          | Raise _ => VNone
          end, db).
Proof.
  intros Hk. simpl. rewrite Hk.
  destruct (json_loads s) as [v|[]]; reflexivity.
Qed.




(** ** The order of floats *)

Lemma SFcompare_antisym (x y : spec_float) (c : comparison) :
  SFcompare x y = Some c -> SFcompare y x = Some (CompOpp c).
Proof.
  destruct x as [sx|sx| |sx mx ex], y as [sy|sy| |sy my ey]; simpl;
    try discriminate; intros [= <-]; f_equal;
    try (destruct sx; reflexivity); try (destruct sy; reflexivity);
    try (destruct sx, sy; reflexivity).
  destruct sx, sy; simpl; try reflexivity.
  all: rewrite (Z.compare_antisym ex ey); destruct (ex ?= ey)%Z; simpl;
    try reflexivity.
  all: change (PosDef.Pos.compare_cont Eq ?a ?b) with (Pos.compare a b).
  all: rewrite (Pos.compare_antisym mx my), ?CompOpp_involutive; reflexivity.
Qed.

Lemma SFcompare_not_nan (x y : spec_float) :
  SFeqb x x = true -> SFeqb y y = true -> is_Some (SFcompare x y).
Proof.
  unfold SFeqb.
  destruct x as [sx|sx| |sx mx ex], y as [sy|sy| |sy my ey]; simpl;
    try discriminate; intros _ _; eauto.
Qed.

(** Without NaN, [x < y] is false exactly when [y <= x]. *)
Lemma float_ltb_false_leb (x y : float) :
  PrimFloat.is_nan x = false -> PrimFloat.is_nan y = false ->
  PrimFloat.ltb x y = false -> PrimFloat.leb y x = true.
Proof.
  unfold PrimFloat.is_nan.
  rewrite !FloatAxioms.eqb_spec, FloatAxioms.ltb_spec, FloatAxioms.leb_spec.
  intros Hx%negb_false_iff Hy%negb_false_iff.
  destruct (SFcompare_not_nan _ _ Hx Hy) as [c Hc].
  unfold SFltb, SFleb. rewrite Hc, (SFcompare_antisym _ _ _ Hc).
  by destruct c.
Qed.

Lemma float_ltb_leb (x y : float) :
  PrimFloat.ltb x y = true -> PrimFloat.leb x y = true.
Proof.
  rewrite FloatAxioms.ltb_spec, FloatAxioms.leb_spec. unfold SFltb, SFleb.
  by destruct (SFcompare _ _) as [[]|].
Qed.

(** ** Sorting by decreasing key *)

Section SortDesc.
Context {A : Type} (key : A -> float).

Local Abbreviation key_ge := (PyList.key_ge key).
Local Abbreviation not_nan := (fun x : A => PrimFloat.is_nan (key x) = false).

Lemma insert_desc_perm (x : A) (l : list A) :
  PyList.insert_desc key x l ≡ₚ x :: l.
Proof.
  induction l as [|y l IH]; simpl; [done|].
  destruct (PrimFloat.ltb _ _); [|done].
  rewrite IH. apply Permutation_swap.
Qed.

Lemma sort_desc_perm (l : list A) : PyList.sort_desc key l ≡ₚ l.
Proof.
  induction l as [|x l IH]; simpl; [done|].
  by rewrite insert_desc_perm, IH.
Qed.

Lemma insert_desc_HdRel (a x : A) (l : list A) :
  key_ge a x -> HdRel key_ge a l -> HdRel key_ge a (PyList.insert_desc key x l).
Proof.
  intros Hax Hal. destruct l as [|y l]; simpl; [by constructor|].
  destruct (PrimFloat.ltb _ _); constructor; [|done].
  by inversion Hal.
Qed.

Lemma insert_desc_Sorted (x : A) (l : list A) :
  not_nan x -> Forall not_nan l ->
  Sorted key_ge l -> Sorted key_ge (PyList.insert_desc key x l).
Proof.
  intros Hx Hl Hsorted. revert Hl.
  induction Hsorted as [|y l Hsorted IH Hhd]; simpl; intros Hl.
  - by repeat constructor.
  - apply Forall_cons in Hl as [Hy Hl].
    destruct (PrimFloat.ltb (key x) (key y)) eqn:Hlt.
    + constructor; [by apply IH|].
      apply insert_desc_HdRel; [|done].
      by apply float_ltb_leb.
    + constructor; [by constructor|]. constructor.
      by apply float_ltb_false_leb.
Qed.

Lemma sort_desc_Sorted (l : list A) :
  Forall not_nan l -> Sorted key_ge (PyList.sort_desc key l).
Proof.
  induction 1 as [|x l Hx Hl IH]; simpl; [constructor|].
  apply insert_desc_Sorted; [done| |done].
  by rewrite sort_desc_perm.
Qed.

End SortDesc.

Lemma Sorted_take {A} (R : A -> A -> Prop) (n : nat) (l : list A) :
  Sorted R l -> Sorted R (take n l).
Proof.
  intros Hl. revert n.
  induction Hl as [|x l Hl IH Hhd]; intros [|n]; simpl; try constructor.
  - apply IH.
  - destruct Hhd; destruct n; simpl; by constructor.
Qed.

Lemma slice_to_nonneg {A} (l : list A) (k : Z) :
  0 <= k -> PyList.slice_to l k = take (Z.to_nat k) l.
Proof. intros Hk. unfold PyList.slice_to. by rewrite decide_True. Qed.

(** ** C5: ranking documents by similarity *)

Lemma int_truediv_raise (a b : Z) (e : exn) :
  b <> 0 -> PyNum.int_truediv a b = Raise e -> e = OverflowError.
Proof.
  intros Hb. unfold PyNum.int_truediv.
  destruct (decide (b = 0)); [done|].
  destruct (SFdiv _ _ _ _); by intros [= <-].
Qed.

Section FindMostSimilar.
Import EmbeddingsClient.
Variable md5_hex : string -> string.
Variable embeddings_create : nat -> string -> string -> pyres (list float).
Variable save_cache : nat -> pyres unit.
Variable cosine_similarity : list float -> list float -> pyres float.
Variable str : exn -> string.

Local Abbreviation lookup :=
  (get_embedding md5_hex embeddings_create save_cache str).
Local Abbreviation lookups :=
  (lookup_all md5_hex embeddings_create save_cache str).
Local Abbreviation visible :=
  (errors_visible embeddings_create save_cache str).

Lemma has_error_error_result (e : exn) :
  str e <> "" -> has_error (error_result str e) = true.
Proof.
  intros He. unfold has_error. simpl.
  by destruct (String.eqb_spec (str e) "").
Qed.

(** A lookup without error carries an embedding. *)
Lemma lookup_no_error (text : string) (self : client) :
  visible ->
  has_error (lookup text self).1 = false ->
  exists d, r_embedding (lookup text self).1 = Some d.
Proof.
  intros (Hapi & Hsave & Hover). unfold get_embedding.
  destruct (cache self !! _) as [d|]; simpl; [by eauto|].
  destruct (embeddings_create _ _ _) as [d|e] eqn:Ecreate; simpl.
  - destruct (calculate_cost _ _) as [c|e] eqn:Ecost; simpl.
    + destruct (save_cache _) as [[]|e] eqn:Esave; simpl; [by eauto|].
      rewrite has_error_error_result; [done|by eapply Hsave].
    + rewrite has_error_error_result; [done|].
      unfold calculate_cost in Ecost.
      destruct (int_truediv _ 1000) as [q|e'] eqn:Ediv; simpl in Ecost;
        [done|].
      injection Ecost as <-.
      by rewrite (int_truediv_raise _ 1000 e' ltac:(lia) Ediv).
  - rewrite has_error_error_result; [done|by eapply Hapi].
Qed.

(** The loop looks the documents up in order and appends the hits of
    those lookups; the first exception of [cosine_similarity] ends it.
    When there is none, every document has been looked up. *)
Lemma similar_loop_hits (q : list float) (documents : list string) :
  visible ->
  forall (i : nat) (results : list sim_hit) (self : client),
    (similar_loop md5_hex embeddings_create save_cache cosine_similarity str
       (Some q) i documents results self).1
    = app results <$> hits_of cosine_similarity q i documents
                        (lookups documents self).1
    /\ (forall hits,
           hits_of cosine_similarity q i documents (lookups documents self).1
           = Ok hits ->
           (similar_loop md5_hex embeddings_create save_cache
              cosine_similarity str (Some q) i documents results self).2
           = (lookups documents self).2).
Proof.
  intros Hvis.
  induction documents as [|doc rest IH]; intros i results self; simpl.
  - by rewrite app_nil_r.
  - pose proof (lookup_no_error doc self Hvis) as Hemb.
    destruct (lookup doc self) as [r self1]. simpl in Hemb.
    destruct (lookups rest self1) as [rs self2] eqn:Erest. simpl.
    destruct (has_error r) eqn:Herr.
    + specialize (IH (S i) results self1). by rewrite Erest in IH.
    + destruct (Hemb eq_refl) as [d Hd]. rewrite Hd. simpl.
      destruct (cosine_similarity q d) as [similarity|e]; simpl; [|done].
      match goal with
      | |- context [similar_loop _ _ _ _ _ _ _ _ ?results' _] =>
          specialize (IH (S i) results' self1)
      end.
      rewrite Erest in IH. simpl in IH. destruct IH as [Hresult Hstate].
      rewrite Hresult.
      destruct (hits_of _ _ _ _ _) as [hits|e]; simpl; [|done].
      split; [by rewrite <-app_assoc|]. intros ? _. by apply (Hstate hits).
Qed.

(** Where a hit comes from. *)
Lemma hits_of_elem (q : list float) (documents : list string)
    (rs : list emb_result) (h : sim_hit) :
  forall (i : nat) (hits : list sim_hit),
    hits_of cosine_similarity q i documents rs = Ok hits ->
    h ∈ hits ->
    exists (j : nat) (r : emb_result) (d : list float),
      index h = (i + j)%nat
      /\ documents !! j = Some (document h)
      /\ rs !! j = Some r
      /\ has_error r = false
      /\ r_embedding r = Some d
      /\ cosine_similarity q d = Ok (similarity h).
Proof.
  revert rs.
  induction documents as [|doc rest IH]; intros [|r rs] i hits; simpl;
    try (intros [= <-]; by intros ?%elem_of_nil).
  assert (forall hits', hits_of cosine_similarity q (S i) rest rs = Ok hits' ->
          h ∈ hits' ->
          exists j r0 d, index h = (i + j)%nat
            /\ (doc :: rest) !! j = Some (document h)
            /\ (r :: rs) !! j = Some r0
            /\ has_error r0 = false /\ r_embedding r0 = Some d
            /\ cosine_similarity q d = Ok (similarity h)) as Htail.
  { intros hits' Hhits' (j & r0 & d & Hi & ?)%(IH _ _ _ Hhits').
    exists (S j), r0, d. split; [lia|done]. }
  destruct (has_error r) eqn:Herr; [by apply Htail|].
  destruct (r_embedding r) as [d|] eqn:Hd; [|by apply Htail].
  destruct (cosine_similarity q d) as [s|e] eqn:Hs; simpl; [|done].
  destruct (hits_of _ _ _ _ _) as [hits'|e] eqn:Hhits'; simpl; [|done].
  intros [= <-] [->|Hin]%elem_of_cons; [|by eapply Htail].
  exists 0%nat, r, d. simpl. split; [lia|done].
Qed.

(** The hits are defined when [cosine_similarity] returns for every
    compared pair. *)
Lemma hits_of_defined (q : list float) (documents : list string)
    (rs : list emb_result) :
  (forall d, compared q rs d -> exists s, cosine_similarity q d = Ok s) ->
  forall i, exists hits, hits_of cosine_similarity q i documents rs = Ok hits.
Proof.
  revert rs. induction documents as [|doc rest IH]; intros [|r rs] Hdef i;
    simpl; try by eexists.
  assert (forall d, compared q rs d -> exists s, cosine_similarity q d = Ok s)
    as Hdef'.
  { intros d (r0 & Hin & ?). apply Hdef. exists r0.
    split; [by apply list_elem_of_further|done]. }
  destruct (IH rs Hdef' (S i)) as [hits Hhits].
  destruct (has_error r) eqn:Herr; [by eexists|].
  destruct (r_embedding r) as [d|] eqn:Hd; [|by eexists].
  destruct (Hdef d) as [s ->].
  { exists r. split; [apply list_elem_of_here|done]. }
  simpl. rewrite Hhits. by eexists.
Qed.

(** An exception of the hits was raised by [cosine_similarity] on a
    compared pair. *)
Lemma hits_of_raise (q : list float) (documents : list string)
    (rs : list emb_result) (e : exn) :
  forall i,
    hits_of cosine_similarity q i documents rs = Raise e ->
    exists d, compared q rs d /\ cosine_similarity q d = Raise e.
Proof.
  revert rs. induction documents as [|doc rest IH]; intros [|r rs] i;
    simpl; try done.
  assert (hits_of cosine_similarity q (S i) rest rs = Raise e ->
          exists d, compared q (r :: rs) d /\ cosine_similarity q d = Raise e)
    as Htail.
  { intros (d & (r0 & Hin & ?) & Hd)%IH. exists d. split; [|done].
    exists r0. split; [by apply list_elem_of_further|done]. }
  destruct (has_error r) eqn:Herr; [done|].
  destruct (r_embedding r) as [d|] eqn:Hd; [|done].
  destruct (cosine_similarity q d) as [s|e'] eqn:Hs; simpl.
  - destruct (hits_of _ _ _ _ _) as [hits|e'] eqn:Hhits; simpl; [done|].
    intros [= ->]. by apply Htail.
  - intros [= ->]. exists d. split; [|done].
    exists r. split; [apply list_elem_of_here|done].
Qed.


End FindMostSimilar.


Lemma demo_errors_visible :
  EmbeddingsClient.errors_visible Examples.embeddings_demo Examples.save_ok
    Examples.exn_str.
Proof.
  split; [|split].
  - intros tick text m e. unfold Examples.embeddings_demo.
    destruct (String.eqb text "bad"); [|by destruct (String.eqb text "cat")].
    by intros [= <-].
  - by intros tick e.
  - done.
Qed.

Lemma cosine_demo_not_nan (a b : list float) (s : float) :
  Examples.cosine_demo a b = Ok s -> PrimFloat.is_nan s = false.
Proof.
  unfold Examples.cosine_demo, Examples.similarity_demo. intros [= <-].
  destruct a as [|x [|]], b as [|y [|]]; try reflexivity.
  by destruct (PrimFloat.eqb x y).
Qed.

Lemma cosine_demo_defined (a b : list float) :
  exists s, Examples.cosine_demo a b = Ok s.
Proof. by eexists. Qed.

Lemma fmap_Hit_inj (l1 l2 : list EmbeddingsClient.sim_hit) :
  EmbeddingsClient.Hit <$> l1 = EmbeddingsClient.Hit <$> l2 -> l1 = l2.
Proof.
  revert l2. induction l1 as [|h1 l1 IH]; intros [|h2 l2]; simpl; try done.
  intros [= -> ?]. f_equal. by apply IH.
Qed.


(** ** C4: the cache entries of users *)

Lemma run_server_bind {A B} (p : Redis.prog A) (k : A -> Redis.prog B)
    (rdb : gmap string string) :
  Redis.run_server (p ≫= k) rdb
  = '(a, rdb') ← Redis.run_server p rdb; Redis.run_server (k a) rdb'.
Proof.
  revert rdb. induction p as [a|c k' IH]; intros rdb; [done|].
  change (Redis.Call c k' ≫= k) with (Redis.Call c (fun r => k' r ≫= k)).
  simpl. destruct (Redis.server c rdb) as [[r rdb']|]; [|done].
  apply IH.
Qed.

Section Coherence.
Import CachingApi.
Variable json_dumps : pyval -> pyres string.
Variable json_loads : string -> pyres pyval.
Variable default_ttl : Z.


(** Closes the case where the server database did not change. *)
Local Ltac unchanged :=
  simpl; repeat (eexists _); (split; [reflexivity|]); by left.

(** [get] reads: the database of the server is unchanged. *)
Lemma cm_get_effect (key : string) (s : cache_stats) (rdb : gmap string string) :
  exists r, Redis.run_server (cm_get json_loads key s) rdb = Some (r, rdb).
Proof.
  unfold cm_get. simpl.
  destruct (rdb !! _get_key key) as [text|]; simpl.
  - destruct (negb (String.eqb text "")); [|by eauto].
    destruct (json_loads text); by eauto.
  - by eauto.
Qed.

(** [set] with a positive TTL stores the serialised value, or nothing if
    the value cannot be serialised. *)
Lemma cm_set_effect (key : string) (value : pyval) (ttl : Z) (s : cache_stats)
    (rdb : gmap string string) :
  0 < ttl -> ttl <> 0 ->
  exists r rdb',
    Redis.run_server (cm_set json_dumps default_ttl key value (Some ttl) s) rdb
    = Some (r, rdb')
    /\ (rdb' = rdb
        \/ exists text, json_dumps value = Ok text
                        /\ rdb' = <[_get_key key := text]> rdb).
Proof.
  intros Hpos Hnz. unfold cm_set.
  destruct (json_dumps value) as [text|e]; simpl;
    [|eexists _, _; split; [reflexivity|by left]].
  unfold ttl_or_default. destruct (decide (ttl = 0)); [done|].
  destruct (decide (0 < ttl)); [|done]. simpl.
  eexists _, _. split; [reflexivity|]. right. by exists text.
Qed.

(** [delete] removes the key. *)
Lemma cm_delete_effect (key : string) (s : cache_stats)
    (rdb : gmap string string) :
  exists r,
    Redis.run_server (cm_delete key s) rdb
    = Some (r, base.delete (_get_key key) rdb).
Proof. unfold cm_delete. simpl. by eauto. Qed.

Lemma try_cache_effect (key : string) (s : cache_stats)
    (rdb : gmap string string) :
  exists r, Redis.run_server (try_cache json_loads true key s) rdb = Some (r, rdb).
Proof.
  unfold try_cache. rewrite run_server_bind.
  destruct (cm_get_effect key s rdb) as [[v s'] ->]. simpl. by eauto.
Qed.

(** What a service call does to the database and to the server. *)
Lemma get_user_effect (id : string) (st : app) (rdb : gmap string string) :
  exists r s rdb',
    Redis.run_server (get_user json_dumps json_loads default_ttl true id st) rdb
    = Some ((r, App (db st) s), rdb')
    /\ (rdb' = rdb
        \/ exists user text,
             table_get id (users (db st)) = Some user
             /\ json_dumps (VDict user) = Ok text
             /\ rdb' = <[_get_key ("user:" +:+ id) := text]> rdb).
Proof.
  unfold get_user. rewrite run_server_bind.
  destruct (try_cache_effect ("user:" +:+ id) (stats st) rdb)
    as [[cached s] ->]. simpl.
  destruct cached as [u|]; simpl; [unchanged|].
  destruct (table_get id (users (db st))) as [user|] eqn:Huser;
    [|unchanged].
  destruct (_ && true); [|unchanged].
  rewrite run_server_bind.
  destruct (cm_set_effect ("user:" +:+ id) (VDict user) 300 s rdb)
    as ([v s'] & rdb' & -> & Hrdb); [lia..|]. simpl.
  exists (VDict user), s', rdb'. split; [done|].
  destruct Hrdb as [->|(text & ? & ->)]; [by left|right]. by eauto.
Qed.

Lemma get_all_users_effect (st : app) (rdb : gmap string string) :
  exists r s rdb',
    Redis.run_server (get_all_users json_dumps json_loads default_ttl true st) rdb
    = Some ((r, App (db st) s), rdb')
    /\ (rdb' = rdb
        \/ exists text, rdb' = <[_get_key "users:all" := text]> rdb).
Proof.
  unfold get_all_users. rewrite run_server_bind.
  destruct (try_cache_effect "users:all" (stats st) rdb) as [[cached s] ->].
  simpl. destruct cached as [u|]; simpl; [unchanged|].
  rewrite run_server_bind.
  destruct (cm_set_effect "users:all"
              (VList (map (fun kv => VDict kv.2) (users (db st)))) 180 s rdb)
    as ([v s'] & rdb' & -> & Hrdb); [lia..|]. simpl.
  eexists _, s', rdb'. split; [done|].
  destruct Hrdb as [->|(text & ? & ->)]; [by left|right]. by eauto.
Qed.

Lemma get_user_posts_effect (id : string) (st : app)
    (rdb : gmap string string) :
  exists r s rdb',
    Redis.run_server
      (get_user_posts json_dumps json_loads default_ttl true id st) rdb
    = Some ((r, App (db st) s), rdb')
    /\ (rdb' = rdb
        \/ exists text,
             rdb' = <[_get_key ("user:" +:+ id +:+ ":posts") := text]> rdb).
Proof.
  unfold get_user_posts. rewrite run_server_bind.
  destruct (try_cache_effect ("user:" +:+ id +:+ ":posts") (stats st) rdb)
    as [[cached s] ->].
  simpl. destruct cached as [u|]; simpl; [unchanged|].
  destruct (posts_of id _) as [ps|e]; simpl; [|unchanged].
  rewrite run_server_bind.
  destruct (cm_set_effect ("user:" +:+ id +:+ ":posts") (VList ps) 240 s rdb)
    as ([v s'] & rdb' & -> & Hrdb); [lia..|]. simpl.
  eexists _, s', rdb'. split; [done|].
  destruct Hrdb as [->|(text & ? & ->)]; [by left|right]. by eauto.
Qed.

Lemma update_user_effect (id : string) (data : row) (st : app)
    (rdb : gmap string string) :
  exists r st' rdb',
    Redis.run_server (update_user true id data st) rdb = Some ((r, st'), rdb')
    /\ ((st' = st /\ rdb' = rdb)
        \/ (users (db st') = table_update id data (users (db st))
            /\ rdb' = base.delete (_get_key "users:all")
                        (base.delete (_get_key ("user:" +:+ id)) rdb))).
Proof.
  unfold update_user.
  destruct (table_get id (users (db st))) as [user|]; [|unchanged].
  simpl. eexists _, _, _. split; [reflexivity|]. by right.
Qed.

End Coherence.

Section CoherencePreserved.
Import CachingApi.
Variable json_dumps : pyval -> pyres string.
Variable json_loads : string -> pyres pyval.
Variable default_ttl : Z.

Local Abbreviation coherent := (CachingApi.coherent json_dumps).
Local Abbreviation step := (CachingApi.step json_dumps json_loads default_ttl true).
Local Abbreviation steps := (CachingApi.steps json_dumps json_loads default_ttl true).

Lemma user_key_inj (a b : string) :
  _get_key ("user:" +:+ a) = _get_key ("user:" +:+ b) -> a = b.
Proof. unfold _get_key, prefix. simpl. by intros [=]. Qed.

Lemma user_key_not_all (a : string) :
  _get_key ("user:" +:+ a) <> _get_key "users:all".
Proof. unfold _get_key, prefix. simpl. by intros [=]. Qed.

Lemma user_key_posts (a u : string) :
  _get_key ("user:" +:+ a) = _get_key ("user:" +:+ u +:+ ":posts") ->
  posts_suffixed a.
Proof. intros ->%user_key_inj. by exists u. Qed.

Lemma table_get_update_ne (id id' : string) (data : row) (t : table) :
  id' <> id -> table_get id' (table_update id data t) = table_get id' t.
Proof.
  intros Hne. induction t as [|[k r] t IH]; simpl; [done|].
  destruct (decide (id = k)) as [->|]; simpl.
  - by rewrite !decide_False.
  - by rewrite IH.
Qed.

(** An entry written under another key, or removed, leaves the others
    coherent. *)
Lemma coherent_insert_other (key text : string) (st : app)
    (rdb : gmap string string) :
  (forall id, ~ posts_suffixed id -> key <> _get_key ("user:" +:+ id)) ->
  coherent st rdb -> coherent st (<[key := text]> rdb).
Proof.
  intros Hkey Hco id Hid s. rewrite lookup_insert_ne by by apply Hkey.
  by apply Hco.
Qed.

Lemma coherent_delete (key : string) (st : app) (rdb : gmap string string) :
  coherent st rdb -> coherent st (base.delete key rdb).
Proof.
  intros Hco id Hid s [_ Hs]%lookup_delete_Some. by apply Hco.
Qed.

(** Every service call, and the expiry of a key, keeps the entries of
    users coherent. *)
Lemma step_coherent (o : op) (st : app) (rdb : gmap string string) :
  coherent st rdb ->
  exists st' rdb', step o st rdb = Some (st', rdb') /\ coherent st' rdb'.
Proof.
  intros Hco. destruct st as [d s0].
  destruct o as [id| |id|id data|key]; unfold CachingApi.step.
  - destruct (get_user_effect json_dumps json_loads default_ttl id (App d s0) rdb)
      as (r & s & rdb' & -> & Hrdb). simpl.
    eexists _, _. split; [done|].
    destruct Hrdb as [->|(user & text & Huser & Htext & ->)]; [done|].
    intros id' Hid' t.
    destruct (decide (id' = id)) as [->|Hne].
    + rewrite lookup_insert_eq. intros [= <-]. by exists user.
    + rewrite lookup_insert_ne by (by intros ?%user_key_inj).
      by apply Hco.
  - destruct (get_all_users_effect json_dumps json_loads default_ttl (App d s0) rdb)
      as (r & s & rdb' & -> & Hrdb). simpl.
    eexists _, _. split; [done|].
    destruct Hrdb as [->|(text & ->)]; [done|].
    apply coherent_insert_other; [|done].
    intros id' _ Heq. by eapply user_key_not_all.
  - destruct (get_user_posts_effect json_dumps json_loads default_ttl id
                (App d s0) rdb) as (r & s & rdb' & -> & Hrdb). simpl.
    eexists _, _. split; [done|].
    destruct Hrdb as [->|(text & ->)]; [done|].
    apply coherent_insert_other; [|done].
    intros id' Hid' Heq. by eapply Hid', user_key_posts.
  - destruct (update_user_effect id data (App d s0) rdb)
      as (r & st' & rdb' & -> & Hrdb). simpl.
    eexists _, _. split; [done|].
    destruct Hrdb as [[-> ->]|[Husers ->]]; [done|].
    intros id' Hid' t [_ [Hne Ht]%lookup_delete_Some]%lookup_delete_Some.
    assert (id' <> id) as Hne' by congruence.
    destruct (Hco id' Hid' t Ht) as (user & Huser & Htext).
    exists user. split; [|done].
    rewrite Husers. by rewrite table_get_update_ne.
  - eexists _, _. split; [done|]. by apply coherent_delete.
Qed.

Lemma steps_coherent (os : list op) :
  forall (st : app) (rdb : gmap string string),
    coherent st rdb ->
    exists st' rdb', steps os st rdb = Some (st', rdb') /\ coherent st' rdb'.
Proof.
  induction os as [|o os IH]; intros st rdb Hco; simpl; [by eauto|].
  destruct (step_coherent o st rdb Hco) as (st1 & rdb1 & -> & Hco1).
  simpl. by apply IH.
Qed.

(** From the initial database and an empty cache, after any sequence of
    calls, the cache entry of every user whose key is not also a posts
    key is the serialised row of that user. *)
Lemma users_stay_coherent (os : list op) :
  exists st rdb,
    steps os initial_app ∅ = Some (st, rdb) /\ coherent st rdb.
Proof.
  apply steps_coherent. intros id _ s. by rewrite lookup_empty.
Qed.

End CoherencePreserved.

(** C4 fails on the code: the key [user:{id}:posts] under which
    [get_user_posts] caches the posts of [id] is also the key
    [user:{id'}] of the id [id' = id:posts].  After [get_user_posts("1")]
    on the initial database and an empty cache, the cache holds an entry
    under the key of user ["1:posts"], the database has no such user, and
    [get_user("1:posts")] returns the two posts of user ["1"] where the
    database answers [None]. *)
Theorem get_user_returns_cached_posts :
  exists st rdb text,
    CachingApi.steps Examples.json_dumps Json.loads 300 true
      [CachingApi.GetUserPosts "1"] CachingApi.initial_app ∅
    = Some (st, rdb)
    /\ rdb !! CachingApi._get_key ("user:" +:+ "1:posts") = Some text
    /\ CachingApi.table_get "1:posts" (CachingApi.users (CachingApi.db st))
       = None
    /\ ~ CachingApi.coherent_at Examples.json_dumps "1:posts" st rdb
    /\ (fun r => r.1.1)
         <$> Redis.run_server
               (CachingApi.get_user Examples.json_dumps Json.loads 300 true
                  "1:posts" st) rdb
       = Some Examples.posts_of_user_1.
Proof.
  eexists _, _, _. split; [vm_compute; reflexivity|].
  split; [vm_compute; reflexivity|].
  split; [reflexivity|]. split.
  - intros H. edestruct H as (user & Huser & _); [vm_compute; reflexivity|].
    discriminate.
  - vm_compute. reflexivity.
Qed.

(** * Further properties of the code *)

(** ** example-embeddings.py: the embedding cache *)

Section EmbeddingCache.
Import EmbeddingsClient.
Variable md5_hex : string -> string.
Variable embeddings_create : nat -> string -> string -> pyres (list float).
Variable save_cache : nat -> pyres unit.
Variable cosine_similarity : list float -> list float -> pyres float.
Variable str : exn -> string.

Local Abbreviation lookup :=
  (get_embedding md5_hex embeddings_create save_cache str).

(** A lookup never changes the model, so the cache key of a text stays
    the same. *)
Lemma lookup_model (text : string) (self : client) :
  model (lookup text self).2 = model self.
Proof.
  unfold get_embedding.
  destruct (cache self !! _); [done|].
  destruct (embeddings_create _ _ _); [|done]. simpl.
  destruct (calculate_cost _ _); [|done]. simpl.
  by destruct (save_cache _).
Qed.

(** A result without the key ["error"] carries an embedding, and that
    embedding is in the cache afterwards. *)
Lemma lookup_fills_cache (text : string) (self : client) :
  r_error (lookup text self).1 = None ->
  exists e,
    r_embedding (lookup text self).1 = Some e
    /\ cache (lookup text self).2 !! get_cache_key md5_hex self text = Some e.
Proof.
  unfold get_embedding.
  destruct (cache self !! _) as [e|] eqn:Hc; simpl; [by eauto|].
  destruct (embeddings_create _ _ _) as [e|]; simpl; [|done].
  destruct (calculate_cost _ _); simpl; [|done].
  destruct (save_cache _) as [[]|]; simpl; [|done].
  intros _. exists e. split; [done|]. apply lookup_insert_eq.
Qed.

(** X1.  After a lookup that returned an embedding, looking the same text
    up again is answered from the cache: the same embedding, no tokens,
    no cost, [cached] set, and the client (counters, cache, calls made to
    the world) is left as it was. *)
Theorem lookup_again_is_cached (text : string) (self : client) :
  r_error (lookup text self).1 = None ->
  lookup text (lookup text self).2
  = (EmbResult None (r_embedding (lookup text self).1) 0 0%float (Some true),
     (lookup text self).2).
Proof.
  intros Hok. destruct (lookup_fills_cache text self Hok) as (e & He & Hc).
  pose proof (lookup_model text self) as Hm.
  destruct (lookup text self) as [r self1]. simpl in *.
  unfold get_embedding at 1. unfold get_cache_key in *.
  by rewrite Hm, Hc, He.
Qed.

(** X2.  A lookup that misses the cache and fails.  If the endpoint
    raises, the result is the error dict and the counters and the cache
    are untouched.  If the endpoint answers but saving the cache file
    raises, the result is again the error dict, without the embedding,
    yet the request has been counted and the embedding is in the cache:
    the next lookup of the text returns it as cached. *)
Theorem lookup_failures (text : string) (self : client) :
  cache self !! get_cache_key md5_hex self text = None ->
  (forall ex,
      embeddings_create (tick self) text (model self) = Raise ex ->
      lookup text self
      = (error_result str ex,
         Client (model self) (total_tokens self) (total_cost self)
                (request_count self) (cache self) (S (tick self))))
  /\ (forall e c ex,
         embeddings_create (tick self) text (model self) = Ok e ->
         calculate_cost self (count_tokens text) = Ok c ->
         save_cache (S (tick self)) = Raise ex ->
         let self1 := (lookup text self).2 in
         (lookup text self).1 = error_result str ex
         /\ request_count self1 = request_count self + 1
         /\ total_tokens self1 = total_tokens self + count_tokens text
         /\ lookup text self1
            = (EmbResult None (Some e) 0 0%float (Some true), self1)).
Proof.
  intros Hmiss. split.
  - intros ex Hex. unfold get_embedding. by rewrite Hmiss, Hex.
  - intros e c ex He Hc Hsave.
    assert (lookup text self
            = (error_result str ex,
               Client (model self) (total_tokens self + count_tokens text)
                      (PrimFloat.add (total_cost self) c)
                      (request_count self + 1)
                      (<[get_cache_key md5_hex self text := e]> (cache self))
                      (S (S (tick self))))) as Hrun.
    { unfold get_embedding. rewrite Hmiss, He. simpl.
      unfold calculate_cost in *. simpl. rewrite Hc. simpl.
      by rewrite Hsave. }
    rewrite Hrun. simpl. repeat split.
    unfold get_embedding, get_cache_key. simpl.
    by rewrite lookup_insert_eq.
Qed.

(** X3.  Comparing a text with itself calls the endpoint once: when the
    first lookup is a fresh success, the second one is a cache hit and
    the tokens of the text are counted once.  The result is the
    similarity that [cosine_similarity] returns for the embedding and
    itself; when [cosine_similarity] raises (scikit-learn rejects an
    empty embedding or one with an entry that is not finite), that
    exception is raised, not caught.  The client is in both cases as the
    first lookup left it. *)
Theorem calculate_similarity_same_text (text : string) (self : client)
    (e : list float) (tokens : Z) (c : float) (self1 : client) :
  lookup text self = (EmbResult None (Some e) tokens c (Some false), self1) ->
  calculate_similarity md5_hex embeddings_create save_cache cosine_similarity
    str text text self
  = (match cosine_similarity e e with
     | Ok similarity =>
         Ok (SimilarityOk similarity tokens (PrimFloat.add c 0) (Some false)
               (Some true))
     | Raise ex => Raise ex
     end, self1).
Proof.
  intros Hfirst. unfold calculate_similarity.
  assert (lookup text self1
          = (EmbResult None (Some e) 0 0%float (Some true), self1)) as Hagain.
  { pose proof (lookup_fills_cache text self) as Hfill.
    pose proof (lookup_model text self) as Hm.
    rewrite Hfirst in *. simpl in *.
    destruct (Hfill eq_refl) as (e' & [= <-] & Hc).
    unfold get_embedding at 1. unfold get_cache_key in *.
    by rewrite Hm, Hc. }
  rewrite Hfirst. simpl. rewrite Hagain. simpl.
  destruct (cosine_similarity e e); [|done].
  by rewrite Z.add_0_r.
Qed.

End EmbeddingCache.

(** ** example-embeddings.py: the most similar documents *)

Lemma SFleb_rank (x y : spec_float) :
  SFeqb x x = true -> SFeqb y y = true ->
  SFleb x y = true <-> PyList.rank_le (PyList.rank x) (PyList.rank y).
Proof.
  unfold SFeqb, SFleb, PyList.rank_le.
  destruct x as [sx|sx| |sx mx ex], y as [sy|sy| |sy my ey]; simpl;
    try discriminate; intros _ _;
    try (destruct sx; try destruct sy; simpl; split; (done || lia)).
  change (PosDef.Pos.compare_cont Eq ?a ?b) with (Pos.compare a b).
  destruct sx, sy; simpl; try (split; (done || lia)).
  all: destruct (Z.compare_spec ex ey) as [->|?|?]; simpl;
    try (split; (done || lia)).
  all: destruct (Pos.compare_spec mx my) as [->|?|?]; simpl;
    split; (done || lia).
Qed.

(** Without NaN, [<=] on floats is transitive. *)
Lemma float_leb_trans (x y z : float) :
  PrimFloat.is_nan x = false -> PrimFloat.is_nan y = false ->
  PrimFloat.is_nan z = false ->
  PrimFloat.leb x y = true -> PrimFloat.leb y z = true ->
  PrimFloat.leb x z = true.
Proof.
  unfold PrimFloat.is_nan.
  rewrite !FloatAxioms.eqb_spec, !FloatAxioms.leb_spec.
  intros Hx%negb_false_iff Hy%negb_false_iff Hz%negb_false_iff.
  rewrite !SFleb_rank by done. unfold PyList.rank_le. lia.
Qed.

Section SortDescStrong.
Context {A : Type} (key : A -> float).

Local Abbreviation key_ge := (PyList.key_ge key).
Local Abbreviation not_nan := (fun x : A => PrimFloat.is_nan (key x) = false).

(** A list sorted by decreasing key is so for every pair of positions. *)
Lemma Sorted_key_ge_strong (l : list A) :
  Forall not_nan l -> Sorted key_ge l -> StronglySorted key_ge l.
Proof.
  intros Hnan Hsorted. induction Hsorted as [|x l Hsorted IH Hhd].
  - constructor.
  - apply Forall_cons in Hnan as [Hx Hl]. constructor; [by apply IH|].
    specialize (IH Hl). destruct Hhd as [|y l' Hxy]; [constructor|].
    apply Forall_cons in Hl as [Hy Hl'].
    apply StronglySorted_inv in IH as [_ Hyl].
    constructor; [done|].
    apply Forall_forall. intros z Hz. unfold PyList.key_ge.
    rewrite Forall_forall in Hyl, Hl'.
    eapply float_leb_trans; [by apply Hl'|exact Hy|exact Hx|by apply Hyl|done].
Qed.

(** What a cut of the sorted list leaves out is no greater than what it
    keeps. *)
Lemma sort_desc_cut (n : nat) (l : list A) :
  Forall not_nan l ->
  forall a b, a ∈ take n (PyList.sort_desc key l) ->
              b ∈ drop n (PyList.sort_desc key l) -> key_ge a b.
Proof.
  intros Hnan a b Ha Hb.
  assert (StronglySorted key_ge (PyList.sort_desc key l)) as Hstrong.
  { apply Sorted_key_ge_strong; [by rewrite sort_desc_perm|].
    by apply sort_desc_Sorted. }
  rewrite <-(take_drop n (PyList.sort_desc key l)) in Hstrong.
  by eapply StronglySorted_app_1_elem_of.
Qed.

End SortDescStrong.

Section MostSimilar.
Import EmbeddingsClient.
Variable md5_hex : string -> string.
Variable embeddings_create : nat -> string -> string -> pyres (list float).
Variable save_cache : nat -> pyres unit.
Variable cosine_similarity : list float -> list float -> pyres float.
Variable str : exn -> string.

Local Abbreviation lookup :=
  (get_embedding md5_hex embeddings_create save_cache str).
Local Abbreviation lookups :=
  (lookup_all md5_hex embeddings_create save_cache str).
Local Abbreviation visible :=
  (errors_visible embeddings_create save_cache str).

Lemma hits_of_length (q : list float) (documents : list string)
    (rs : list emb_result) :
  forall (i : nat) (hits : list sim_hit),
    hits_of cosine_similarity q i documents rs = Ok hits ->
    (length hits <= length documents)%nat.
Proof.
  revert rs. induction documents as [|doc rest IH]; intros [|r rs] i hits;
    simpl; try (intros [= <-]; simpl; lia).
  assert (forall hits', hits_of cosine_similarity q (S i) rest rs = Ok hits' ->
                        (length hits' <= S (length rest))%nat) as Htail.
  { intros hits' ?%IH. lia. }
  destruct (has_error r); [by apply Htail|].
  destruct (r_embedding r); [|by apply Htail].
  destruct (cosine_similarity q l); simpl; [|done].
  destruct (hits_of _ _ _ _ _) as [hits'|] eqn:Hhits'; simpl; [|done].
  intros [= <-]. simpl. apply IH in Hhits'. lia.
Qed.

(** Every document whose lookup has no error gives a hit. *)
Lemma hits_of_complete (q : list float) (documents : list string)
    (rs : list emb_result) (j : nat) (doc : string) (r : emb_result)
    (d : list float) :
  forall (i : nat) (hits : list sim_hit),
    hits_of cosine_similarity q i documents rs = Ok hits ->
    documents !! j = Some doc -> rs !! j = Some r ->
    has_error r = false -> r_embedding r = Some d ->
    exists h, h ∈ hits
              /\ index h = (i + j)%nat /\ document h = doc
              /\ cosine_similarity q d = Ok (similarity h).
Proof.
  revert rs j.
  induction documents as [|doc0 rest IH]; intros [|r0 rs] [|j] i hits; simpl;
    try done.
  - intros Hhits [= ->] [= ->] Herr Hd. rewrite Herr, Hd in Hhits.
    destruct (cosine_similarity q d) as [s|]; simpl in Hhits; [|done].
    destruct (hits_of _ _ _ _ _) as [hits'|]; simpl in Hhits; [|done].
    injection Hhits as <-.
    eexists. split; [by apply list_elem_of_here|]. simpl.
    split; [lia|done].
  - intros Hhits Hdoc Hr Herr Hd.
    assert (exists hits', hits_of cosine_similarity q (S i) rest rs = Ok hits'
                          /\ hits' ⊆ hits) as (hits' & Hhits' & Hsub).
    { destruct (has_error r0); [by eexists|].
      destruct (r_embedding r0); [|by eexists].
      destruct (cosine_similarity q l); simpl in Hhits; [|done].
      destruct (hits_of _ _ _ _ _) as [hits'|]; simpl in Hhits; [|done].
      injection Hhits as <-. exists hits'. split; [done|].
      intros h Hh. by apply list_elem_of_further. }
    destruct (IH rs j (S i) hits' Hhits' Hdoc Hr Herr Hd)
      as (h & Hin & Hi & Hrest).
    exists h. split; [by apply Hsub|]. split; [lia|done].
Qed.

(** The hits are numbered by the documents: no index occurs twice. *)
Lemma hits_of_NoDup (q : list float) (documents : list string)
    (rs : list emb_result) :
  forall (i : nat) (hits : list sim_hit),
    hits_of cosine_similarity q i documents rs = Ok hits ->
    NoDup (index <$> hits) /\ Forall (fun h => (i <= index h)%nat) hits.
Proof.
  revert rs. induction documents as [|doc rest IH]; intros [|r rs] i hits;
    simpl; try (intros [= <-]; split; constructor).
  assert (forall hits', hits_of cosine_similarity q (S i) rest rs = Ok hits' ->
            NoDup (index <$> hits')
            /\ Forall (fun h => (i <= index h)%nat) hits') as Htail.
  { intros hits' [Hdup Hge]%IH. split; [done|].
    eapply Forall_impl; [exact Hge|]. simpl. lia. }
  destruct (has_error r); [by apply Htail|].
  destruct (r_embedding r); [|by apply Htail].
  destruct (cosine_similarity q l); simpl; [|done].
  destruct (hits_of _ _ _ _ _) as [hits'|] eqn:Hhits'; simpl; [|done].
  intros [= <-]. destruct (IH _ _ _ Hhits') as [Hdup Hge].
  destruct (Htail hits' eq_refl) as [_ Hge']. split.
  - simpl. constructor; [|done].
    intros (h & Hi & Hh)%list_elem_of_fmap.
    rewrite Forall_forall in Hge. specialize (Hge h Hh). lia.
  - constructor; [simpl; lia|done].
Qed.

(** X4.  [find_most_similar] returns the [top_k] most similar documents.
    Under the conditions of C5 (exceptions with a message, no NaN,
    [top_k >= 0], the query looked up without error, [cosine_similarity]
    returning for every compared pair): there is exactly one candidate
    hit for each document whose lookup had no error, with the index of
    the document and the similarity that [cosine_similarity] returned;
    the candidates split into the returned hits and the omitted ones;
    [top_k] hits are returned, or all candidates if there are fewer; and
    no omitted hit is more similar to the query than a returned one. *)
Theorem find_most_similar_top (query : string) (documents : list string)
    (top_k : Z) (self : client) :
  visible ->
  (forall a b s, cosine_similarity a b = Ok s -> PrimFloat.is_nan s = false) ->
  0 <= top_k ->
  has_error (lookup query self).1 = false ->
  let self1 := (lookup query self).2 in
  exists q : list float,
    r_embedding (lookup query self).1 = Some q
    /\ ((forall d, compared q (lookups documents self1).1 d ->
                   exists s, cosine_similarity q d = Ok s) ->
        exists candidates hits omitted : list sim_hit,
          (find_most_similar md5_hex embeddings_create save_cache
             cosine_similarity str query documents top_k self).1
          = Ok (Hit <$> hits)
          /\ candidates ≡ₚ hits ++ omitted
          /\ length hits = (Z.to_nat top_k `min` length candidates)%nat
          /\ (forall a b, a ∈ hits -> b ∈ omitted ->
                PrimFloat.leb (similarity b) (similarity a) = true)
          /\ NoDup (index <$> candidates)
          /\ (forall h, h ∈ candidates ->
                exists r d,
                  documents !! index h = Some (document h)
                  /\ (lookups documents self1).1 !! index h = Some r
                  /\ has_error r = false /\ r_embedding r = Some d
                  /\ cosine_similarity q d = Ok (similarity h))
          /\ (forall j doc r d,
                documents !! j = Some doc ->
                (lookups documents self1).1 !! j = Some r ->
                has_error r = false -> r_embedding r = Some d ->
                exists h, h ∈ candidates /\ index h = j /\ document h = doc
                          /\ cosine_similarity q d = Ok (similarity h))).
Proof.
  intros Hvis Hnan Hk Herr self1. subst self1.
  unfold find_most_similar.
  pose proof (lookup_no_error md5_hex embeddings_create save_cache str
                query self Hvis) as Hq.
  destruct (lookup query self) as [qr self1]. simpl in *.
  rewrite Herr. destruct (Hq Herr) as [q Hqe]. rewrite Hqe.
  exists q. split; [done|]. intros Hdefined.
  destruct (hits_of_defined cosine_similarity q documents _ Hdefined 0)
    as [all Hall].
  destruct (similar_loop_hits md5_hex embeddings_create save_cache
              cosine_similarity str q documents Hvis 0 [] self1)
    as [Hresult _].
  destruct (similar_loop _ _ _ _ _ _ _ _ _ _) as [loop self2].
  simpl in Hresult. subst loop. rewrite Hall. simpl.
  rewrite slice_to_nonneg by done.
  set (n := Z.to_nat top_k).
  exists all, (take n (PyList.sort_desc similarity all)),
    (drop n (PyList.sort_desc similarity all)).
  assert (forall h, h ∈ all ->
            exists r d, documents !! index h = Some (document h)
              /\ (lookups documents self1).1 !! index h = Some r
              /\ has_error r = false /\ r_embedding r = Some d
              /\ cosine_similarity q d = Ok (similarity h)) as Hfrom.
  { intros h (j & r & d & Hi & ?)%(hits_of_elem _ _ _ _ _ _ _ Hall).
    simpl in Hi. subst j. by exists r, d. }
  assert (Forall (fun h => PrimFloat.is_nan (similarity h) = false) all)
    as Hfinite.
  { apply Forall_forall. intros h (r & d & _ & _ & _ & _ & Hs)%Hfrom.
    by eapply Hnan. }
  split; [done|]. split; [by rewrite take_drop, sort_desc_perm|].
  split; [by rewrite length_take,
               (Permutation_length (sort_desc_perm similarity all))|].
  split; [intros a b Ha Hb; by eapply (sort_desc_cut similarity n all)|].
  split; [by apply (hits_of_NoDup q documents _ 0 all Hall)|].
  split; [done|].
  intros j doc r d Hdoc Hr Hok Hd.
  by destruct (hits_of_complete q documents _ j doc r d 0%nat all Hall Hdoc Hr
                 Hok Hd) as (h & Hin & Hi & Hrest); exists h.
Qed.

End MostSimilar.

(** ** fastapi-openai/example-chat-api.py: conversations and usage *)

Section ChatState.
Import ChatApi.
Context {Encoding token : Type}.
Variable encoding_for_model : string -> pyres Encoding.
Variable encode : Encoding -> string -> pyres (list token).
Variable chat_create :
  string -> list chat_message -> option float -> Z -> pyres completion.
Variable float_str : float -> string.
Variable cfg : settings.

Local Abbreviation body :=
  (chat_completion_body encoding_for_model encode chat_create float_str cfg).
Local Abbreviation checked :=
  (estimate_and_check encoding_for_model encode float_str cfg).

(** The conversation a request is about, its messages so far, and the
    call that the route makes to the SDK. *)
Local Abbreviation cid req fresh_id := (or_str (conversation_id req) fresh_id).
Local Abbreviation before req fresh_id st :=
  (default [] (conversations st !! cid req fresh_id)).
Local Abbreviation model_of req := (or_str (req_model req) (openai_model cfg)).
Local Abbreviation asked req fresh_id st :=
  (chat_create (model_of req)
     (before req fresh_id st ++ [("user", Some (message req))])
     (Some (or_float (req_temperature req) (temperature cfg)))
     (or_int (req_max_tokens req) (max_tokens cfg))).


(** X6.  What a successful chat request does.  The conversation it names
    (or a fresh one) gains the user's message and then the assistant's
    answer, in this order; every other conversation is untouched; the
    response names that conversation and reports the answer and the
    tokens of the completion that the SDK returned for the messages up to
    the user's. *)
Theorem chat_success_state (req : chat_request) (ip fresh_id : string)
    (elapsed : float) (st st' : state) (resp : chat_response) :
  body req ip fresh_id elapsed st = (Ok resp, st') ->
  resp_conversation_id resp = cid req fresh_id
  /\ conversations st' !! cid req fresh_id
     = Some (before req fresh_id st
             ++ [("user", Some (message req));
                 ("assistant", Some (response resp))])
  /\ (forall id, id <> cid req fresh_id ->
                 conversations st' !! id = conversations st !! id)
  /\ exists c,
       chat_create (resp_model resp)
         (before req fresh_id st ++ [("user", Some (message req))])
         (Some (or_float (req_temperature req) (temperature cfg)))
         (or_int (req_max_tokens req) (max_tokens cfg))
       = Ok c
       /\ content c = Some (response resp)
       /\ resp_tokens_used resp = usage_total_tokens c.
Proof.
  unfold chat_completion_body.
  destruct (checked req ip st) as [[]|e0]; [|done].
  destruct (chat_create _ _ _ _) as [c|e1] eqn:Hc; [|done].
  destruct (calculate_cost _ _) as [cost|e2]; [|done].
  destruct (content c) as [text|] eqn:Hcontent; [|done].
  intros [= <- <-]. unfold track_conversation. simpl.
  split; [done|].
  destruct (usage_stats _ !! ip); simpl.
  all: split; [by rewrite lookup_insert_eq, <-app_assoc|].
  all: split; [intros id Hid; by rewrite !lookup_insert_ne|by exists c].
Qed.

(** X7.  The first conversation of a client is not recorded among its
    conversations.  For a client without usage statistics a successful
    request leaves the statistics as they were; the background task then
    creates the client's statistics with one request and no conversation,
    so that [list_conversations] is empty for the client although its
    conversation exists. *)
Theorem first_conversation_untracked (req : chat_request)
    (ip fresh_id : string) (elapsed : float) (st st' : state)
    (resp : chat_response) :
  usage_stats st !! ip = None ->
  body req ip fresh_id elapsed st = (Ok resp, st') ->
  let st'' := update_usage_stats ip (resp_tokens_used resp) (resp_cost resp)
                st' in
  usage_stats st' = usage_stats st
  /\ (exists u, usage_stats st'' !! ip = Some u
                /\ total_requests u = 1 /\ user_conversations u = ∅)
  /\ list_conversations ip st'' = []
  /\ exists messages,
       get_conversation (resp_conversation_id resp) st''
       = Ok (resp_conversation_id resp, messages).
Proof.
  intros Hnew Hbody st''.
  assert (usage_stats st' = usage_stats st
          /\ is_Some (conversations st' !! resp_conversation_id resp))
    as [Husage [messages Hconv]].
  { revert Hbody. unfold chat_completion_body.
    destruct (checked req ip st) as [[]|e0]; [|done].
    destruct (chat_create _ _ _ _) as [c|e1]; [|done].
    destruct (calculate_cost _ _) as [cost|e2]; [|done].
    destruct (content c) as [text|]; [|done].
    unfold track_conversation. simpl. rewrite Hnew. intros [= <- <-]. simpl.
    split; [done|]. rewrite lookup_insert_eq. by eexists. }
  subst st''. unfold update_usage_stats, list_conversations, get_conversation.
  simpl. rewrite Husage, Hnew. simpl. rewrite lookup_insert_eq. simpl.
  split; [done|]. split; [by eexists|]. split.
  - by rewrite elements_empty.
  - rewrite Hconv. by eexists.
Qed.

End ChatState.

Lemma update_usage_stats_known (ip : string) (tokens : Z) (cost : float)
    (st : ChatApi.state) (n t : Z) (c : float) (convs : gset string) :
  ChatApi.usage_stats st !! ip = Some (ChatApi.Usage n t c convs) ->
  ChatApi.usage_stats (ChatApi.update_usage_stats ip tokens cost st) !! ip
  = Some (ChatApi.Usage (n + 1) (t + tokens) (PrimFloat.add c cost) convs).
Proof.
  intros Hu. unfold ChatApi.update_usage_stats. simpl. rewrite Hu. simpl.
  apply lookup_insert_eq.
Qed.

Lemma update_usage_stats_requests (ip : string) (requests : list (Z * float)) :
  forall (st : ChatApi.state) (n t : Z) (c : float) (convs : gset string),
    ChatApi.usage_stats st !! ip = Some (ChatApi.Usage n t c convs) ->
    let st' := foldl (fun s r => ChatApi.update_usage_stats ip r.1 r.2 s) st
                 requests in
    (exists c',
        ChatApi.usage_stats st' !! ip
        = Some (ChatApi.Usage (n + Z.of_nat (length requests))
                  (t + foldr Z.add 0 (fst <$> requests)) c' convs))
    /\ (forall ip', ip' <> ip ->
          ChatApi.usage_stats st' !! ip' = ChatApi.usage_stats st !! ip')
    /\ ChatApi.conversations st' = ChatApi.conversations st.
Proof.
  induction requests as [|[tk co] rs IH]; intros st n t c convs Hu; simpl.
  - split; [|done]. exists c. rewrite Hu. do 2 f_equal; lia.
  - destruct (IH _ _ _ _ _ (update_usage_stats_known ip tk co st _ _ _ _ Hu))
      as ((c' & Hu') & Hother & Hconv).
    split; [|split].
    + exists c'. rewrite Hu'. cbn [fst snd length fmap list_fmap foldr].
      change (list_fmap _ _ fst rs) with (fst <$> rs).
      f_equal. f_equal; lia.
    + intros ip' Hip'. rewrite Hother by done.
      unfold ChatApi.update_usage_stats. simpl. by rewrite lookup_insert_ne.
    + by rewrite Hconv.
Qed.

(** X8.  The usage statistics count requests.  Running the background
    task once for each request of a non-empty list of completed requests
    of one client adds the length of the list to the requests of the
    client and the sum of their tokens to its tokens, counting from zero
    for a client without statistics, and keeps its conversations; the
    statistics of the other clients and the conversations are as
    before. *)
Theorem usage_stats_accumulate (ip : string) (requests : list (Z * float))
    (st : ChatApi.state) :
  requests <> [] ->
  let u := default (ChatApi.Usage 0 0 0%float ∅) (ChatApi.usage_stats st !! ip) in
  let st' := foldl (fun s r => ChatApi.update_usage_stats ip r.1 r.2 s) st
               requests in
  (exists u', ChatApi.usage_stats st' !! ip = Some u'
              /\ ChatApi.total_requests u'
                 = ChatApi.total_requests u + Z.of_nat (length requests)
              /\ ChatApi.total_tokens u'
                 = ChatApi.total_tokens u + foldr Z.add 0 (fst <$> requests)
              /\ ChatApi.user_conversations u' = ChatApi.user_conversations u)
  /\ (forall ip', ip' <> ip ->
        ChatApi.usage_stats st' !! ip' = ChatApi.usage_stats st !! ip')
  /\ ChatApi.conversations st' = ChatApi.conversations st.
Proof.
  intros Hne u st'. destruct requests as [|[tk co] rs]; [done|].
  assert (Hfirst : ChatApi.usage_stats (ChatApi.update_usage_stats ip tk co st)
                   !! ip
                   = Some (ChatApi.Usage (ChatApi.total_requests u + 1)
                             (ChatApi.total_tokens u + tk)
                             (PrimFloat.add (ChatApi.total_cost u) co)
                             (ChatApi.user_conversations u))).
  { unfold ChatApi.update_usage_stats. simpl. apply lookup_insert_eq. }
  destruct (update_usage_stats_requests ip rs _ _ _ _ _ Hfirst)
    as ((c' & Hu') & Hother & Hconv).
  subst st'. cbn [foldl fst snd]. split; [|split].
  - eexists. split; [exact Hu'|]. cbn [fst snd length fmap list_fmap foldr].
    change (list_fmap _ _ fst rs) with (fst <$> rs). simpl. repeat split; lia.
  - intros ip' Hip'. rewrite Hother by done.
    unfold ChatApi.update_usage_stats. simpl. by rewrite lookup_insert_ne.
  - by rewrite Hconv.
Qed.

(** X9.  Deleting a conversation.  An unknown id raises 404 and changes
    nothing.  A known id is removed: reading it afterwards raises 404, no
    client has it among its conversations any more, the other
    conversations are untouched and every client keeps its counters and
    its other conversations. *)
Theorem delete_conversation_forgets (id : string) (st : ChatApi.state) :
  (ChatApi.conversations st !! id = None ->
   ChatApi.delete_conversation id st
   = (Raise (HTTPException 404 "Conversation not found"), st))
  /\ (is_Some (ChatApi.conversations st !! id) ->
      exists msg st',
        ChatApi.delete_conversation id st = (Ok msg, st')
        /\ ChatApi.get_conversation id st'
           = Raise (HTTPException 404 "Conversation not found")
        /\ (forall id', id' <> id ->
              ChatApi.get_conversation id' st' = ChatApi.get_conversation id' st)
        /\ (forall ip u',
              ChatApi.usage_stats st' !! ip = Some u' ->
              (id ∉ ChatApi.user_conversations u')
              /\ (exists u,
                     ChatApi.usage_stats st !! ip = Some u
                     /\ ChatApi.total_requests u' = ChatApi.total_requests u
                     /\ ChatApi.total_tokens u' = ChatApi.total_tokens u
                     /\ ChatApi.total_cost u' = ChatApi.total_cost u
                     /\ forall id', id' <> id ->
                          id' ∈ ChatApi.user_conversations u'
                          <-> id' ∈ ChatApi.user_conversations u))).
Proof.
  unfold ChatApi.delete_conversation. split.
  - by intros ->.
  - intros [messages Hm]. rewrite Hm. eexists _, _. split; [done|].
    unfold ChatApi.get_conversation. simpl. split; [|split].
    + by rewrite lookup_delete_eq.
    + intros id' Hid'. by rewrite lookup_delete_ne.
    + intros ip u'. rewrite lookup_fmap.
      destruct (ChatApi.usage_stats st !! ip) as [u|]; simpl; [|done].
      intros [= <-]. simpl. split; [apply not_elem_of_difference; right;
                                    by apply elem_of_singleton|].
      exists u. repeat split; try done.
      * by intros [? _]%elem_of_difference.
      * intros Hin. apply elem_of_difference. split; [done|].
        by intros ?%elem_of_singleton.
Qed.

(** ** fastapi-redis/example-caching-api.py: the counters and the cache *)

Section CacheCounters.
Import CachingApi.
Variable json_dumps : pyval -> pyres string.
Variable json_loads : string -> pyres pyval.
Variable default_ttl : Z.

Local Abbreviation run_get := (cm_get json_loads).
Local Abbreviation run_set := (cm_set json_dumps default_ttl).
Local Abbreviation step := (CachingApi.step json_dumps json_loads default_ttl true).
Local Abbreviation steps := (CachingApi.steps json_dumps json_loads default_ttl true).

Local Ltac count := unfold counted, add_hit, add_miss, add_set, add_delete,
                      add_error in *; simpl in *; lia.

Lemma counted_trans (a b c d a' b' c' d' : Z) (s s' s'' : cache_stats) :
  counted a b c d s s' -> counted a' b' c' d' s' s'' ->
  counted (a + a') (b + b') (c + c') (d + d') s s''.
Proof. count. Qed.

Lemma counted_weaken (a b c d b' c' d' : Z) (s s' : cache_stats) :
  counted a b c d s s' -> b <= b' -> c <= c' -> d <= d' ->
  counted a b' c' d' s s'.
Proof. count. Qed.

Lemma cm_get_counted (key : string) (s : cache_stats)
    (rdb : gmap string string) :
  exists v s',
    Redis.run_server (run_get key s) rdb = Some ((v, s'), rdb)
    /\ counted 1 0 0 1 s s'.
Proof.
  unfold cm_get. simpl.
  destruct (rdb !! _get_key key) as [text|]; simpl.
  - destruct (negb (String.eqb text "")).
    + destruct (json_loads text); eexists _, _; (split; [reflexivity|count]).
    + eexists _, _. split; [reflexivity|count].
  - eexists _, _. split; [reflexivity|count].
Qed.

Lemma cm_set_counted (key : string) (value : pyval) (ttl : Z)
    (s : cache_stats) (rdb : gmap string string) :
  0 < ttl ->
  exists v s' rdb',
    Redis.run_server (run_set key value (Some ttl) s) rdb = Some ((v, s'), rdb')
    /\ counted 0 1 0 1 s s'.
Proof.
  intros Hpos. unfold cm_set.
  destruct (json_dumps value) as [text|e]; simpl;
    [|eexists _, _, _; split; [reflexivity|count]].
  unfold ttl_or_default. destruct (decide (ttl = 0)); [lia|].
  destruct (decide (0 < ttl)); [|done]. simpl.
  eexists _, _, _. split; [reflexivity|count].
Qed.

Lemma cm_delete_counted (key : string) (s : cache_stats)
    (rdb : gmap string string) :
  exists b s',
    Redis.run_server (cm_delete key s) rdb
    = Some ((b, s'), base.delete (_get_key key) rdb)
    /\ counted 0 0 1 0 s s'.
Proof.
  unfold cm_delete. simpl.
  destruct (rdb !! _get_key key); simpl;
    eexists _, _; (split; [reflexivity|count]).
Qed.

Lemma try_cache_counted (key : string) (s : cache_stats)
    (rdb : gmap string string) :
  exists r s',
    Redis.run_server (try_cache json_loads true key s) rdb = Some ((r, s'), rdb)
    /\ counted 1 0 0 1 s s'.
Proof.
  unfold try_cache. rewrite run_server_bind.
  destruct (cm_get_counted key s rdb) as (v & s' & -> & Hs). simpl.
  by eexists _, _.
Qed.

Lemma get_user_counted (id : string) (st : app) (rdb : gmap string string) :
  exists r st' rdb',
    Redis.run_server (get_user json_dumps json_loads default_ttl true id st) rdb
    = Some ((r, st'), rdb')
    /\ counted 1 1 0 2 (stats st) (stats st').
Proof.
  unfold get_user. rewrite run_server_bind.
  destruct (try_cache_counted ("user:" +:+ id) (stats st) rdb)
    as (cached & s & -> & Hs). simpl.
  destruct cached as [u|]; simpl; [eexists _, _, _; split; [done|count]|].
  destruct (table_get id (users (db st))) as [user|];
    [|eexists _, _, _; split; [done|count]].
  destruct (_ && true); [|eexists _, _, _; split; [done|count]].
  rewrite run_server_bind.
  destruct (cm_set_counted ("user:" +:+ id) (VDict user) 300 s rdb)
    as (v & s' & rdb' & -> & Hs'); [lia|]. simpl.
  eexists _, _, _. split; [done|]. simpl.
  exact (counted_trans _ _ _ _ _ _ _ _ _ _ _ Hs Hs').
Qed.

Lemma get_all_users_counted (st : app) (rdb : gmap string string) :
  exists r st' rdb',
    Redis.run_server (get_all_users json_dumps json_loads default_ttl true st)
      rdb
    = Some ((r, st'), rdb')
    /\ counted 1 1 0 2 (stats st) (stats st').
Proof.
  unfold get_all_users. rewrite run_server_bind.
  destruct (try_cache_counted "users:all" (stats st) rdb)
    as (cached & s & -> & Hs). simpl.
  destruct cached as [u|]; simpl; [eexists _, _, _; split; [done|count]|].
  rewrite run_server_bind.
  destruct (cm_set_counted "users:all"
              (VList (map (fun kv => VDict kv.2) (users (db st)))) 180 s rdb)
    as (v & s' & rdb' & -> & Hs'); [lia|]. simpl.
  eexists _, _, _. split; [done|]. simpl.
  exact (counted_trans _ _ _ _ _ _ _ _ _ _ _ Hs Hs').
Qed.

Lemma get_user_posts_counted (id : string) (st : app)
    (rdb : gmap string string) :
  exists r st' rdb',
    Redis.run_server
      (get_user_posts json_dumps json_loads default_ttl true id st) rdb
    = Some ((r, st'), rdb')
    /\ counted 1 1 0 2 (stats st) (stats st').
Proof.
  unfold get_user_posts. rewrite run_server_bind.
  destruct (try_cache_counted ("user:" +:+ id +:+ ":posts") (stats st) rdb)
    as (cached & s & -> & Hs). simpl.
  destruct cached as [u|]; simpl; [eexists _, _, _; split; [done|count]|].
  destruct (posts_of id _) as [ps|e]; simpl;
    [|eexists _, _, _; split; [done|count]].
  rewrite run_server_bind.
  destruct (cm_set_counted ("user:" +:+ id +:+ ":posts") (VList ps) 240 s rdb)
    as (v & s' & rdb' & -> & Hs'); [lia|]. simpl.
  eexists _, _, _. split; [done|]. simpl.
  exact (counted_trans _ _ _ _ _ _ _ _ _ _ _ Hs Hs').
Qed.

Lemma update_user_counted (id : string) (data : row) (st : app)
    (rdb : gmap string string) :
  exists r st' rdb',
    Redis.run_server (update_user true id data st) rdb = Some ((r, st'), rdb')
    /\ counted 0 0 2 0 (stats st) (stats st').
Proof.
  unfold update_user.
  destruct (table_get id (users (db st))) as [user|];
    [|simpl; eexists _, _, _; split; [done|count]].
  rewrite run_server_bind.
  destruct (cm_delete_counted ("user:" +:+ id) (stats st) rdb)
    as (b & s & -> & Hs). simpl.
  eexists _, _, _. split; [done|]. simpl.
  destruct (base.delete _ rdb !! _); count.
Qed.

(** The counters after one call. *)
Lemma step_counted (o : op) (st : app) (rdb : gmap string string) :
  exists st' rdb',
    step o st rdb = Some (st', rdb')
    /\ counted (if is_read o then 1 else 0) (if is_read o then 1 else 0)
         (if is_update o then 2 else 0) (if is_read o then 2 else 0)
         (stats st) (stats st').
Proof.
  destruct o as [id| |id|id data|key]; unfold CachingApi.step.
  - destruct (get_user_counted id st rdb) as (r & st' & rdb' & -> & Hs).
    by eexists _, _.
  - destruct (get_all_users_counted st rdb) as (r & st' & rdb' & -> & Hs).
    by eexists _, _.
  - destruct (get_user_posts_counted id st rdb) as (r & st' & rdb' & -> & Hs).
    by eexists _, _.
  - destruct (update_user_counted id data st rdb) as (r & st' & rdb' & -> & Hs).
    by eexists _, _.
  - eexists _, _. split; [done|count].
Qed.

(** X10.  The counters count.  Against a server that works, after any
    sequence of service calls and expiries, from any state: every lookup
    ([get_user], [get_all_users], [get_user_posts]) has been counted as a
    hit or as a miss and nothing else has; there are at most as many new
    sets as lookups, at most two new deletes for each [update_user], at
    most two new errors for each lookup, and no counter has gone down. *)
Theorem lookups_are_counted (os : list op) (st : app)
    (rdb : gmap string string) :
  exists st' rdb',
    steps os st rdb = Some (st', rdb')
    /\ counted (reads os) (reads os) (2 * updates os) (2 * reads os)
         (stats st) (stats st').
Proof.
  revert st rdb. induction os as [|o os IH]; intros st rdb.
  - eexists _, _. split; [done|]. unfold reads, updates. count.
  - simpl. destruct (step_counted o st rdb) as (st1 & rdb1 & -> & H1). simpl.
    destruct (IH st1 rdb1) as (st2 & rdb2 & -> & H2).
    eexists _, _. split; [done|].
    pose proof (counted_trans _ _ _ _ _ _ _ _ _ _ _ H1 H2) as H.
    unfold reads, updates in *. simpl.
    destruct (is_read o), (is_update o); simpl length; count.
Qed.

End CacheCounters.

Section CacheContents.
Import CachingApi.
Variable json_dumps : pyval -> pyres string.
Variable json_loads : string -> pyres pyval.
Variable default_ttl : Z.

Local Abbreviation get_user := (CachingApi.get_user json_dumps json_loads default_ttl true).
Local Abbreviation get_user_posts :=
  (CachingApi.get_user_posts json_dumps json_loads default_ttl true).

Lemma table_get_update_eq (id : string) (data user : row) (t : table) :
  table_get id t = Some user ->
  table_get id (table_update id data t) = Some (dict_update user data).
Proof.
  induction t as [|[k r] t IH]; simpl; [done|].
  destruct (decide (id = k)) as [->|Hne]; simpl.
  - rewrite decide_True by done. by intros [= ->].
  - rewrite decide_False by done. exact IH.
Qed.

Lemma try_cache_miss (key : string) (s : cache_stats)
    (rdb : gmap string string) :
  rdb !! _get_key key = None ->
  Redis.run_server (try_cache json_loads true key s) rdb
  = Some ((None, add_miss s), rdb).
Proof. intros Hmiss. unfold try_cache, cm_get. simpl. by rewrite Hmiss. Qed.

Lemma try_cache_hit (key text : string) (v : pyval) (s : cache_stats)
    (rdb : gmap string string) :
  rdb !! _get_key key = Some text -> text <> "" -> json_loads text = Ok v ->
  Redis.run_server (try_cache json_loads true key s) rdb
  = Some ((if truthy v then Some v else None, add_hit s), rdb).
Proof.
  intros Hhit Htext Hv. unfold try_cache, cm_get. simpl. rewrite Hhit. simpl.
  apply String.eqb_neq in Htext. rewrite Htext. simpl. by rewrite Hv.
Qed.

Lemma cm_set_stores (key text : string) (value : pyval) (ttl : Z)
    (s : cache_stats) (rdb : gmap string string) :
  0 < ttl -> json_dumps value = Ok text ->
  Redis.run_server (cm_set json_dumps default_ttl key value (Some ttl) s) rdb
  = Some ((VBool true, add_set s), <[_get_key key := text]> rdb).
Proof.
  intros Hpos Htext. unfold cm_set, ttl_or_default. rewrite Htext.
  destruct (decide (ttl = 0)); [lia|]. simpl.
  by destruct (decide (0 < ttl)).
Qed.

(** [get_user] when the cache has no entry for the user. *)
Lemma get_user_miss (id : string) (user : row) (st : app)
    (rdb : gmap string string) :
  rdb !! _get_key ("user:" +:+ id) = None ->
  table_get id (users (db st)) = Some user ->
  exists s rdb',
    Redis.run_server (get_user id st) rdb
    = Some ((VDict user, App (db st) s), rdb')
    /\ counted 0 1 0 1 (add_miss (stats st)) s.
Proof.
  intros Hmiss Huser. unfold CachingApi.get_user. rewrite run_server_bind.
  rewrite (try_cache_miss _ _ _ Hmiss). cbn [mbind option_bind].
  rewrite Huser. destruct (_ && true).
  - rewrite run_server_bind.
    destruct (cm_set_counted json_dumps default_ttl ("user:" +:+ id)
                (VDict user) 300 (add_miss (stats st)) rdb)
      as (v & s' & rdb' & -> & Hs'); [lia|].
    by eexists _, _.
  - eexists _, _. split; [done|]. unfold counted. lia.
Qed.

(** [update_user] of a known user. *)
Lemma update_user_known (id : string) (data user : row) (st : app)
    (rdb : gmap string string) :
  table_get id (users (db st)) = Some user ->
  exists s,
    Redis.run_server (update_user true id data st) rdb
    = Some ((VDict (dict_update user data),
             App (Database (table_update id data (users (db st)))
                    (posts (db st))) s),
            base.delete (_get_key "users:all")
              (base.delete (_get_key ("user:" +:+ id)) rdb)).
Proof.
  intros Huser. unfold update_user. rewrite Huser. simpl. by eexists.
Qed.

(** X11.  A read after a write sees the write.  After [update_user] of a
    known user, whatever the cache held, [get_user] of the same id misses
    the cache and returns the updated row, the one [update_user]
    returned; the rows of the other users and the posts are as before. *)
Theorem get_user_after_update (id : string) (data user : row) (st : app)
    (rdb : gmap string string) :
  table_get id (users (db st)) = Some user ->
  exists st1 rdb1 st2 rdb2,
    Redis.run_server (update_user true id data st) rdb
    = Some ((VDict (dict_update user data), st1), rdb1)
    /\ Redis.run_server (get_user id st1) rdb1
       = Some ((VDict (dict_update user data), st2), rdb2)
    /\ hits (stats st2) = hits (stats st1)
    /\ misses (stats st2) = misses (stats st1) + 1
    /\ db st2 = db st1
    /\ posts (db st1) = posts (db st)
    /\ (forall id', id' <> id ->
          table_get id' (users (db st1)) = table_get id' (users (db st))).
Proof.
  intros Huser.
  destruct (update_user_known id data user st rdb Huser) as [s1 Hupdate].
  set (st1 := App (Database (table_update id data (users (db st)))
                     (posts (db st))) s1) in *.
  set (rdb1 := base.delete (_get_key "users:all")
                 (base.delete (_get_key ("user:" +:+ id)) rdb)) in *.
  assert (rdb1 !! _get_key ("user:" +:+ id) = None) as Hmiss.
  { subst rdb1.
    rewrite lookup_delete_ne by (intros ?; by eapply user_key_not_all).
    apply lookup_delete_eq. }
  destruct (get_user_miss id (dict_update user data) st1 rdb1 Hmiss)
    as (s2 & rdb2 & Hget & Hs2);
    [by apply table_get_update_eq|].
  exists st1, rdb1, (App (db st1) s2), rdb2.
  split; [done|]. split; [done|].
  unfold counted in Hs2. simpl in *.
  repeat split; try done; try lia.
  intros id' Hid'. by apply table_get_update_ne.
Qed.

(** X12.  The second read is served from the cache.  For a user of the
    database with no cache entry, whose non-empty row [json.dumps] turns
    into a non-empty text that [json.loads] turns back into the row:
    [get_user] returns the row, counts a miss and a set and stores the
    text under the key of the user; the next [get_user] returns the row
    again, counts a hit and nothing else, and leaves the server as it
    is. *)
Theorem get_user_twice (id : string) (user : row) (text : string)
    (st : app) (rdb : gmap string string) :
  table_get id (users (db st)) = Some user ->
  user <> [] ->
  rdb !! _get_key ("user:" +:+ id) = None ->
  json_dumps (VDict user) = Ok text ->
  text <> "" ->
  json_loads text = Ok (VDict user) ->
  let st1 := App (db st) (add_set (add_miss (stats st))) in
  let rdb1 := <[_get_key ("user:" +:+ id) := text]> rdb in
  Redis.run_server (get_user id st) rdb = Some ((VDict user, st1), rdb1)
  /\ Redis.run_server (get_user id st1) rdb1
     = Some ((VDict user, App (db st) (add_hit (stats st1))), rdb1).
Proof.
  intros Huser Hrow Hmiss Hdumps Htext Hloads st1 rdb1.
  assert (truthy (VDict user) = true) as Htrue by by destruct user.
  split.
  - unfold CachingApi.get_user. rewrite run_server_bind.
    rewrite (try_cache_miss _ _ _ Hmiss). cbn [mbind option_bind].
    rewrite Huser, Htrue. cbn [andb]. rewrite run_server_bind.
    by rewrite (cm_set_stores _ text) by (lia || done).
  - unfold CachingApi.get_user. rewrite run_server_bind.
    rewrite (try_cache_hit _ text (VDict user)); [|by apply lookup_insert_eq|done..].
    cbn [mbind option_bind]. by rewrite Htrue.
Qed.

(** X13.  An empty result is cached but never served.  For a user
    without posts, once the cache holds the text of the empty list under
    the key of the user's posts, every [get_user_posts] counts a hit,
    finds the cached list empty, computes the posts from the database
    again, stores them again and counts a set; the server is left as it
    was, so the next call does the same. *)
Theorem empty_posts_never_served (id : string) (text : string)
    (st : app) (rdb : gmap string string) :
  posts_of id (map snd (posts (db st))) = Ok [] ->
  json_dumps (VList []) = Ok text ->
  text <> "" ->
  json_loads text = Ok (VList []) ->
  rdb !! _get_key ("user:" +:+ id +:+ ":posts") = Some text ->
  Redis.run_server (get_user_posts id st) rdb
  = Some ((Ok (VList []), App (db st) (add_set (add_hit (stats st)))), rdb).
Proof.
  intros Hposts Hdumps Htext Hloads Hhit.
  unfold CachingApi.get_user_posts. rewrite run_server_bind.
  rewrite (try_cache_hit _ text (VList [])) by done.
  cbn [mbind option_bind truthy]. rewrite Hposts.
  rewrite run_server_bind.
  rewrite (cm_set_stores _ text) by (lia || done).
  cbn [mbind option_bind]. by rewrite insert_id.
Qed.

End CacheContents.

(** ** fastapi-openai/example-embeddings-api.py: the cache with expiry *)

Section ExpiringCache.
Import EmbeddingsApi.
Variable md5_hex : string -> string.
Variable embeddings_create : nat -> string -> string -> pyres (list float).
Variable utcnow : nat -> Z.
Variable str : exn -> string.
Variable cache_expiry : Z.

Local Abbreviation get_embedding :=
  (EmbeddingsApi.get_embedding md5_hex embeddings_create utcnow str
     cache_expiry).
Local Abbreviation fetch :=
  (fetch_embedding md5_hex embeddings_create utcnow cache_expiry).
Local Abbreviation key := (get_cache_key md5_hex).

(** What a fetch that succeeds with the cache in use leaves behind. *)
Lemma fetch_stores (text model : string) (st st' : state) (r : emb) :
  fetch text model true st = (Ok r, st') ->
  r_cached r = false
  /\ r_tokens_used r = EmbeddingsApi.count_tokens text
  /\ embeddings_create (api_calls st) text model = Ok (r_embedding r)
  /\ api_calls st' = S (api_calls st)
  /\ clock_reads st' = S (clock_reads st)
  /\ add_minutes (utcnow (clock_reads st)) cache_expiry
     = Ok (utcnow (clock_reads st) + cache_expiry * 60000000)
  /\ embeddings_cache st'
     = <[key text model :=
           CacheEntry (r_embedding r)
             (utcnow (clock_reads st) + cache_expiry * 60000000)]>
         (embeddings_cache st).
Proof.
  unfold fetch_embedding.
  destruct (embeddings_create _ _ _) as [e|]; [|done].
  destruct (EmbeddingsApi.calculate_cost _ _) as [c|]; [|done]. simpl.
  unfold add_minutes.
  destruct (decide (_ <= _ <= _)); [|done].
  destruct (decide (_ <= _ <= _)); [|done].
  by intros [= <- <-].
Qed.

(** X14.  A cached embedding is served exactly until it expires.  When
    [get_embedding] with the cache in use returns a fresh embedding, the
    entry it leaves expires [cache_expiry] minutes after the time it read
    from the clock.  The next [get_embedding] of the same text and model
    reads the clock once: before the expiry it returns the same embedding
    as cached, with no tokens and no cost, without calling the endpoint
    and without touching the cache; from the expiry on it calls the
    endpoint again. *)
Theorem cached_until_expiry (text model : string) (st st1 : state) (r : emb) :
  get_embedding text model true st = (Ok r, st1) ->
  r_cached r = false ->
  let stored := utcnow (pred (clock_reads st1)) in
  let expires := stored + cache_expiry * 60000000 in
  let now := utcnow (clock_reads st1) in
  embeddings_cache st1 !! key text model
  = Some (CacheEntry (r_embedding r) expires)
  /\ (now < expires ->
      get_embedding text model true st1
      = (Ok (Emb (r_embedding r) 0 0%float true),
         State (embeddings_cache st1) (api_calls st1) (S (clock_reads st1))))
  /\ (expires <= now ->
      api_calls (get_embedding text model true st1).2 = S (api_calls st1)).
Proof.
  intros Hrun Hfresh stored expires now.
  assert (embeddings_cache st1 !! key text model
          = Some (CacheEntry (r_embedding r) expires)) as Hentry.
  { revert Hrun. unfold EmbeddingsApi.get_embedding, fetch_or_500.
    destruct (embeddings_cache st !! _) as [entry|]; simpl.
    - destruct (bool_decide _).
      + intros [= <- <-]. done.
      + destruct (fetch _ _ _ _) as [[r'|e] st'] eqn:Hfetch; [|done].
        intros [= -> ->].
        destruct (fetch_stores _ _ _ _ _ Hfetch)
          as (_ & _ & _ & _ & Hclock & _ & ->).
        subst expires stored. rewrite Hclock. simpl.
        by rewrite lookup_insert_eq.
    - destruct (fetch _ _ _ _) as [[r'|e] st'] eqn:Hfetch; [|done].
      intros [= -> ->].
      destruct (fetch_stores _ _ _ _ _ Hfetch)
        as (_ & _ & _ & _ & Hclock & _ & ->).
      subst expires stored. rewrite Hclock. simpl.
      by rewrite lookup_insert_eq. }
  split; [done|]. split.
  - intros Hnow. unfold EmbeddingsApi.get_embedding. rewrite Hentry. simpl.
    by rewrite bool_decide_true.
  - intros Hnow. unfold EmbeddingsApi.get_embedding. rewrite Hentry. simpl.
    rewrite bool_decide_false by (simpl; lia).
    unfold fetch_or_500, fetch_embedding. simpl.
    destruct (embeddings_create _ _ _) as [e|]; [|done].
    destruct (EmbeddingsApi.calculate_cost _ _) as [c|]; [|done]. simpl.
    by destruct (add_minutes _ _).
Qed.

(** X15.  Without the cache.  [get_embedding] with [use_cache=False]
    calls the endpoint once, reads no clock and leaves the cache as it
    is, whatever the cache holds.  When the endpoint raises, it raises
    [HTTPException] with status 500 and the message of that exception as
    detail.  When the endpoint returns an embedding, it returns that
    embedding, not cached, with the token estimate of the text and the
    cost of that estimate; the one exception is a cost whose division
    overflows, which gives status 500 with the message of the
    [OverflowError]. *)
Theorem uncached_always_fetches (text model : string) (st : state) :
  let run := get_embedding text model false st in
  let tokens := EmbeddingsApi.count_tokens text in
  run.2 = State (embeddings_cache st) (S (api_calls st)) (clock_reads st)
  /\ (forall ex,
        embeddings_create (api_calls st) text model = Raise ex ->
        run.1 = Raise (HTTPException 500 (str ex)))
  /\ (forall e,
        embeddings_create (api_calls st) text model = Ok e ->
        run.1
        = match EmbeddingsApi.calculate_cost tokens model with
          | Ok c => Ok (Emb e tokens c false)
          | Raise _ => Raise (HTTPException 500 (str OverflowError))
          end).
Proof.
  unfold EmbeddingsApi.get_embedding, fetch_or_500, fetch_embedding. simpl.
  split; [|split].
  - destruct (embeddings_create _ _ _) as [e|ex]; simpl; [|done].
    by destruct (EmbeddingsApi.calculate_cost _ _).
  - by intros ex ->.
  - intros e ->.
    destruct (EmbeddingsApi.calculate_cost _ _) as [c|ex] eqn:Hcost; simpl;
      [done|].
    unfold EmbeddingsApi.calculate_cost in Hcost.
    destruct (PyNum.int_truediv _ _) as [q|ex'] eqn:Hdiv; simpl in Hcost;
      [done|].
    injection Hcost as <-.
    by rewrite (int_truediv_raise _ 1000000 ex' ltac:(lia) Hdiv).
Qed.

End ExpiringCache.

(** ** fastapi-openai/example-function-calling-api.py: [calculate_math] *)

Lemma all_allowed_app (a b : string) :
  FunctionCallingApi.all_allowed (a +:+ b)
  = FunctionCallingApi.all_allowed a && FunctionCallingApi.all_allowed b.
Proof.
  induction a as [|c a IH]; simpl; [done|].
  rewrite IH. by rewrite andb_assoc.
Qed.

(** X16.  The whitelist of [calculate_math] shuts out the names it
    provides.  An expression that contains a character outside the
    whitelist raises [ValueError] with the message of the whitelist,
    whatever [eval] would do with it; in particular every expression that
    mentions one of the names handed to [eval] ([abs], [sqrt], [pi],
    ...) does, so that none of them can ever be used.  An expression of
    whitelisted characters returns what [eval] and [float] return and
    raises [ValueError] when they raise. *)
Theorem calculate_math_whitelist (eval_float : string -> pyres float)
    (str : exn -> string) (expression : string) :
  let rejected :=
    FunctionCallingApi.ValueError
      "Math calculation error: Invalid characters in expression" in
  (forall before c after,
      expression = before +:+ String c after ->
      FunctionCallingApi.contains c FunctionCallingApi.allowed_chars = false ->
      FunctionCallingApi.calculate_math eval_float str expression = rejected)
  /\ (forall before name after,
        expression = before +:+ name +:+ after ->
        name ∈ FunctionCallingApi.scope_names ->
        FunctionCallingApi.calculate_math eval_float str expression = rejected)
  /\ (FunctionCallingApi.all_allowed expression = true ->
      FunctionCallingApi.calculate_math eval_float str expression
      = match eval_float expression with
        | Ok x => FunctionCallingApi.MathOk x
        | Raise e =>
            FunctionCallingApi.ValueError
              ("Math calculation error: " +:+ str e)
        end).
Proof.
  intros rejected.
  assert (forall before c after,
      expression = before +:+ String c after ->
      FunctionCallingApi.contains c FunctionCallingApi.allowed_chars = false ->
      FunctionCallingApi.calculate_math eval_float str expression = rejected)
    as Hchar.
  { intros before c after -> Hc. unfold FunctionCallingApi.calculate_math.
    rewrite all_allowed_app. cbn [FunctionCallingApi.all_allowed].
    rewrite Hc. by rewrite andb_false_r. }
  split; [exact Hchar|]. split.
  - intros before name after -> Hname.
    unfold FunctionCallingApi.scope_names in Hname.
    repeat (apply elem_of_cons in Hname as [->|Hname];
            [eapply (Hchar before); [reflexivity|reflexivity]|]).
    by apply elem_of_nil in Hname.
  - intros Hall. unfold FunctionCallingApi.calculate_math. by rewrite Hall.
Qed.

(** ** core-components/redis/example-pub-sub.py: dispatch to the handlers *)

Section Dispatch.
Import PubSub.
Context {H W : Type} `{EqDecision H}.
Variable json_loads : string -> pyres pyval.
Variable call : H -> string -> pyval -> @state H W -> pyres unit * @state H W.

(** The handlers leave the list of the channel alone. *)
Local Abbreviation keeps channel :=
  (forall h ch d (st : @state H W), handlers_of channel (call h ch d st).2
                     = handlers_of channel st).

Lemma handler_loop_all (channel : string) (m : pyval) (hs : list H) :
  keeps channel ->
  forall (fuel i : nat) (st : @state H W),
    handlers_of channel st = hs ->
    (length hs - i < fuel)%nat ->
    handler_loop call fuel channel m i st
    = Some (foldl (fun s h => (call h channel m s).2) st (drop i hs),
            drop i hs).
Proof.
  intros Hkeep fuel. induction fuel as [|fuel IH]; intros i st Hhs Hfuel;
    [lia|].
  simpl. rewrite Hhs.
  destruct (hs !! i) as [h|] eqn:Hi.
  - rewrite (drop_S _ _ _ Hi). simpl.
    apply lookup_lt_Some in Hi.
    rewrite IH; [done| |lia]. by rewrite Hkeep.
  - apply lookup_ge_None in Hi. by rewrite drop_ge.
Qed.

(** X17.  Every handler of the channel is called.  If the handlers leave
    the list of the channel alone, [_handle_message] with enough fuel
    calls the handlers registered for the channel, each once and in the
    order of registration, with the decoded message (the text itself if
    it is no JSON), and a handler that raises does not keep the later
    ones from being called; the state is what the calls make of it one
    after the other.  If [json.loads] raises anything else, no handler is
    called. *)
Theorem handle_message_calls_all (channel data : string) (st : @state H W)
    (fuel : nat) :
  keeps channel ->
  (length (handlers_of channel st) < fuel)%nat ->
  _handle_message json_loads call fuel channel data st
  = Some (match decode json_loads data with
          | Ok m =>
              (foldl (fun s h => (call h channel m s).2) st
                 (handlers_of channel st),
               handlers_of channel st)
          | Raise _ => (st, [])
          end).
Proof.
  intros Hkeep Hfuel. unfold _handle_message.
  destruct (decode json_loads data) as [m|e]; [|done].
  destruct (message_handlers st !! channel) as [hs|] eqn:Hhs.
  - rewrite (handler_loop_all channel m (handlers_of channel st) Hkeep);
      [by rewrite drop_0|done|lia].
  - unfold handlers_of. by rewrite Hhs.
Qed.

Lemma list_remove_app_new (h : H) (l : list H) :
  h ∉ l -> list_remove h (l ++ [h]) = Some l.
Proof.
  induction l as [|y l IH]; simpl; intros Hnot.
  - by rewrite decide_True.
  - apply not_elem_of_cons in Hnot as [Hne Hnot].
    rewrite decide_False by done. by rewrite IH.
Qed.

Lemma list_remove_Permutation (h : H) (l l' : list H) :
  list_remove h l = Some l' -> l ≡ₚ h :: l'.
Proof.
  revert l'. induction l as [|y l IH]; simpl; intros l'; [done|].
  destruct (decide (y = h)) as [->|Hne]; [by intros [= ->]|].
  destruct (list_remove h l) as [l''|]; simpl; [|done].
  intros [= <-]. rewrite (IH l'' eq_refl). apply Permutation_swap.
Qed.

(** X18.  Registering and unregistering a handler.  After
    [add_message_handler] the channel has the handler last and the other
    channels are untouched.  [remove_message_handler] after it leaves the
    channel with the handlers it had, up to their order; in the same
    order if the handler was not registered for the channel before. *)
Theorem add_then_remove_handler (channel : string) (h : H) (st : @state H W) :
  let st1 := add_message_handler channel h st in
  let st2 := remove_message_handler channel h st1 in
  handlers_of channel st1 = handlers_of channel st ++ [h]
  /\ (forall ch, ch <> channel ->
        message_handlers st1 !! ch = message_handlers st !! ch
        /\ message_handlers st2 !! ch = message_handlers st !! ch)
  /\ handlers_of channel st2 ≡ₚ handlers_of channel st
  /\ (h ∉ handlers_of channel st ->
      handlers_of channel st2 = handlers_of channel st)
  /\ world st2 = world st.
Proof.
  intros st1 st2.
  assert (handlers_of channel st1 = handlers_of channel st ++ [h]) as H1.
  { unfold handlers_of at 1. simpl. by rewrite lookup_insert_eq. }
  assert (exists l, list_remove h (handlers_of channel st ++ [h]) = Some l)
    as [l Hl].
  { generalize (handlers_of channel st). intros l0.
    induction l0 as [|y l0 [l IH]]; simpl.
    - rewrite decide_True by done. by eexists.
    - destruct (decide (y = h)); [by eexists|]. rewrite IH. by eexists. }
  assert (st2 = State (<[channel := l]> (message_handlers st1)) (world st))
    as ->.
  { subst st2 st1. unfold remove_message_handler. simpl.
    rewrite lookup_insert_eq. by rewrite Hl. }
  split; [done|]. split; [|split; [|split; [|done]]].
  - intros ch Hch. simpl. by rewrite !lookup_insert_ne.
  - unfold handlers_of at 1. simpl. rewrite lookup_insert_eq. simpl.
    apply list_remove_Permutation in Hl.
    rewrite <-Permutation_cons_append in Hl.
    by apply Permutation_cons_inv in Hl.
  - intros Hnew. unfold handlers_of at 1. simpl. rewrite lookup_insert_eq.
    simpl. rewrite (list_remove_app_new h _ Hnew) in Hl. by injection Hl.
Qed.

End Dispatch.

(** ** core-components/redis/example-caching.py: the rate limit *)

Lemma run_bind {A B W} (h : Redis.cmd -> W -> pyres pyval * W)
    (p : Redis.prog A) (k : A -> Redis.prog B) (w : W) :
  Redis.run h (p ≫= k) w
  = let '(a, w1, calls1) := Redis.run h p w in
    let '(b, w2, calls2) := Redis.run h (k a) w1 in
    (b, w2, calls1 ++ calls2).
Proof.
  revert w. induction p as [a|c k' IH]; intros w.
  - simpl. by destruct (Redis.run h (k a) w) as [[b w2] calls2].
  - change (Redis.Call c k' ≫= k) with (Redis.Call c (fun r => k' r ≫= k)).
    simpl. destruct (h c w) as [r w']. rewrite IH.
    destruct (Redis.run h (k' r) w') as [[a w1] calls1].
    by destruct (Redis.run h (k a) w1) as [[b w2] calls2].
Qed.

Lemma int_of_value_str (z : Z) :
  CacheDemo.is_int64 z = true ->
  CacheDemo.int_of_value (Json.str_of_Z z) = Some z.
Proof.
  intros Hz. unfold CacheDemo.int_of_value, Json.str_of_Z.
  rewrite NilEmpty.isi. simpl. rewrite DecimalZ.of_to.
  by rewrite String.eqb_refl, Hz.
Qed.

Section RateLimit.
Import CacheDemo.
Variable json_dumps : pyval -> pyres string.
Variable json_loads : string -> pyres pyval.
Variable rest :
  Redis.cmd -> gmap string string -> pyres pyval * gmap string string.
Variable rate_key : string.
Variable max_requests window : Z.

Hypothesis loads_count :
  forall n, 0 < n <= max_requests ->
            json_loads (Json.str_of_Z n) = Ok (VInt n).
Hypothesis ttl_reads : forall key db, (rest (Redis.TTL key) db).2 = db.
Hypothesis max_requests_int64 : 1 <= max_requests < 2 ^ 63.
Hypothesis window_positive : 0 < window.

Local Abbreviation run := (Redis.run (counting_server rest)).
Local Abbreviation make_request :=
  (CacheDemo.make_request json_dumps json_loads rate_key max_requests window).
Local Abbreviation make_requests :=
  (CacheDemo.make_requests json_dumps json_loads rate_key max_requests window).

Lemma make_request_counts (c : Z) (db : gmap string string) :
  0 <= c <= max_requests ->
  db !! rate_key = entry c ->
  exists db' calls,
    run make_request db = (Ok (bool_decide (c < max_requests)), db', calls)
    /\ db' !! rate_key = entry (Z.min (c + 1) max_requests)
    /\ (forall key, key <> rate_key -> db' !! key = db !! key).
Proof.
  intros Hc Hentry. unfold CacheDemo.make_request. rewrite run_bind.
  unfold RedisCache.get. cbn [Redis.run counting_server Redis.server].
  rewrite Hentry. unfold entry.
  destruct (decide (c = 0)) as [->|Hnz].
  - (* no request yet: the key is set to 1 *)
    cbn [Redis.run truthy ge_int].
    rewrite (bool_decide_false (max_requests <= 0)) by lia. cbn [is_zero].
    rewrite (bool_decide_true (0 = 0)) by done.
    unfold RedisCache.set, RedisCache.serialize, RedisCache.set_cmd,
      RedisCache.ttl_given.
    cbn [is_dict_or_list].
    destruct (decide (window = 0)); [lia|].
    cbn [mbind Redis.prog_mbind Redis.prog_bind Redis.run counting_server
         Redis.server].
    destruct (decide (0 < window)); [|lia].
    cbn [Redis.store_value Redis.encode_value RedisCache.bool_reply truthy
         Redis.prog_bind Redis.run app].
    eexists _, _. split; [by rewrite bool_decide_true by lia|].
    rewrite Z.min_l by lia. split.
    + rewrite lookup_insert_eq. by rewrite decide_False by lia.
    + intros key Hkey. by rewrite lookup_insert_ne.
  - rewrite loads_count by lia. cbn [Redis.run truthy ge_int].
    replace (c =? 0) with false by (symmetry; apply Z.eqb_neq; lia).
    cbn [negb ge_int].
    destruct (decide (c < max_requests)) as [Hlt|Hge].
    + (* below the limit: the counter goes up *)
      rewrite (bool_decide_false (max_requests <= c)) by lia. cbn [is_zero].
      rewrite (bool_decide_false (c = 0)) by done.
      unfold RedisCache.increment.
      cbn [mbind Redis.prog_mbind Redis.prog_bind Redis.run counting_server].
      unfold incrby. rewrite Hentry. unfold entry.
      rewrite decide_False by done.
      rewrite int_of_value_str by (unfold is_int64; apply bool_decide_eq_true; lia).
      replace (is_int64 1) with true by done.
      replace (is_int64 (c + 1)) with true
        by (symmetry; unfold is_int64; apply bool_decide_eq_true; lia).
      cbn [Redis.prog_bind Redis.run app].
      eexists _, _. split; [by rewrite bool_decide_true by lia|].
      rewrite Z.min_l by lia. split.
      * rewrite lookup_insert_eq. by rewrite decide_False by lia.
      * intros key Hkey. by rewrite lookup_insert_ne.
    + (* at the limit: rejected, the server is only read *)
      rewrite (bool_decide_true (max_requests <= c)) by lia.
      rewrite run_bind. unfold RedisCache.ttl.
      cbn [Redis.run counting_server Redis.server].
      pose proof (ttl_reads rate_key db) as Hread.
      destruct (rest (Redis.TTL rate_key) db) as [reply db1].
      simpl in Hread. subst db1.
      assert (exists v, Redis.run (counting_server rest)
                          match reply with
                          | Ok (VInt t) =>
                              Redis.Ret (if decide (0 ≤ t) then VInt t
                                         else VNone)
                          | Ok (VBool b) => Redis.Ret (VBool b)
                          | Ok _ => Redis.Ret VNone
                          | Raise _ => Redis.Ret VNone
                          end db = (v, db, [])) as [v ->].
      { destruct reply as [[]|]; by eexists. }
      cbn [Redis.run app].
      eexists _, _. split; [by rewrite bool_decide_false by lia|].
      rewrite Z.min_r by lia. split; [|done].
      assert (c = max_requests) as Hlimit by lia. rewrite <-Hlimit.
      rewrite Hentry. unfold entry. by rewrite decide_False.
Qed.

Lemma make_requests_counts (n : nat) :
  forall (c : Z) (db : gmap string string),
    0 <= c <= max_requests ->
    db !! rate_key = entry c ->
    let allowed := (n `min` Z.to_nat (max_requests - c))%nat in
    exists db' calls,
      run (make_requests n) db
      = (Ok (replicate allowed true ++ replicate (n - allowed) false),
         db', calls)
      /\ db' !! rate_key = entry (c + Z.of_nat allowed)
      /\ (forall key, key <> rate_key -> db' !! key = db !! key).
Proof.
  induction n as [|n IH]; intros c db Hc Hentry allowed.
  - eexists _, _. split; [done|]. subst allowed. simpl.
    by rewrite Z.add_0_r.
  - cbn [CacheDemo.make_requests]. rewrite run_bind.
    destruct (make_request_counts c db Hc Hentry)
      as (db1 & calls1 & -> & Hentry1 & Hother1).
    rewrite run_bind.
    destruct (IH (Z.min (c + 1) max_requests) db1 ltac:(lia) Hentry1)
      as (db2 & calls2 & -> & Hentry2 & Hother2).
    cbn [Redis.run].
    eexists _, _. split; [|split].
    + f_equal. f_equal. f_equal. subst allowed.
      destruct (decide (c < max_requests)) as [Hlt|Hge].
      * rewrite bool_decide_true by done. rewrite Z.min_l by lia.
        replace (Z.to_nat (max_requests - c))
          with (S (Z.to_nat (max_requests - (c + 1)))) by lia.
        by rewrite <-Nat.succ_min_distr.
      * rewrite bool_decide_false by done. rewrite Z.min_r by lia.
        replace (Z.to_nat (max_requests - c)) with 0%nat by lia.
        replace (Z.to_nat (max_requests - max_requests)) with 0%nat by lia.
        by rewrite !Nat.min_0_r, !Nat.sub_0_r.
    + rewrite Hentry2. f_equal. subst allowed. lia.
    + intros key Hkey. rewrite Hother2 by done. by apply Hother1.
Qed.

(** X19.  The rate limit holds within a window.  Against a server that
    works, when [json.loads] reads the counts back and the key is absent
    at the start, of [n] requests made one after the other without the
    key expiring the first [max_requests] are let through and all later
    ones are refused; afterwards the key holds the number of requests
    let through, and no other key has changed. *)
Theorem rate_limit_allows_max (n : nat) (db : gmap string string) :
  db !! rate_key = None ->
  let allowed := (n `min` Z.to_nat max_requests)%nat in
  exists db' calls,
    run (make_requests n) db
    = (Ok (replicate allowed true ++ replicate (n - allowed) false),
       db', calls)
    /\ db' !! rate_key = entry (Z.of_nat allowed)
    /\ (forall key, key <> rate_key -> db' !! key = db !! key).
Proof.
  intros Habsent allowed.
  destruct (make_requests_counts n 0 db ltac:(lia) Habsent)
    as (db' & calls & Hrun & Hentry & Hother).
  rewrite Z.sub_0_r, Z.add_0_l in *. by eexists _, _.
Qed.

End RateLimit.

(** ** fastapi-openai/example-embeddings-api.py: [semantic_search] *)

(** What passes a threshold is no NaN. *)
Lemma float_leb_not_nan (x y : float) :
  PrimFloat.leb x y = true -> PrimFloat.is_nan y = false.
Proof.
  unfold PrimFloat.is_nan.
  rewrite FloatAxioms.leb_spec, FloatAxioms.eqb_spec.
  unfold SFleb, SFeqb.
  destruct (Prim2SF x) as [sx|sx| |sx mx ex],
           (Prim2SF y) as [sy|sy| |sy my ey]; simpl; try done.
  all: intros _; try (by destruct sy).
  all: rewrite Z.compare_refl.
  all: change (PosDef.Pos.compare_cont Eq ?a ?b) with (Pos.compare a b).
  all: rewrite Pos.compare_refl; by destruct sy.
Qed.

Section SemanticSearch.
Import EmbeddingsApi.
Variable md5_hex : string -> string.
Variable embeddings_create : nat -> string -> string -> pyres (list float).
Variable utcnow : nat -> Z.
Variable str : exn -> string.
Variable cache_expiry : Z.
Variable cosine_similarity : list float -> list float -> pyres float.

Local Abbreviation get_embedding :=
  (EmbeddingsApi.get_embedding md5_hex embeddings_create utcnow str
     cache_expiry).
Local Abbreviation search_loop :=
  (EmbeddingsApi.search_loop md5_hex embeddings_create utcnow str cache_expiry
     cosine_similarity).
Local Abbreviation semantic_search :=
  (EmbeddingsApi.semantic_search md5_hex embeddings_create utcnow str
     cache_expiry cosine_similarity).
Local Abbreviation lookup_docs :=
  (EmbeddingsApi.lookup_docs md5_hex embeddings_create utcnow str
     cache_expiry).
Local Abbreviation passing := (EmbeddingsApi.passing cosine_similarity).

(** The loop that ends without exception has looked every document up
    and appended the passing hits. *)
Lemma search_loop_ok (q : list float) (model : string) (threshold : float)
    (documents : list string) :
  forall (i : nat) (results : list search_hit) (tokens : Z) (cost : float)
         (st st' : state) (results' : list search_hit) (tokens' : Z)
         (cost' : float),
    search_loop q model threshold i documents results tokens cost st
    = (Ok (results', tokens', cost'), st') ->
    exists rs new,
      lookup_docs model documents st = (Ok rs, st')
      /\ passing q threshold i documents rs = Ok new
      /\ results' = results ++ new.
Proof.
  induction documents as [|doc rest IH];
    intros i results tokens cost st st' results' tokens' cost'; simpl.
  - intros [= <- <- <- <-]. exists [], []. by rewrite app_nil_r.
  - destruct (get_embedding _ _ _ _) as [[r|e] st1]; [|done].
    destruct (cosine_similarity q (r_embedding r)) as [sim|e] eqn:Hsim;
      [|done].
    intros (rs & new & -> & Hnew & ->)%IH.
    eexists _, _. split; [done|]. simpl. rewrite Hsim, Hnew. simpl.
    split; [done|].
    destruct (PrimFloat.leb threshold sim); [|done].
    by rewrite <-app_assoc.
Qed.

(** The loop ends without exception when every lookup and every
    comparison does. *)
Lemma search_loop_total (q : list float) (model : string)
    (threshold : float) (documents : list string) :
  forall (i : nat) (results : list search_hit) (tokens : Z) (cost : float)
         (st st' : state) (rs : list emb) (new : list search_hit),
    lookup_docs model documents st = (Ok rs, st') ->
    passing q threshold i documents rs = Ok new ->
    exists tokens' cost',
      search_loop q model threshold i documents results tokens cost st
      = (Ok (results ++ new, tokens', cost'), st').
Proof.
  induction documents as [|doc rest IH];
    intros i results tokens cost st st' rs new; simpl.
  - intros [= <- <-] [= <-]. rewrite app_nil_r. by eexists _, _.
  - destruct (get_embedding _ _ _ _) as [[r|e] st1]; [|done].
    destruct (lookup_docs model rest st1) as [[rs'|e] st2] eqn:Hrest;
      [|done].
    intros [= <- <-]. simpl.
    destruct (cosine_similarity q (r_embedding r)) as [sim|e]; [|done].
    simpl.
    destruct (passing q threshold (S i) rest rs') as [new'|e] eqn:Hnew';
      [|done].
    simpl. intros [= <-].
    match goal with
    | |- context [search_loop _ _ _ _ _ ?res ?t ?c _] =>
        destruct (IH (S i) res t c st1 st2 rs' new' Hrest Hnew')
          as (tokens' & cost' & ->)
    end.
    eexists _, _. f_equal. f_equal. f_equal.
    destruct (PrimFloat.leb threshold sim); [|done].
    by rewrite <-app_assoc.
Qed.

Lemma lookup_docs_length (model : string) (documents : list string) :
  forall (st st' : state) (rs : list emb),
    lookup_docs model documents st = (Ok rs, st') ->
    length rs = length documents.
Proof.
  induction documents as [|doc rest IH]; intros st st' rs; simpl.
  - by intros [= <- <-].
  - destruct (get_embedding _ _ _ _) as [[r|e] st1]; [|done].
    destruct (lookup_docs model rest st1) as [[rs'|e] st2] eqn:Hrest;
      [|done].
    intros [= <- <-]. simpl. f_equal. by eapply IH.
Qed.

(** The passing hits are defined when [cosine_similarity] returns for
    every looked-up embedding. *)
Lemma passing_defined (q : list float) (threshold : float)
    (documents : list string) (rs : list emb) :
  (forall r, r ∈ rs -> exists s, cosine_similarity q (r_embedding r) = Ok s) ->
  forall i, exists new, passing q threshold i documents rs = Ok new.
Proof.
  revert rs. induction documents as [|doc rest IH]; intros [|r rs] Hdef i;
    simpl; try by eexists.
  destruct (Hdef r) as [s ->]; [apply list_elem_of_here|].
  destruct (IH rs) with (i := S i) as [new ->].
  { intros r' Hr'. by apply Hdef, list_elem_of_further. }
  simpl. by eexists.
Qed.

(** Where a passing hit comes from. *)
Lemma passing_elem (q : list float) (threshold : float)
    (documents : list string) (rs : list emb) (h : search_hit) :
  forall (i : nat) (new : list search_hit),
    passing q threshold i documents rs = Ok new ->
    h ∈ new ->
    exists (j : nat) (r : emb),
      hit_index h = (i + j)%nat
      /\ documents !! j = Some (hit_document h)
      /\ rs !! j = Some r
      /\ cosine_similarity q (r_embedding r) = Ok (hit_similarity h)
      /\ PrimFloat.leb threshold (hit_similarity h) = true
      /\ hit_cached h = r_cached r.
Proof.
  revert rs.
  induction documents as [|doc rest IH]; intros [|r rs] i new; simpl;
    try (intros [= <-]; by intros ?%elem_of_nil).
  destruct (cosine_similarity q (r_embedding r)) as [s|e] eqn:Hs; simpl;
    [|done].
  destruct (passing q threshold (S i) rest rs) as [new'|e] eqn:Hnew'; simpl;
    [|done].
  assert (h ∈ new' ->
          exists j r0, hit_index h = (i + j)%nat
            /\ (doc :: rest) !! j = Some (hit_document h)
            /\ (r :: rs) !! j = Some r0
            /\ cosine_similarity q (r_embedding r0) = Ok (hit_similarity h)
            /\ PrimFloat.leb threshold (hit_similarity h) = true
            /\ hit_cached h = r_cached r0) as Htail.
  { intros (j & r0 & Hi & ?)%(IH _ _ _ Hnew'). exists (S j), r0.
    split; [lia|done]. }
  destruct (PrimFloat.leb threshold s) eqn:Hpass; intros [= <-];
    [|exact Htail].
  intros [->|Hin]%elem_of_cons; [|by apply Htail].
  exists 0%nat, r. simpl. split; [lia|done].
Qed.

(** Every document that passes the threshold has its hit. *)
Lemma passing_complete (q : list float) (threshold : float)
    (documents : list string) (rs : list emb) (j : nat) (doc : string)
    (r : emb) (s : float) :
  forall (i : nat) (new : list search_hit),
    passing q threshold i documents rs = Ok new ->
    documents !! j = Some doc -> rs !! j = Some r ->
    cosine_similarity q (r_embedding r) = Ok s ->
    PrimFloat.leb threshold s = true ->
    SearchHit doc s (i + j) (r_cached r) ∈ new.
Proof.
  revert rs j.
  induction documents as [|doc0 rest IH]; intros [|r0 rs] [|j] i new; simpl;
    try done.
  - intros Hnew [= ->] [= ->] Hs Hpass. rewrite Hs in Hnew. simpl in Hnew.
    destruct (passing _ _ _ _ _) as [new'|]; simpl in Hnew; [|done].
    rewrite Hpass in Hnew. injection Hnew as <-.
    rewrite Nat.add_0_r. apply list_elem_of_here.
  - intros Hnew Hdoc Hr Hs Hpass.
    destruct (cosine_similarity q (r_embedding r0)) as [s0|];
      simpl in Hnew; [|done].
    destruct (passing q threshold (S i) rest rs) as [new'|] eqn:Hnew';
      simpl in Hnew; [|done].
    pose proof (IH rs j (S i) new' Hnew' Hdoc Hr Hs Hpass) as Hin.
    replace (i + S j)%nat with (S i + j)%nat by lia.
    injection Hnew as <-.
    destruct (PrimFloat.leb threshold s0); [|done].
    by apply list_elem_of_further.
Qed.

(** The passing hits are numbered by the documents. *)
Lemma passing_NoDup (q : list float) (threshold : float)
    (documents : list string) (rs : list emb) :
  forall (i : nat) (new : list search_hit),
    passing q threshold i documents rs = Ok new ->
    NoDup (hit_index <$> new).
Proof.
  revert rs. induction documents as [|doc rest IH]; intros [|r rs] i new;
    simpl; try (intros [= <-]; constructor).
  destruct (cosine_similarity q (r_embedding r)) as [s|e]; simpl; [|done].
  destruct (passing q threshold (S i) rest rs) as [new'|e] eqn:Hnew'; simpl;
    [|done].
  pose proof (IH _ _ _ Hnew') as Hdup.
  destruct (PrimFloat.leb threshold s); intros [= <-]; [|done].
  simpl. constructor; [|done].
  intros (h & Hi & Hh)%list_elem_of_fmap.
  destruct (passing_elem q threshold rest rs h (S i) new' Hnew' Hh)
    as (j & _ & Hj & _). simpl in Hi. lia.
Qed.


End SemanticSearch.

(** ** example-embeddings.py: [get_embeddings_batch] *)

Section Batches.
Import EmbeddingsClient.
Variable md5_hex : string -> string.
Variable save_cache : nat -> pyres unit.
Variable str : exn -> string.
Variable embeddings_create_batch :
  nat -> list string -> string -> pyres (list (list float)).

Local Abbreviation store_batch := (EmbeddingsClient.store_batch md5_hex).
Local Abbreviation embed_batch :=
  (EmbeddingsClient.embed_batch md5_hex save_cache str
     embeddings_create_batch).
Local Abbreviation get_embeddings_batch :=
  (EmbeddingsClient.get_embeddings_batch md5_hex save_cache str
     embeddings_create_batch).

(** An entry is a success, with the embedding and the estimated tokens of
    its text, or an error, with a message and no embedding. *)
Local Abbreviation well_formed :=
  (fun r : batch_entry =>
     (b_error r = None /\ is_Some (b_embedding r)
      /\ b_cached r = Some false
      /\ b_tokens_used r = EmbeddingsClient.count_tokens (b_text r))
     \/ (is_Some (b_error r) /\ b_embedding r = None /\ b_cached r = None
         /\ b_tokens_used r = 0)).

(** The division [cost / len(batch)] is the same in every round: the
    loop stores all embeddings or stops in its first round. *)
Lemma store_batch_all (batch : list string) (cost : float)
    (data : list (list float)) :
  forall (j : nat) (results : list batch_entry) (self : client),
    (length data + j = length batch)%nat ->
    exists self',
      model self' = model self /\ tick self' = tick self
      /\ match PyNum.truediv (PFloat cost)
                 (PInt (Z.of_nat (length batch))) with
         | Ok share =>
             store_batch batch cost j data results self
             = (None,
                results ++ zip_with (batch_success share) (drop j batch) data,
                self')
         | Raise e =>
             store_batch batch cost j data results self
             = (if data is [] then None else Some e, results, self')
         end.
Proof.
  remember (PyNum.truediv (PFloat cost) (PInt (Z.of_nat (length batch))))
    as share_or_exn eqn:Hdiv.
  induction data as [|embedding data IH]; intros j results self Hlen.
  - exists self. split; [done|]. split; [done|].
    cbn [EmbeddingsClient.store_batch]. destruct share_or_exn; [|done].
    destruct (drop j batch); by rewrite app_nil_r.
  - simpl in Hlen.
    destruct (batch !! j) as [text|] eqn:Hj;
      [|apply lookup_ge_None in Hj; lia].
    cbn [EmbeddingsClient.store_batch]. rewrite Hj, <-Hdiv.
    destruct share_or_exn as [share|e].
    + match goal with
      | |- context [store_batch batch cost (S j) data ?r ?c] =>
          destruct (IH (S j) r c) as (self' & Hmodel & Htick & Hrun); [lia|]
      end.
      exists self'. split; [done|]. split; [done|].
      rewrite Hrun. rewrite (drop_S _ _ _ Hj). simpl.
      by rewrite <-app_assoc.
    + eexists. split; [|split; [|reflexivity]]; done.
Qed.

Lemma zip_with_batch_success_text (share : float) (batch : list string)
    (data : list (list float)) :
  length data = length batch ->
  b_text <$> zip_with (batch_success share) batch data = batch.
Proof.
  revert data. induction batch as [|text batch IH]; intros [|e data];
    simpl; try done.
  intros [= Hlen]. by rewrite IH.
Qed.

Lemma batch_errors_text (e : exn) (batch : list string) :
  b_text <$> batch_errors str e batch = batch.
Proof.
  unfold batch_errors. rewrite <-list_fmap_compose. apply list_fmap_id.
Qed.

Lemma batch_errors_well_formed (e : exn) (batch : list string) :
  Forall well_formed (batch_errors str e batch).
Proof.
  unfold batch_errors. apply Forall_fmap, Forall_forall. intros text _.
  right. simpl. by eauto.
Qed.

Lemma zip_with_batch_success_well_formed (share : float)
    (batch : list string) (data : list (list float)) :
  Forall well_formed (zip_with (batch_success share) batch data).
Proof.
  revert data. induction batch as [|text batch IH]; intros [|e data];
    simpl; try constructor; [|apply IH].
  left. simpl. by eauto.
Qed.

Section Cooperative.

Hypothesis one_embedding_per_text :
  forall tick batch m data,
    embeddings_create_batch tick batch m = Ok data ->
    length data = length batch.
Hypothesis cache_file_writable : forall tick, save_cache tick = Ok tt.

(** One batch adds one entry for each of its texts. *)
Lemma embed_batch_entries (i batch_size : Z) (batch : list string)
    (results : list batch_entry) (self : client) :
  exists new self',
    embed_batch i batch_size batch results self = (results ++ new, self')
    /\ b_text <$> new = batch
    /\ Forall well_formed new
    /\ model self' = model self.
Proof.
  unfold EmbeddingsClient.embed_batch.
  destruct (embeddings_create_batch _ _ _) as [data|e] eqn:Hdata.
  2: { eexists _, _. split; [done|]. split; [apply batch_errors_text|].
       split; [apply batch_errors_well_formed|done]. }
  apply one_embedding_per_text in Hdata.
  destruct (calculate_cost _ _) as [cost|e].
  2: { eexists _, _. split; [done|]. split; [apply batch_errors_text|].
       split; [apply batch_errors_well_formed|done]. }
  match goal with
  | |- context [store_batch batch cost 0 data results ?c] =>
      destruct (store_batch_all batch cost data 0 results c)
        as (self' & Hmodel & _ & Hrun); [lia|]
  end.
  destruct (PyNum.truediv _ _) as [share|e].
  - rewrite Hrun, drop_0. rewrite cache_file_writable.
    destruct (decide _).
    all: eexists _, _; split; [done|].
    all: split; [by apply zip_with_batch_success_text|].
    all: split; [apply zip_with_batch_success_well_formed|done].
  - rewrite Hrun. destruct data as [|embedding data].
    + destruct batch; [|done]. rewrite cache_file_writable.
      exists [], (if decide (i `mod` (batch_size * 5) = 0)
                  then bump self' else self').
      split; [rewrite app_nil_r; by destruct (decide _)|].
      split; [done|]. split; [constructor|]. by destruct (decide _).
    + eexists _, _. split; [done|]. split; [apply batch_errors_text|].
      split; [apply batch_errors_well_formed|done].
Qed.

(** After the first [k] batches the results name the first
    [k * batch_size] texts. *)
Lemma batches_entries (texts : list string) (batch_size : Z) (self : client)
    (k : nat) :
  0 < batch_size ->
  exists results self',
    foldl (fun '(results, self) i =>
             embed_batch i batch_size (batch_at texts i batch_size)
               results self)
          ([], self)
          ((fun k : nat => Z.of_nat k * batch_size) <$> seq 0 k)
    = (results, self')
    /\ b_text <$> results = take (k * Z.to_nat batch_size) texts
    /\ Forall well_formed results
    /\ model self' = model self.
Proof.
  intros Hsize. induction k as [|k (results & self1 & Hrun & Htexts & Hwf & Hm)].
  - exists [], self. by repeat split.
  - rewrite seq_S, fmap_app, foldl_app, Hrun. simpl.
    destruct (embed_batch_entries (Z.of_nat k * batch_size) batch_size
                (batch_at texts (Z.of_nat k * batch_size) batch_size)
                results self1) as (new & self2 & -> & Hnew & Hwf' & Hm').
    eexists _, _. split; [done|]. split; [|split].
    + rewrite fmap_app, Htexts, Hnew. unfold batch_at.
      replace (Z.to_nat (Z.of_nat k * batch_size))
        with (k * Z.to_nat batch_size)%nat by lia.
      rewrite <-(take_drop (k * Z.to_nat batch_size)
                   (take (Z.to_nat batch_size + k * Z.to_nat batch_size) texts)).
      rewrite take_take, take_drop_commute.
      f_equal; [f_equal; lia|]. do 2 f_equal. lia.
    + by apply Forall_app.
    + congruence.
Qed.

(** X21.  One entry for each text.  With a positive batch size, an
    endpoint that answers a batch with as many embeddings as it has
    texts whenever it answers, and a cache file that can be written,
    [get_embeddings_batch] returns one entry for each text, in the order
    of the texts, whether the endpoint raises for some batches or not;
    each entry is a success with the embedding and the estimated tokens
    of its text or an error with a message and no embedding; the model of
    the client is unchanged. *)
Theorem batch_one_entry_per_text (texts : list string) (batch_size : Z)
    (self : client) :
  0 < batch_size ->
  exists results self',
    get_embeddings_batch texts batch_size self = (Ok results, self')
    /\ b_text <$> results = texts
    /\ Forall well_formed results
    /\ model self' = model self.
Proof.
  intros Hsize. unfold EmbeddingsClient.get_embeddings_batch, range_from_0.
  destruct (decide (batch_size = 0)) as [|_]; [lia|].
  destruct (decide (batch_size < 0)) as [|_]; [lia|].
  set (batches := Z.to_nat ((Z.of_nat (length texts) + batch_size - 1)
                            `div` batch_size)).
  destruct (batches_entries texts batch_size self batches Hsize)
    as (results & self' & -> & Htexts & Hwf & Hm).
  rewrite cache_file_writable.
  eexists _, _. split; [done|]. split; [|split; [done|done]].
  rewrite Htexts. apply take_ge.
  assert (Z.of_nat (length texts)
          <= ((Z.of_nat (length texts) + batch_size - 1) `div` batch_size)
             * batch_size) as Hcover.
  { pose proof (Z.mul_succ_div_gt
                  (Z.of_nat (length texts) + batch_size - 1) batch_size Hsize).
    lia. }
  assert (0 <= (Z.of_nat (length texts) + batch_size - 1) `div` batch_size)
    by (apply Z.div_pos; lia).
  subst batches. nia.
Qed.

End Cooperative.

(** X22.  A cache file that cannot be written doubles the entries.  For
    texts that fit into one batch, when the endpoint returns their
    embeddings and the costs are computed but [save_cache] raises after
    the batch, the results hold a success entry for each text followed by
    an error entry for each text: twice as many entries as texts. *)
Theorem batch_save_failure_duplicates (texts : list string) (batch_size : Z)
    (self : client) (data : list (list float)) (cost share : float)
    (e : exn) :
  texts <> [] ->
  Z.of_nat (length texts) <= batch_size ->
  embeddings_create_batch (tick self) texts (model self) = Ok data ->
  length data = length texts ->
  calculate_cost self
    (foldr Z.add 0 (EmbeddingsClient.count_tokens <$> texts)) = Ok cost ->
  PyNum.truediv (PFloat cost) (PInt (Z.of_nat (length texts))) = Ok share ->
  save_cache (S (tick self)) = Raise e ->
  save_cache (S (S (tick self))) = Ok tt ->
  (get_embeddings_batch texts batch_size self).1
  = Ok (zip_with (batch_success share) texts data
        ++ batch_errors str e texts)
  /\ length (zip_with (batch_success share) texts data
             ++ batch_errors str e texts)
     = (2 * length texts)%nat.
Proof.
  intros Hne Hfit Hdata Hlen Hcost Hshare Hsave Hfinal.
  assert (0 < length texts)%nat by (destruct texts; [done|simpl; lia]).
  split.
  - unfold EmbeddingsClient.get_embeddings_batch, range_from_0.
    destruct (decide (batch_size = 0)) as [|_]; [lia|].
    destruct (decide (batch_size < 0)) as [|_]; [lia|].
    replace ((Z.of_nat (length texts) + batch_size - 1) `div` batch_size)
      with 1
      by (apply (Z.div_unique_pos _ _ 1 (Z.of_nat (length texts) - 1)); lia).
    change (seq 0 (Z.to_nat 1)) with [0%nat].
    cbn [fmap list_fmap foldl].
    change (Z.of_nat 0 * batch_size) with 0. unfold batch_at.
    change (Z.to_nat 0) with 0%nat.
    rewrite drop_0, take_ge by lia.
    unfold EmbeddingsClient.embed_batch. rewrite Hdata.
    change (calculate_cost (bump self) ?t) with (calculate_cost self t).
    rewrite Hcost.
    match goal with
    | |- context [store_batch texts cost 0 data [] ?c] =>
        destruct (store_batch_all texts cost data 0 [] c)
          as (self' & _ & Htick & Hrun); [lia|]
    end.
    rewrite Hshare in Hrun. rewrite Hrun, drop_0. simpl in Htick.
    rewrite Z.mod_0_l by lia. rewrite decide_True by done.
    rewrite Htick, Hsave. cbn [tick bump]. by rewrite Htick, Hfinal.
  - rewrite length_app, length_zip_with. unfold batch_errors.
    rewrite length_fmap. lia.
Qed.

End Batches.

(** * The theorems at concrete inputs *)

Lemma lookup_again_is_cached_witness :
  EmbeddingsClient.r_error
    (EmbeddingsClient.get_embedding Examples.digest Examples.embeddings_demo
       Examples.save_ok Examples.exn_str "cat" Examples.fresh_client).1
  = None
  /\ exists self1,
       EmbeddingsClient.get_embedding Examples.digest Examples.embeddings_demo
         Examples.save_ok Examples.exn_str "cat" self1
       = (EmbeddingsClient.EmbResult None (Some [1%float]) 0 0%float
            (Some true), self1).
Proof.
  split; [reflexivity|]. eexists.
  apply (lookup_again_is_cached Examples.digest Examples.embeddings_demo
           Examples.save_ok Examples.exn_str "cat" Examples.fresh_client).
  reflexivity.
Defined.

Lemma lookup_failures_witness :
  EmbeddingsClient.cache Examples.fresh_client
  !! EmbeddingsClient.get_cache_key Examples.digest Examples.fresh_client "cat"
  = None
  /\ (EmbeddingsClient.get_embedding Examples.digest Examples.embeddings_demo
        Examples.save_down Examples.exn_str "cat" Examples.fresh_client).1
     = EmbeddingsClient.error_result Examples.exn_str
         (LibError "Read-only file system")
  /\ EmbeddingsClient.request_count
       (EmbeddingsClient.get_embedding Examples.digest
          Examples.embeddings_demo Examples.save_down Examples.exn_str "cat"
          Examples.fresh_client).2
     = 1.
Proof.
  split; [reflexivity|].
  destruct (proj2 (lookup_failures Examples.digest Examples.embeddings_demo
                     Examples.save_down Examples.exn_str "cat"
                     Examples.fresh_client eq_refl)
              [1%float] 0%float (LibError "Read-only file system"))
    as (Herror & Hcount & _); [vm_compute; reflexivity..|].
  split; [exact Herror|exact Hcount].
Defined.

Lemma calculate_similarity_same_text_witness :
  exists self1,
    EmbeddingsClient.calculate_similarity Examples.digest
      Examples.embeddings_demo Examples.save_ok Examples.cosine_demo
      Examples.exn_str "cat" "cat" Examples.fresh_client
    = (Ok (EmbeddingsClient.SimilarityOk 1 0 (PrimFloat.add 0 0)
             (Some false) (Some true)), self1).
Proof.
  eexists.
  apply (calculate_similarity_same_text Examples.digest
           Examples.embeddings_demo Examples.save_ok Examples.cosine_demo
           Examples.exn_str "cat" Examples.fresh_client [1%float] 0 0%float).
  vm_compute. reflexivity.
Defined.

Lemma find_most_similar_top_witness :
  exists candidates hits omitted,
    (EmbeddingsClient.find_most_similar Examples.digest
       Examples.embeddings_demo Examples.save_ok Examples.cosine_demo
       Examples.exn_str "cat" ["dog"; "bad"; "cat"; "bird"] 2
       Examples.fresh_client).1
    = Ok (EmbeddingsClient.Hit <$> hits)
    /\ candidates ≡ₚ hits ++ omitted
    /\ length hits = (2 `min` length candidates)%nat
    /\ (forall a b, a ∈ hits -> b ∈ omitted ->
          PrimFloat.leb (EmbeddingsClient.similarity b)
            (EmbeddingsClient.similarity a) = true).
Proof.
  destruct (find_most_similar_top Examples.digest Examples.embeddings_demo
              Examples.save_ok Examples.cosine_demo Examples.exn_str
              "cat" ["dog"; "bad"; "cat"; "bird"] 2 Examples.fresh_client
              demo_errors_visible cosine_demo_not_nan ltac:(lia) eq_refl)
    as (q & _ & Hdefined).
  destruct (Hdefined (fun d _ => cosine_demo_defined q d))
    as (candidates & hits & omitted & Hfound & Hperm & Hlen & Hle & _).
  exists candidates, hits, omitted. split; [exact Hfound|].
  split; [exact Hperm|]. split; [exact Hlen|exact Hle].
Defined.


Lemma chat_success_state_witness :
  exists resp st',
    ChatApi.chat_completion_body Examples.no_encoding Examples.no_encode
      Examples.chat_create_hi (fun _ => "10.0") Examples.demo_settings
      Examples.demo_request "127.0.0.1" "c-1" 0.5 Examples.empty_state
    = (Ok resp, st')
    /\ ChatApi.conversations st' !! "c-1"
       = Some [("user", Some "hello world");
               ("assistant", Some (ChatApi.response resp))].
Proof.
  destruct (ChatApi.chat_completion_body Examples.no_encoding
              Examples.no_encode Examples.chat_create_hi (fun _ => "10.0")
              Examples.demo_settings Examples.demo_request "127.0.0.1" "c-1"
              0.5 Examples.empty_state) as [[resp|e] st'] eqn:Hrun;
    [|vm_compute in Hrun; discriminate].
  exists resp, st'. split; [reflexivity|].
  exact (proj1 (proj2 (chat_success_state Examples.no_encoding
                         Examples.no_encode Examples.chat_create_hi
                         (fun _ => "10.0") Examples.demo_settings
                         Examples.demo_request "127.0.0.1" "c-1" 0.5
                         Examples.empty_state st' resp Hrun))).
Defined.

Lemma first_conversation_untracked_witness :
  exists resp st',
    ChatApi.chat_completion_body Examples.no_encoding Examples.no_encode
      Examples.chat_create_hi (fun _ => "10.0") Examples.demo_settings
      Examples.demo_request "127.0.0.1" "c-1" 0.5 Examples.empty_state
    = (Ok resp, st')
    /\ ChatApi.list_conversations "127.0.0.1"
         (ChatApi.update_usage_stats "127.0.0.1"
            (ChatApi.resp_tokens_used resp) (ChatApi.resp_cost resp) st')
       = [].
Proof.
  destruct (ChatApi.chat_completion_body Examples.no_encoding
              Examples.no_encode Examples.chat_create_hi (fun _ => "10.0")
              Examples.demo_settings Examples.demo_request "127.0.0.1" "c-1"
              0.5 Examples.empty_state) as [[resp|e] st'] eqn:Hrun;
    [|vm_compute in Hrun; discriminate].
  exists resp, st'. split; [reflexivity|].
  exact (proj1 (proj2 (proj2
           (first_conversation_untracked Examples.no_encoding
              Examples.no_encode Examples.chat_create_hi (fun _ => "10.0")
              Examples.demo_settings Examples.demo_request "127.0.0.1" "c-1"
              0.5 Examples.empty_state st' resp eq_refl Hrun)))).
Defined.

Lemma usage_stats_accumulate_witness :
  exists u,
    ChatApi.usage_stats
      (foldl (fun s r => ChatApi.update_usage_stats "127.0.0.1" r.1 r.2 s)
         Examples.one_conversation [(30, 0.25%float); (8, 0.125%float)])
    !! "127.0.0.1" = Some u
    /\ ChatApi.total_requests u = 3
    /\ ChatApi.total_tokens u = 50
    /\ ChatApi.user_conversations u = {["c-1"]}.
Proof.
  destruct (usage_stats_accumulate "127.0.0.1"
              [(30, 0.25%float); (8, 0.125%float)] Examples.one_conversation
              ltac:(discriminate)) as [(u & Hu & Hn & Ht & Hc) _].
  exists u. split; [exact Hu|]. split; [exact Hn|]. split; [exact Ht|].
  exact Hc.
Defined.

Lemma get_user_after_update_witness :
  exists st1 rdb1 st2 rdb2,
    Redis.run_server
      (CachingApi.update_user true "1" [(KStr "age", VInt 31)]
         CachingApi.initial_app)
      {[CachingApi._get_key "user:1" := "stale"]}
    = Some ((VDict (CachingApi.user_row "1" "John Doe" "john@example.com" 31),
             st1), rdb1)
    /\ Redis.run_server
         (CachingApi.get_user Examples.json_dumps Json.loads 300 true "1" st1)
         rdb1
       = Some ((VDict (CachingApi.user_row "1" "John Doe" "john@example.com"
                         31), st2), rdb2).
Proof.
  destruct (get_user_after_update Examples.json_dumps Json.loads 300 "1"
              [(KStr "age", VInt 31)]
              (CachingApi.user_row "1" "John Doe" "john@example.com" 30)
              CachingApi.initial_app
              {[CachingApi._get_key "user:1" := "stale"]} eq_refl)
    as (st1 & rdb1 & st2 & rdb2 & Hupdate & Hget & _).
  exists st1, rdb1, st2, rdb2. split; [exact Hupdate|exact Hget].
Defined.

Lemma get_user_twice_witness :
  exists st1 rdb1,
    Redis.run_server
      (CachingApi.get_user Examples.json_dumps Json.loads 300 true "2"
         CachingApi.initial_app) ∅
    = Some ((VDict (CachingApi.user_row "2" "Jane Smith" "jane@example.com"
                      25), st1), rdb1)
    /\ Redis.run_server
         (CachingApi.get_user Examples.json_dumps Json.loads 300 true "2" st1)
         rdb1
       = Some ((VDict (CachingApi.user_row "2" "Jane Smith"
                         "jane@example.com" 25),
                CachingApi.App CachingApi.fake_database
                  (CachingApi.CacheStats 1 1 1 0 0)), rdb1).
Proof.
  eexists _, _.
  apply (get_user_twice Examples.json_dumps Json.loads 300 "2"
           (CachingApi.user_row "2" "Jane Smith" "jane@example.com" 25)
           (Json.dumps (VDict (CachingApi.user_row "2" "Jane Smith"
                                 "jane@example.com" 25)))
           CachingApi.initial_app ∅).
  - reflexivity.
  - discriminate.
  - apply lookup_empty.
  - reflexivity.
  - vm_compute. discriminate.
  - vm_compute. reflexivity.
Defined.

Lemma empty_posts_never_served_witness :
  Redis.run_server
    (CachingApi.get_user_posts Examples.json_dumps Json.loads 300 true "3"
       CachingApi.initial_app) Examples.no_posts_cached
  = Some ((Ok (VList []),
           CachingApi.App CachingApi.fake_database
             (CachingApi.CacheStats 1 0 1 0 0)),
          Examples.no_posts_cached).
Proof.
  apply (empty_posts_never_served Examples.json_dumps Json.loads 300 "3" "[]"
           CachingApi.initial_app Examples.no_posts_cached).
  - reflexivity.
  - reflexivity.
  - discriminate.
  - vm_compute. reflexivity.
  - apply lookup_singleton_eq.
Defined.

Lemma cached_until_expiry_witness :
  exists r st1,
    EmbeddingsApi.get_embedding Examples.digest Examples.embeddings_demo
      Examples.clock Examples.exn_str 60 "cat" "text-embedding-3-small" true
      Examples.no_embeddings
    = (Ok r, st1)
    /\ EmbeddingsApi.r_cached r = false
    /\ EmbeddingsApi.get_embedding Examples.digest Examples.embeddings_demo
         Examples.clock Examples.exn_str 60 "cat" "text-embedding-3-small"
         true st1
       = (Ok (EmbeddingsApi.Emb [1%float] 0 0 true),
          EmbeddingsApi.State (EmbeddingsApi.embeddings_cache st1) 1 2).
Proof.
  destruct (EmbeddingsApi.get_embedding Examples.digest
              Examples.embeddings_demo Examples.clock Examples.exn_str 60
              "cat" "text-embedding-3-small" true Examples.no_embeddings)
    as [[r|e] st1] eqn:Hrun; [|vm_compute in Hrun; discriminate].
  assert (EmbeddingsApi.r_cached r = false
          /\ EmbeddingsApi.r_embedding r = [1%float]
          /\ EmbeddingsApi.api_calls st1 = 1%nat
          /\ EmbeddingsApi.clock_reads st1 = 1%nat)
    as (Hfresh & Hembedding & Hcalls & Hreads).
  { vm_compute in Hrun. injection Hrun as <- <-. by repeat split. }
  exists r, st1. split; [reflexivity|]. split; [exact Hfresh|].
  destruct (cached_until_expiry Examples.digest Examples.embeddings_demo
              Examples.clock Examples.exn_str 60 "cat"
              "text-embedding-3-small" Examples.no_embeddings st1 r Hrun
              Hfresh) as (_ & Hbefore & _).
  rewrite Hbefore; rewrite Hreads; [|vm_compute; reflexivity].
  by rewrite Hembedding, Hcalls.
Defined.

Lemma handle_message_calls_all_witness :
  PubSub._handle_message Json.loads Examples.call_demo 4 "news" "[1]"
    Examples.three_handlers
  = Some (PubSub.State {["news" := [0; 1; 2]%nat]} [0; 1; 2]%nat,
          [0; 1; 2]%nat).
Proof.
  rewrite (handle_message_calls_all Json.loads Examples.call_demo "news" "[1]"
             Examples.three_handlers 4).
  - vm_compute. reflexivity.
  - intros h ch d st. reflexivity.
  - vm_compute. lia.
Defined.

Lemma rate_limit_allows_max_witness :
  exists db calls,
    Redis.run (CacheDemo.counting_server Examples.no_expiry)
      (CacheDemo.rate_limiting_example Examples.json_dumps Json.loads) ∅
    = (Ok [true; true; true; true; true; false; false], db, calls)
    /\ db !! "rate_limit:user456" = Some "5".
Proof.
  destruct (rate_limit_allows_max Examples.json_dumps Json.loads
              Examples.no_expiry "rate_limit:user456" 5 60) with (n := 7%nat)
              (db := (∅ : gmap string string))
    as (db & calls & Hrun & Hentry & _).
  - intros n Hn.
    assert (n = 1 \/ n = 2 \/ n = 3 \/ n = 4 \/ n = 5)
      as [->|[->|[->|[->| ->]]]] by lia; vm_compute; reflexivity.
  - intros key db. reflexivity.
  - lia.
  - lia.
  - apply lookup_empty.
  - exists db, calls. split; [exact Hrun|exact Hentry].
Defined.

Lemma uncached_always_fetches_witness :
  let st := EmbeddingsApi.State
              (<[Examples.digest "text-embedding-3-small:cat"
                 := EmbeddingsApi.CacheEntry [1%float] 100]> ∅) 0 0 in
  exists e c,
    Examples.embeddings_demo 0 "cat" "text-embedding-3-small" = Ok e
    /\ EmbeddingsApi.get_embedding Examples.digest Examples.embeddings_demo
         Examples.clock Examples.exn_str 60 "cat" "text-embedding-3-small"
         false st
       = (Ok (EmbeddingsApi.Emb e 0 c false),
          EmbeddingsApi.State (EmbeddingsApi.embeddings_cache st) 1 0).
Proof.
  intros st.
  destruct (Examples.embeddings_demo 0 "cat" "text-embedding-3-small")
    as [e|ex] eqn:Hcreate; [|vm_compute in Hcreate; discriminate].
  destruct (uncached_always_fetches Examples.digest Examples.embeddings_demo
              Examples.clock Examples.exn_str 60 "cat"
              "text-embedding-3-small" st) as (Hstate & _ & Hreturned).
  specialize (Hreturned e Hcreate).
  destruct (EmbeddingsApi.get_embedding _ _ _ _ _ _ _ _ _) as [r st'].
  simpl in Hstate, Hreturned. subst r st'.
  exists e. eexists. split; reflexivity.
Defined.


Lemma batch_one_entry_per_text_witness :
  exists results self',
    EmbeddingsClient.get_embeddings_batch Examples.digest Examples.save_ok
      Examples.exn_str Examples.embeddings_batch_demo ["a"; "bad"; "c"] 2
      Examples.fresh_client
    = (Ok results, self')
    /\ EmbeddingsClient.b_text <$> results = ["a"; "bad"; "c"]
    /\ EmbeddingsClient.b_error <$> results
       = [Some "Invalid input"; Some "Invalid input"; None].
Proof.
  destruct (batch_one_entry_per_text Examples.digest Examples.save_ok
              Examples.exn_str Examples.embeddings_batch_demo)
    with (texts := ["a"; "bad"; "c"]) (batch_size := 2)
         (self := Examples.fresh_client)
    as (results & self' & Hrun & Htexts & _).
  - intros tick batch m data. unfold Examples.embeddings_batch_demo.
    destruct (existsb _ _); [done|]. intros [= <-]. apply length_fmap.
  - done.
  - lia.
  - exists results, self'. split; [exact Hrun|]. split; [exact Htexts|].
    vm_compute in Hrun. by injection Hrun as <- _.
Defined.

Lemma batch_save_failure_duplicates_witness :
  exists results,
    (EmbeddingsClient.get_embeddings_batch Examples.digest
       Examples.save_down_once Examples.exn_str Examples.embeddings_batch_demo
       ["cat"; "dog"] 100 Examples.fresh_client).1
    = Ok results
    /\ EmbeddingsClient.b_text <$> results = ["cat"; "dog"; "cat"; "dog"].
Proof.
  edestruct (batch_save_failure_duplicates Examples.digest
               Examples.save_down_once Examples.exn_str
               Examples.embeddings_batch_demo ["cat"; "dog"] 100
               Examples.fresh_client [[0.5%float]; [0.5%float]] 0%float
               0%float (LibError "Read-only file system"))
    as [Hrun _]; [done|simpl; lia|vm_compute; reflexivity..|].
  eexists. split; [exact Hrun|]. reflexivity.
Defined.
